(** * Delivery-estimate engine: a shallow embedding and its properties

    The development follows the service files of the repository:
    [app/services/delivery-estimate.js] (the orchestrator, the ship-date
    rule, the zone heuristic and the business-day arithmetic),
    [app/services/carriers/] (the carrier types, the FedEx carrier and the
    carrier factory) and the default location of
    [app/services/geolocation.js].

    Modelling conventions.
    - A JavaScript [Date] holds a time value: integer milliseconds since the
      epoch, or NaN for an Invalid Date.  Every method that sets a date
      clips its result as ECMAScript does ([TimeClip]): a time more than
      8.64e15 ms from the epoch makes the date invalid.  The local time
      zone has a fixed offset [LocalTZA] from UTC.
    - The clock is read through a parameter [now] of the function that
      reads it: the readings of one call are taken at one instant, two
      calls take two readings.
    - JavaScript numbers that the code counts with are integers ([Z]); a
      number that may be NaN is an [option Z] with [None] for NaN.  The
      integers stand for the doubles of the code, which hold every
      integer up to 2^53 in size.  What [Number] reads from a text is a
      double in full ([Num]): the text may hold a fraction, an exponent
      or an infinity.
    - A value that may be [undefined] or [null] is an [option]; a string is
      falsy exactly when it is empty.  Strings hold ASCII text.
    - [while] loops run on fuel and return [None] when the fuel runs out;
      every JavaScript function built on a loop comes as the loop on fuel
      and as a total function that runs the loop on the fuel of its
      variant, which is proved to be enough.
    - A function that may throw returns an [Outcome]; the orchestrator and
      the carrier run in the monad [M], which also records the calls made
      to the collaborators (settings store, look-ups, remote endpoints).
      What the collaborators answer is a parameter of the model; the bodies
      of the remote answers are typed by the members that the code reads.
      Console output is not modelled. *)

From Stdlib Require Import ZArith QArith List String Ascii Bool Lia.
From Stdlib Require Import DecimalString.
Import ListNotations.

Local Open Scope string_scope.
Local Open Scope Z_scope.

(* ===================================================================== *)
(** * Loops *)
(* ===================================================================== *)

Module Loops.

Section While.
Context {St : Type}.
Variable cond : St -> bool.
Variable body : St -> St.

(** [while (cond) { body }] started in state [s]. *)
Fixpoint while (fuel : nat) (s : St) : option St :=
  if cond s then
    match fuel with
    | O => None
    | S fuel' => while fuel' (body s)
    end
  else Some s.

(** The loop as a total function, for a variant [m] of the loop. *)
Definition while_for (m : St -> nat) (s : St) : St :=
  match while (m s) s with
  | Some r => r
  | None => s
  end.
End While.

End Loops.

(* ===================================================================== *)
(** * JavaScript strings and numbers *)
(* ===================================================================== *)

Module JS.

(** An exception value: every exception raised in the two files is an
    [Error] object (TypeError, RangeError, SyntaxError, [new Error(..)]),
    of which the code reads the [message] only. *)
Record Error : Type := mkError { name : string; message : string }.

Inductive Outcome (A : Type) : Type :=
| Ok (a : A)
| Throw (e : Error).
Arguments Ok {A} a.
Arguments Throw {A} e.

(** Truthiness of a string that may be [undefined]/[null]. *)
Definition truthy (s : option string) : bool :=
  match s with
  | Some EmptyString => false
  | Some _ => true
  | None => false
  end.

(** [a || b] on numbers that may be absent: [0], NaN, [null] and
    [undefined] are falsy. *)
Definition or_num (a b : option Z) : option Z :=
  match a with
  | Some 0 => b
  | Some n => Some n
  | None => b
  end.

Definition is_digit (c : ascii) : bool :=
  let n := nat_of_ascii c in (48 <=? n)%nat && (n <=? 57)%nat.

Definition digit_value (c : ascii) : Z := Z.of_nat (nat_of_ascii c) - 48.

(** White space that [parseInt] and [Number] strip (the ASCII part of
    StrWhiteSpaceChar: TAB, LF, VT, FF, CR, SP). *)
Definition is_space (c : ascii) : bool :=
  let n := nat_of_ascii c in
  ((9 <=? n)%nat && (n <=? 13)%nat) || (n =? 32)%nat.

Fixpoint skip_spaces (s : string) : string :=
  match s with
  | String c r => if is_space c then skip_spaces r else s
  | EmptyString => s
  end.

(** The value of the longest prefix of digits, read in base 10, with the
    number of digits read. *)
Fixpoint read_digits (acc : Z) (count : nat) (s : string) : Z * nat :=
  match s with
  | String c r =>
      if is_digit c then read_digits (10 * acc + digit_value c) (S count) r
      else (acc, count)
  | EmptyString => (acc, count)
  end.

Definition digits_prefix (s : string) : option Z :=
  match read_digits 0 0 s with
  | (_, O) => None
  | (v, S _) => Some v
  end.

(** [parseInt(s, 10)]: leading white space, an optional sign, then the
    longest run of digits; NaN when there is no digit.  The value is the
    integer that the digits write, which is the number of the code as
    long as it is a double (every integer up to [2 ^ 53] in size is). *)
Definition parseInt (s : string) : option Z :=
  match skip_spaces s with
  | String c r =>
      if Ascii.eqb c "-" then option_map Z.opp (digits_prefix r)
      else if Ascii.eqb c "+" then digits_prefix r
      else digits_prefix (String c r)
  | EmptyString => None
  end.

(** [s.substring(0, n)] *)
Fixpoint substring0 (n : nat) (s : string) : string :=
  match n, s with
  | S n', String c r => String c (substring0 n' r)
  | _, _ => EmptyString
  end.

(** [s.match(/(\d+)/)]: the first run of digits anywhere in [s]. *)
Fixpoint match_digits (s : string) : option string :=
  match s with
  | String c r =>
      if is_digit c then
        Some ((fix take (t : string) : string :=
                 match t with
                 | String d u => if is_digit d then String d (take u) else EmptyString
                 | EmptyString => EmptyString
                 end) s)
      else match_digits r
  | EmptyString => None
  end.

(** [s.split(':')] *)
Fixpoint split_colon (cur : string) (s : string) : list string :=
  match s with
  | String c r =>
      if Ascii.eqb c ":" then cur :: split_colon EmptyString r
      else split_colon (cur ++ String c EmptyString) r
  | EmptyString => [cur]
  end.

(** A number that need not be an integer: NaN, an infinity, the negative
    zero, or a finite double, which is the fraction [value] in lowest
    terms. *)
Inductive Num : Type :=
| NaN
| Infinity (negative : bool)
| MinusZero
| Finite (value : Q).

Definition of_Z (z : Z) : Num := Finite (inject_Z z).

(** The integer nearest to [p / q], the even one of two that are equally
    near, for [0 <= p] and [0 < q]. *)
Definition nearest_even (p q : Z) : Z :=
  let d := p / q in
  match 2 * (p mod q) ?= q with
  | Lt => d
  | Gt => d + 1
  | Eq => if Z.even d then d else d + 1
  end.

(** The [k] with [2 ^ k <= p / q < 2 ^ (k + 1)], for [0 < p] and
    [0 < q]. *)
Definition binade (p q : Z) : Z :=
  let k := Z.log2 p - Z.log2 q in
  if (if 0 <=? k then q * 2 ^ k <=? p else q <=? p * 2 ^ (- k)) then k else k - 1.

(** The double nearest to [p / q], for [0 < p] and [0 < q] (IEEE 754
    binary64, round to nearest, ties to even): 53 significant bits,
    steps of [2 ^ -1074] below [2 ^ -1022], and nothing finite from
    [2 ^ 1024] on ([None]). *)
Definition nearest_double (p q : Z) : option Q :=
  let e := Z.max (binade p q - 52) (- 1074) in
  let m := if 0 <=? e then nearest_even p (q * 2 ^ e)
           else nearest_even (p * 2 ^ (- e)) q in
  if (971 <? e) || ((e =? 971) && (m =? 2 ^ 53)) then None
  else Some (if 0 <=? e then inject_Z (m * 2 ^ e)
             else Qred (Qmake m (Z.to_pos (2 ^ (- e))))).

(** The number that a literal of value [p / q] is read as, with its
    sign. *)
Definition rounded (negative : bool) (p q : Z) : Num :=
  if p =? 0 then (if negative then MinusZero else Finite 0)
  else match nearest_double p q with
       | Some v => if Qnum v =? 0 then (if negative then MinusZero else Finite 0)
                   else Finite (if negative then Qopp v else v)
       | None => Infinity negative
       end.

(** The value of a character as a digit of a base up to 16. *)
Definition digit_in (base : Z) (c : ascii) : option Z :=
  let n := Z.of_nat (nat_of_ascii c) in
  let v := if (48 <=? n) && (n <=? 57) then n - 48
           else if (97 <=? n) && (n <=? 102) then n - 87
           else if (65 <=? n) && (n <=? 70) then n - 55
           else 16 in
  if v <? base then Some v else None.

(** The longest run of digits of [base] at the start of [s], read after
    the digits of [acc]: its value, its length and the rest of [s]. *)
Fixpoint read_run (base acc : Z) (count : nat) (s : string) : Z * nat * string :=
  match s with
  | String c r =>
      match digit_in base c with
      | Some v => read_run base (base * acc + v) (S count) r
      | None => (acc, count, s)
      end
  | EmptyString => (acc, count, s)
  end.

(** [s] without the white space at its end. *)
Fixpoint trim_end (s : string) : string :=
  match s with
  | String c r =>
      match trim_end r with
      | EmptyString => if is_space c then EmptyString else String c EmptyString
      | r' => String c r'
      end
  | EmptyString => EmptyString
  end.

(** An exponent part [e], [e+] or [e-] with its digits, up to the end of
    the text; no exponent part is the exponent [0]. *)
Definition exponent_part (s : string) : option Z :=
  match s with
  | EmptyString => Some 0
  | String c r =>
      if Ascii.eqb c "e" || Ascii.eqb c "E" then
        let '(negative, digits) :=
          match r with
          | String d u => if Ascii.eqb d "-" then (true, u)
                          else if Ascii.eqb d "+" then (false, u)
                          else (false, r)
          | EmptyString => (false, r)
          end in
        match read_run 10 0 0 digits with
        | (_, O, _) => None
        | (x, S _, EmptyString) => Some (if negative then - x else x)
        | (_, S _, String _ _) => None
        end
      else None
  end.

(** An unsigned decimal literal: [Infinity], or digits with an optional
    fraction and an optional exponent part, at least one digit before the
    exponent part. *)
Definition unsigned_decimal (negative : bool) (s : string) : Num :=
  if String.eqb s "Infinity" then Infinity negative
  else
    let '(int, n_int, r1) := read_run 10 0 0 s in
    let '(mantissa, n_frac, r2) :=
      match r1 with
      | String c r => if Ascii.eqb c "." then read_run 10 int 0 r else (int, O, r1)
      | EmptyString => (int, O, r1)
      end in
    match (n_int + n_frac)%nat, exponent_part r2 with
    | S _, Some x =>
        let scale := x - Z.of_nat n_frac in
        if 0 <=? scale then rounded negative (mantissa * 10 ^ scale) 1
        else rounded negative mantissa (10 ^ (- scale))
    | _, _ => NaN
    end.

(** An integer literal in base 2, 8 or 16, after its prefix. *)
Definition integer_in (base : Z) (s : string) : Num :=
  match read_run base 0 0 s with
  | (v, S _, EmptyString) => rounded false v 1
  | _ => NaN
  end.

(** [Number(s)] for a string [s] (StringToNumber): white space is
    stripped at both ends; the empty string is [0]; the rest is a signed
    decimal literal or an unsigned integer literal with a prefix [0b],
    [0o] or [0x], read to the nearest double; any other text is NaN. *)
Definition Number (s : string) : Num :=
  match trim_end (skip_spaces s) with
  | EmptyString => Finite 0
  | String c r as text =>
      if Ascii.eqb c "-" then unsigned_decimal true r
      else if Ascii.eqb c "+" then unsigned_decimal false r
      else
        match r with
        | String p digits =>
            if Ascii.eqb c "0" && (Ascii.eqb p "x" || Ascii.eqb p "X")
            then integer_in 16 digits
            else if Ascii.eqb c "0" && (Ascii.eqb p "o" || Ascii.eqb p "O")
            then integer_in 8 digits
            else if Ascii.eqb c "0" && (Ascii.eqb p "b" || Ascii.eqb p "B")
            then integer_in 2 digits
            else unsigned_decimal false text
        | EmptyString => unsigned_decimal false text
        end
  end.

(** [isNaN(n)] *)
Definition isNaN (n : Num) : bool :=
  match n with NaN => true | _ => false end.

(** [n >= z] and [n <= z] for an integer [z]. *)
Definition Num_ge (n : Num) (z : Z) : bool :=
  match n with
  | NaN => false
  | Infinity negative => negb negative
  | MinusZero => z <=? 0
  | Finite v => Qle_bool (inject_Z z) v
  end.

Definition Num_le (n : Num) (z : Z) : bool :=
  match n with
  | NaN => false
  | Infinity negative => negative
  | MinusZero => 0 <=? z
  | Finite v => Qle_bool v (inject_Z z)
  end.

(** The whole part of a finite number (ToIntegerOrInfinity); [None] for
    NaN and the infinities. *)
Definition truncate (n : Num) : option Z :=
  match n with
  | Finite v => Some (Z.quot (Qnum v) (Zpos (Qden v)))
  | MinusZero => Some 0
  | NaN | Infinity _ => None
  end.

(** The double nearest to an integer; [None] when it is an infinity.
    Every integer up to [2 ^ 53] in size is a double. *)
Definition double_of_Z (z : Z) : option Z :=
  if Z.abs z <=? 9007199254740992 then Some z
  else match nearest_double (Z.abs z) 1 with
       | Some v => Some (Z.sgn z * Qnum v)
       | None => None
       end.

(** Template-literal rendering of an integer. *)
Definition show_Z (n : Z) : string := NilZero.string_of_int (Z.to_int n).

Definition show_num (n : option Z) : string :=
  match n with Some z => show_Z z | None => "NaN" end.

End JS.

(* ===================================================================== *)
(** * Dates *)
(* ===================================================================== *)

Module JSDate.

Definition msPerMinute : Z := 60000.
Definition msPerHour : Z := 3600000.
Definition msPerDay : Z := 86400000.

(** A [Date] object: its time value, or NaN (an Invalid Date). *)
Inductive Date : Type :=
| DateOf (tv : Z)
| InvalidDate.

(** The range of the time values: 8.64e15 ms, which are 100,000,000 days,
    on either side of the epoch. *)
Definition maxTime : Z := 8640000000000000.

(** [TimeClip(time)]: a time outside the range is NaN; [new Date(value)]
    on a number. *)
Definition TimeClip (t : Z) : Date :=
  if maxTime <? Z.abs t then InvalidDate else DateOf t.

Definition is_valid (d : Date) : bool :=
  match d with DateOf _ => true | InvalidDate => false end.

(** [a < b] and [a >= b] on dates compare the time values; a comparison
    with NaN is false. *)
Definition lt (a b : Date) : bool :=
  match a, b with
  | DateOf x, DateOf y => x <? y
  | _, _ => false
  end.

Definition ge (a b : Date) : bool :=
  match a, b with
  | DateOf x, DateOf y => y <=? x
  | _, _ => false
  end.

(** Day number and week day of a time value (ECMAScript [Day] and
    [WeekDay]: day 0 was a Thursday; Sunday is 0, Saturday is 6). *)
Definition Day (t : Z) : Z := t / msPerDay.
Definition TimeWithinDay (t : Z) : Z := t mod msPerDay.
Definition WeekDay (t : Z) : Z := (Day t + 4) mod 7.

(** Civil date of a day number: year, month (0 for January) and day of
    the month, in the proleptic Gregorian calendar. *)
Definition civil_of_day (day : Z) : Z * Z * Z :=
  let z := day + 719468 in
  let era := z / 146097 in
  let doe := z - era * 146097 in
  let yoe := (doe - doe / 1460 + doe / 36524 - doe / 146096) / 365 in
  let doy := doe - (365 * yoe + yoe / 4 - yoe / 100) in
  let mp := (5 * doy + 2) / 153 in
  let d := doy - (153 * mp + 2) / 5 + 1 in
  let m := if mp <? 10 then mp + 2 else mp - 10 in
  let y := yoe + era * 400 + (if m <=? 1 then 1 else 0) in
  (y, m, d).

Definition month_short (m : Z) : string :=
  nth (Z.to_nat m)
    ["Jan"; "Feb"; "Mar"; "Apr"; "May"; "Jun";
     "Jul"; "Aug"; "Sep"; "Oct"; "Nov"; "Dec"] "".

(** The result of [d.toISOString()]: the ISO-8601 text of the time
    value [tv], which it determines and is determined by; the text itself
    is not spelled out. *)
Inductive ISOString : Type := ISO (tv : Z).

(** [d.toISOString()] throws a RangeError on an Invalid Date. *)
Definition toISOString (d : Date) : JS.Outcome ISOString :=
  match d with
  | DateOf t => JS.Ok (ISO t)
  | InvalidDate => JS.Throw (JS.mkError "RangeError" "Invalid time value")
  end.

Section Zone.
(** Offset of local time from UTC, in milliseconds. *)
Variable LocalTZA : Z.

Definition LocalTime (t : Z) : Z := t + LocalTZA.
Definition UTC (t : Z) : Z := t - LocalTZA.

(** [d.getDay()] *)
Definition getDay (d : Date) : option Z :=
  match d with
  | DateOf t => Some (WeekDay (LocalTime t))
  | InvalidDate => None
  end.

(** [d.getMonth()] and [d.getDate()] *)
Definition getMonth (d : Date) : option Z :=
  match d with
  | DateOf t => let '(_, m, _) := civil_of_day (Day (LocalTime t)) in Some m
  | InvalidDate => None
  end.

Definition getDate (d : Date) : option Z :=
  match d with
  | DateOf t => let '(_, _, dd) := civil_of_day (Day (LocalTime t)) in Some dd
  | InvalidDate => None
  end.

(** [d.setDate(date)]: the day [date] of the month of [d], at the same
    local time.  [MakeDay] takes the day number of the first day of that
    month, which is [Day lt - (getDate d - 1)], and adds [date - 1]; a
    [date] outside the month runs into the neighbouring months.  The new
    time value is clipped. *)
Definition setDate (d : Date) (date : option Z) : Date :=
  match d, date with
  | DateOf t, Some n =>
      let lt := LocalTime t in
      let '(_, _, dd) := civil_of_day (Day lt) in
      TimeClip (UTC ((Day lt - (dd - 1) + (n - 1)) * msPerDay + TimeWithinDay lt))
  | _, _ => InvalidDate
  end.

(** [d.setDate(d.getDate() + 1)] *)
Definition setDate_next (d : Date) : Date :=
  setDate d (option_map (fun n => n + 1) (getDate d)).

(** [MakeTime(hour, min, 0, 0)]: the milliseconds of the whole parts of
    [hour] and [min], in the arithmetic of doubles; NaN ([None]) when a
    number or a result is not finite. *)
Definition MakeTime (hour min : JS.Num) : option Z :=
  match JS.truncate hour, JS.truncate min with
  | Some h, Some m =>
      match JS.double_of_Z (h * msPerHour), JS.double_of_Z (m * msPerMinute) with
      | Some a, Some b => JS.double_of_Z (a + b)
      | _, _ => None
      end
  | _, _ => None
  end.

(** [d.setHours(h, m, 0, 0)]: the given time on the local day of [d];
    hours or minutes that are not finite make the date invalid, and the
    new time value is clipped.  (The sum of the day and the time is exact
    in doubles whenever [TimeClip] accepts it.) *)
Definition setHours (d : Date) (h m : JS.Num) : Date :=
  match d, MakeTime h m with
  | DateOf t, Some time => TimeClip (UTC (Day (LocalTime t) * msPerDay + time))
  | _, _ => InvalidDate
  end.

(** [d.getDay() === 0 || d.getDay() === 6] *)
Definition on_weekend (d : Date) : bool :=
  match getDay d with
  | Some 0 | Some 6 => true
  | _ => false
  end.

(** [d.getDay() !== 0 && d.getDay() !== 6] *)
Definition off_weekend (d : Date) : bool := negb (on_weekend d).

(** The number of weekend days in a row that start at [d]: the variant
    of the loops that step over a weekend. *)
Definition weekend_run (d : Date) : nat :=
  match getDay d with
  | Some 6 => 2
  | Some 0 => 1
  | _ => 0
  end.

(** [d.toLocaleDateString('en-US', { month: 'short', day: 'numeric' })] *)
Definition toLocaleDateString_short (d : Date) : string :=
  match getMonth d, getDate d with
  | Some m, Some dd => month_short m ++ " " ++ JS.show_Z dd
  | _, _ => "Invalid Date"
  end.
End Zone.

End JSDate.

(* ===================================================================== *)
(** * Effects: exceptions and calls to collaborators *)
(* ===================================================================== *)

Module Eff.
Import JS.

(** The calls that leave the process. *)
Inductive Event : Type :=
| CallSettingsStore (shop : string)
| CallPostalLookup (postalCode : string)
| CallLocateIP (ip : option string)
| CallOAuthToken (url : string)
| CallRateQuotes (url : string).

(** A computation that runs on an object of type [Obj] (the receiver
    [this] of a method; [unit] for a plain function), may throw, and
    appends to the log of calls.  Both the object and the log survive a
    throw, as mutations and calls already made do in JavaScript. *)
Definition M (Obj A : Type) : Type :=
  Obj -> list Event -> Outcome A * Obj * list Event.

Definition ret {Obj A} (a : A) : M Obj A := fun o l => (Ok a, o, l).

Definition bind {Obj A B} (c : M Obj A) (k : A -> M Obj B) : M Obj B :=
  fun o l =>
    match c o l with
    | (Ok a, o', l') => k a o' l'
    | (Throw e, o', l') => (Throw e, o', l')
    end.

Definition throw {Obj A} (e : Error) : M Obj A := fun o l => (Throw e, o, l).

(** [try { c } catch (e) { h e }] *)
Definition try_catch {Obj A} (c : M Obj A) (h : Error -> M Obj A) : M Obj A :=
  fun o l =>
    match c o l with
    | (Ok a, o', l') => (Ok a, o', l')
    | (Throw e, o', l') => h e o' l'
    end.

(** A pure step that may throw. *)
Definition lift {Obj A} (r : Outcome A) : M Obj A := fun o l => (r, o, l).

(** [await] of a call to a collaborator with the given settled result. *)
Definition call {Obj A} (ev : Event) (r : Outcome A) : M Obj A :=
  fun o l => (r, o, (l ++ [ev])%list).

Definition this {Obj} : M Obj Obj := fun o l => (Ok o, o, l).
Definition set_this {Obj} (o' : Obj) : M Obj unit := fun _ l => (Ok tt, o', l).

(** A method call [obj.method(..)] on a local object, which is dropped
    after the call. *)
Definition on_object {Obj Obj' A} (obj : Obj') (c : M Obj' A) : M Obj A :=
  fun o l =>
    match c obj l with
    | (r, _, l') => (r, o, l')
    end.

Definition TypeError (msg : string) : Error := mkError "TypeError" msg.

End Eff.

Declare Scope eff_scope.
Delimit Scope eff_scope with eff.
Notation "x <- c ;; k" := (Eff.bind c (fun x => k))
  (at level 61, c at next level, right associativity) : eff_scope.
Notation "c ;;; k" := (Eff.bind c (fun _ => k))
  (at level 61, right associativity) : eff_scope.

(* ===================================================================== *)
(** * carriers/types.js *)
(* ===================================================================== *)

Module Types.
Import JSDate.

Record Address : Type := mkAddress {
  street : option string;
  city : option string;
  state : option string;
  postalCode : option string;
  countryCode : option string
}.

Record TransitTimeRequest : Type := mkRequest {
  origin : Address;
  destination : Address;
  shipDate : option Date;
  serviceType : option string
}.

Record TransitTimeResponse : Type := mkResponse {
  success : bool;
  error : option string;
  deliveryDateMin : option Date;
  deliveryDateMax : option Date;
  transitDays : option Z;
  serviceName : option string;
  carrier : option string
}.

Record CarrierCredentials : Type := mkCredentials {
  apiKey : option string;
  secretKey : option string;
  accountNumber : option string
}.

Definition CARRIERS_FEDEX : string := "fedex".
Definition FEDEX_SERVICE_TYPES_GROUND : string := "FEDEX_GROUND".

(** The object literal [{ success: false, error, carrier }]. *)
Definition failure (err : string) (carrierName : string) : TransitTimeResponse :=
  mkResponse false (Some err) None None None None (Some carrierName).

End Types.

(* ===================================================================== *)
(** * carriers/fedex-carrier.js *)
(* ===================================================================== *)

Module FedExCarrier.
Import JS JSDate Eff Types.
Local Open Scope eff_scope.

Definition FEDEX_SANDBOX_URL : string := "https://apis-sandbox.fedex.com".
Definition FEDEX_PRODUCTION_URL : string := "https://apis.fedex.com".

(** An instance: the fields set by the constructors of [BaseCarrier] and
    [FedExCarrier]. *)
Record Carrier : Type := mkCarrier {
  credentials : option CarrierCredentials;
  carrierName : string;
  baseUrl : string;
  accessToken : option string;
  tokenExpiry : option Date
}.

Definition new (creds : option CarrierCredentials) (useSandbox : bool) : Carrier :=
  mkCarrier creds CARRIERS_FEDEX
    (if useSandbox then FEDEX_SANDBOX_URL else FEDEX_PRODUCTION_URL)
    None None.

(** ** What the remote endpoints answer

    The bodies are typed by the members that the code reads; each level
    may be missing, and a body may be the JSON [null] ([None]). *)

Record OAuthData : Type := mkOAuthData {
  access_token : option string;
  expires_in : option Z
}.

Inductive OAuthResponse : Type :=
| OAuthRefused (text : Outcome string)               (* [!response.ok] *)
| OAuthGranted (json : Outcome (option OAuthData)).

Record TransitTime : Type := mkTransitTime {
  tt_transitDays : option Z;
  tt_description : option string
}.

Record DateDetail : Type := mkDateDetail { dayFormat : option string }.

Record Commit : Type := mkCommit {
  transitTime : option TransitTime;
  dateDetail : option DateDetail
}.

Record RateReplyDetail : Type := mkRateReplyDetail {
  commit : option Commit;
  reply_serviceName : option string
}.

Record RateOutput : Type := mkRateOutput {
  rateReplyDetails : option (list RateReplyDetail)
}.

Record RateData : Type := mkRateData { output : option RateOutput }.

Record ErrorEntry : Type := mkErrorEntry { entry_message : option string }.
Record ErrorData : Type := mkErrorData { errors : option (list ErrorEntry) }.

Inductive RateResponse : Type :=
| RateRefused (json : Outcome (option ErrorData))    (* [!response.ok] *)
| RateAnswered (json : Outcome (option RateData)).

(** The date part of an ISO string: the UTC day of the time value. *)
Inductive DateStamp : Type := Stamp (day : Z).

Record RateAddress : Type := mkRateAddress {
  streetLines : option (list string);
  addr_city : option string;
  stateOrProvinceCode : option string;
  addr_postalCode : option string;
  addr_countryCode : option string
}.

Record RateRequest : Type := mkRateRequest {
  req_accountNumber : option string;
  shipper : RateAddress;
  recipient : RateAddress;
  shipDateStamp : DateStamp;
  pickupType : string;
  req_serviceType : string;
  packagingType : string;
  rateRequestType : list string;
  weight_units : string;
  weight_value : Z
}.

(** [validateCredentials()] on the credentials of an instance. *)
Definition validateCredentials (self : Carrier) : bool :=
  match credentials self with
  | Some c => truthy (apiKey c) && truthy (secretKey c) && truthy (accountNumber c)
  | None => false
  end.

(** [parseTransitDays(description)] *)
Definition parseTransitDays (description : option string) : option Z :=
  if negb (truthy description) then None
  else
    match description with
    | Some s =>
        match match_digits s with
        | Some digits => parseInt digits
        | None => None
        end
    | None => None
    end.

(** [formatDate(date)] *)
Definition formatDate (date : Date) : Outcome DateStamp :=
  match toISOString date with
  | Ok (ISO t) => Ok (Stamp (Day t))
  | Throw e => Throw e
  end.

Section Host.
Variable LocalTZA : Z.
(** The clock: the time value of [new Date()] and [Date.now()] in this
    call. *)
Variable now : Z.
(** [new Date(text)]: the host's parser of date strings. *)
Variable Date_parse : string -> Date.
(** The settled results of the two [fetch] calls. *)
Variable fetch_oauth : string -> option string -> option string -> Outcome OAuthResponse.
Variable fetch_rates : string -> option string -> RateRequest -> Outcome RateResponse.

(** [getNextBusinessDay(date)] *)
Definition getNextBusinessDay_loop (fuel : nat) (date : Date) : option Date :=
  let result := date in
  let result := setDate_next LocalTZA result in
  Loops.while (on_weekend LocalTZA) (setDate_next LocalTZA) fuel result.

Definition getNextBusinessDay (date : Date) : Date :=
  let result := date in
  let result := setDate_next LocalTZA result in
  Loops.while_for (on_weekend LocalTZA) (setDate_next LocalTZA)
    (weekend_run LocalTZA) result.

(** [addBusinessDays(startDate, days)]: the state of the loop is
    [(result, addedDays)]. *)
Definition addBusinessDays_cond (days : Z) (st : Date * Z) : bool :=
  snd st <? days.

Definition addBusinessDays_body (st : Date * Z) : Date * Z :=
  let result := setDate_next LocalTZA (fst st) in
  if off_weekend LocalTZA result then (result, snd st + 1) else (result, snd st).

Definition addBusinessDays_variant (days : Z) (st : Date * Z) : nat :=
  3 * Z.to_nat (days - snd st) + weekend_run LocalTZA (setDate_next LocalTZA (fst st)).

Definition addBusinessDays_loop (fuel : nat) (startDate : Date) (days : Z) : option Date :=
  option_map fst
    (Loops.while (addBusinessDays_cond days) addBusinessDays_body fuel (startDate, 0)).

Definition addBusinessDays (startDate : Date) (days : Z) : Date :=
  fst (Loops.while_for (addBusinessDays_cond days) addBusinessDays_body
         (addBusinessDays_variant days) (startDate, 0)).

(** [calculateBusinessDays(startDate, endDate)]: the state of the loop
    is [(current, count)]. *)
Definition calculateBusinessDays_cond (endDate : Date) (st : Date * Z) : bool :=
  lt (fst st) endDate.

Definition calculateBusinessDays_body (st : Date * Z) : Date * Z :=
  let current := setDate_next LocalTZA (fst st) in
  if off_weekend LocalTZA current then (current, snd st + 1) else (current, snd st).

Definition calculateBusinessDays_variant (endDate : Date) (st : Date * Z) : nat :=
  match fst st, endDate with
  | DateOf c, DateOf e => Z.to_nat ((e - c + msPerDay - 1) / msPerDay)
  | _, _ => 0
  end.

Definition calculateBusinessDays_loop (fuel : nat) (startDate endDate : Date) : option Z :=
  option_map snd
    (Loops.while (calculateBusinessDays_cond endDate) calculateBusinessDays_body
       fuel (startDate, 0)).

Definition calculateBusinessDays (startDate endDate : Date) : Z :=
  snd (Loops.while_for (calculateBusinessDays_cond endDate) calculateBusinessDays_body
         (calculateBusinessDays_variant endDate) (startDate, 0)).

(** The body of the [try] of [parseRateResponse(data, shipDate)]. *)
Definition parseRateResponse_try (self : Carrier) (data : option RateData) (shipDate : Date)
  : Outcome TransitTimeResponse :=
  match data with
  | None => Throw (TypeError "Cannot read properties of null (reading 'output')")
  | Some data =>
      (* data.output?.rateReplyDetails?.[0] *)
      let rateReply :=
        match output data with
        | Some out =>
            match rateReplyDetails out with
            | Some details => hd_error details
            | None => None
            end
        | None => None
        end in
      match rateReply with
      | None => Ok (failure "No rate details in response" (carrierName self))
      | Some rateReply =>
          let commit := commit rateReply in
          let transitTime :=
            match commit with Some c => transitTime c | None => None end in
          let transitDays :=
            or_num (match transitTime with Some info => tt_transitDays info | None => None end)
                   (parseTransitDays
                      (match transitTime with Some info => tt_description info | None => None end)) in
          let deliveryDateMin :=
            addBusinessDays shipDate (match or_num transitDays (Some 3) with
                                      | Some n => n | None => 3 end) in
          let deliveryDateMax :=
            addBusinessDays shipDate ((match or_num transitDays (Some 3) with
                                       | Some n => n | None => 3 end) + 2) in
          let dayFormat :=
            match commit with
            | Some c => match dateDetail c with Some dd => dayFormat dd | None => None end
            | None => None
            end in
          let serviceName :=
            if truthy (reply_serviceName rateReply) then reply_serviceName rateReply
            else Some "FedEx Ground" in
          if truthy dayFormat then
            let fedexDeliveryDate :=
              Date_parse (match dayFormat with Some s => s | None => "" end) in
            Ok (mkResponse true None
                  (Some fedexDeliveryDate)
                  (Some (addBusinessDays fedexDeliveryDate 1))
                  (or_num transitDays
                     (Some (calculateBusinessDays shipDate fedexDeliveryDate)))
                  serviceName
                  (Some (carrierName self)))
          else
            Ok (mkResponse true None
                  (Some deliveryDateMin)
                  (Some deliveryDateMax)
                  (or_num transitDays (Some 5))
                  serviceName
                  (Some (carrierName self)))
      end
  end.

(** [parseRateResponse(data, shipDate)] *)
Definition parseRateResponse (self : Carrier) (data : option RateData) (shipDate : Date)
  : TransitTimeResponse :=
  match parseRateResponse_try self data shipDate with
  | Ok r => r
  | Throw _ => failure "Failed to parse rate response" (carrierName self)
  end.

(** [getAccessToken()] *)
Definition getAccessToken : M Carrier (option string) :=
  self <- this ;;
  if truthy (accessToken self)
     && match tokenExpiry self with
        | Some expiry => lt (DateOf now) expiry
        | None => false
        end
  then ret (accessToken self)
  else
    creds <- match credentials self with
             | Some c => ret c
             | None => throw (TypeError "Cannot read properties of undefined (reading 'apiKey')")
             end ;;
    response <- call (CallOAuthToken (baseUrl self ++ "/oauth/token"))
                     (fetch_oauth (baseUrl self ++ "/oauth/token")
                                  (apiKey creds) (secretKey creds)) ;;
    match response with
    | OAuthRefused text =>
        error <- lift text ;;
        throw (mkError "Error" ("FedEx OAuth failed: " ++ error))
    | OAuthGranted json =>
        data <- lift json ;;
        match data with
        | None => throw (TypeError "Cannot read properties of null (reading 'access_token')")
        | Some data =>
            set_this (mkCarrier (credentials self) (carrierName self) (baseUrl self)
                        (access_token data)
                        (Some (match expires_in data with
                               | Some secs => TimeClip (now + (secs - 300) * 1000)
                               | None => InvalidDate
                               end))) ;;;
            ret (access_token data)
        end
    end.

Definition rateAddress_of_origin (a : Address) : RateAddress :=
  mkRateAddress
    (if truthy (street a) then Some (match street a with Some s => [s] | None => [] end)
     else None)
    (city a) (state a) (postalCode a) (countryCode a).

Definition rateAddress_of_destination (a : Address) : RateAddress :=
  mkRateAddress None (city a) (state a) (postalCode a) (countryCode a).

(** The body of the [try] of [getTransitTime(request)]. *)
Definition getTransitTime_try (request : TransitTimeRequest) : M Carrier TransitTimeResponse :=
  self <- this ;;
  if negb (validateCredentials self) then
    ret (failure "FedEx credentials not configured" (carrierName self))
  else
    token <- getAccessToken ;;
    let serviceType :=
      if truthy (serviceType request)
      then match serviceType request with Some s => s | None => "" end
      else FEDEX_SERVICE_TYPES_GROUND in
    let shipDate :=
      match shipDate request with
      | Some d => d
      | None => getNextBusinessDay (DateOf now)
      end in
    creds <- match credentials self with
             | Some c => ret c
             | None => throw (TypeError "Cannot read properties of undefined (reading 'accountNumber')")
             end ;;
    stamp <- lift (formatDate shipDate) ;;
    let rateRequest :=
      mkRateRequest (accountNumber creds)
        (rateAddress_of_origin (origin request))
        (rateAddress_of_destination (destination request))
        stamp "USE_SCHEDULED_PICKUP" serviceType "YOUR_PACKAGING"
        ["ACCOUNT"; "LIST"] "LB" 1 in
    response <- call (CallRateQuotes (baseUrl self ++ "/rate/v1/rates/quotes"))
                     (fetch_rates (baseUrl self ++ "/rate/v1/rates/quotes") token rateRequest) ;;
    match response with
    | RateRefused json =>
        (* response.json().catch(() => ({})) *)
        let errorData :=
          match json with
          | Ok body => body
          | Throw _ => Some (mkErrorData None)
          end in
        match errorData with
        | None => throw (TypeError "Cannot read properties of null (reading 'errors')")
        | Some errorData =>
            let message :=
              match errors errorData with
              | Some entries =>
                  match hd_error entries with
                  | Some entry => entry_message entry
                  | None => None
                  end
              | None => None
              end in
            ret (failure (if truthy message
                          then match message with Some m => m | None => "" end
                          else "Failed to get rate quote")
                         (carrierName self))
        end
    | RateAnswered json =>
        data <- lift json ;;
        ret (parseRateResponse self data shipDate)
    end.

(** [getTransitTime(request)] *)
Definition getTransitTime (request : TransitTimeRequest) : M Carrier TransitTimeResponse :=
  try_catch (getTransitTime_try request)
    (fun error =>
       self <- this ;;
       ret (failure (message error) (carrierName self))).
End Host.

End FedExCarrier.

(* ===================================================================== *)
(** * carriers/index.js *)
(* ===================================================================== *)

Module Carriers.
Import JS Types.

(** [createCarrier(carrierType, credentials, useSandbox)] *)
Definition createCarrier (carrierType : string) (creds : option CarrierCredentials)
    (useSandbox : bool) : Outcome FedExCarrier.Carrier :=
  if String.eqb carrierType CARRIERS_FEDEX then Ok (FedExCarrier.new creds useSandbox)
  else Throw (mkError "Error" ("Unsupported carrier: " ++ carrierType)).

End Carriers.

(* ===================================================================== *)
(** * geolocation.js: the location record and the default location *)
(* ===================================================================== *)

Module Geolocation.

Record GeoLocation : Type := mkGeoLocation {
  city : option string;
  region : option string;
  postalCode : option string;
  countryCode : option string;
  source : option string
}.

(** [getDefaultLocation()] *)
Definition getDefaultLocation : GeoLocation :=
  mkGeoLocation (Some "Kansas City") (Some "MO") (Some "64106") (Some "US") (Some "default").

End Geolocation.

(* ===================================================================== *)
(** * delivery-estimate.js *)
(* ===================================================================== *)

Module DeliveryEstimate.
Import JS JSDate Eff Types Geolocation.
Local Open Scope eff_scope.

(** A row of the [AppSettings] table. *)
Record AppSettings : Type := mkAppSettings {
  shop : string;
  warehouseStreet : option string;
  warehouseCity : string;
  warehouseState : string;
  warehousePostalCode : string;
  warehouseCountryCode : string;
  handlingTimeDays : Z;
  cutoffTime : string;
  fedexApiKey : option string;
  fedexSecretKey : option string;
  fedexAccountNumber : option string;
  isEnabled : bool;
  showExactDates : bool
}.

(** The result of the orchestrator; an absent member is [None]. *)
Record DeliveryEstimate : Type := mkEstimate {
  success : bool;
  error : option string;
  deliveryDateMin : option ISOString;
  deliveryDateMax : option ISOString;
  displayText : option string;
  location : option string;
  transitDays : option Z;
  isFallback : option bool
}.

(** The object literal [{ success: false, error }]. *)
Definition failed (err : string) : DeliveryEstimate :=
  mkEstimate false (Some err) None None None None None None.

(** [a < k] for a number [a] that may be NaN. *)
Definition num_lt (a : option Z) (k : Z) : bool :=
  match a with
  | Some x => x <? k
  | None => false
  end.

(** [Math.abs(a - b)] *)
Definition abs_diff (a b : option Z) : option Z :=
  match a, b with
  | Some x, Some y => Some (Z.abs (x - y))
  | _, _ => None
  end.

(** [estimateTransitDays(originZip, destZip)] *)
Definition estimateTransitDays (originZip destZip : option string) : Z :=
  if negb (truthy originZip) || negb (truthy destZip) then 5
  else
    let originSCF :=
      parseInt (substring0 3 (match originZip with Some s => s | None => "" end)) in
    let destSCF :=
      parseInt (substring0 3 (match destZip with Some s => s | None => "" end)) in
    let scfDiff := abs_diff originSCF destSCF in
    if num_lt scfDiff 50 then 2
    else if num_lt scfDiff 200 then 3
    else if num_lt scfDiff 400 then 4
    else if num_lt scfDiff 600 then 5
    else 6.

(** [formatTransitDays(days)] *)
Definition formatTransitDays (days : option Z) : string :=
  let max := option_map (fun d => d + 2) days in
  (match days with Some d => show_Z d | None => "undefined" end)
    ++ "-" ++ show_num max ++ " business days".

(** [formatLocation(location)] *)
Definition formatLocation (location : GeoLocation) : option string :=
  if truthy (city location) && truthy (region location) then
    Some ((match city location with Some c => c | None => "" end) ++ ", "
          ++ (match region location with Some r => r | None => "" end))
  else if truthy (city location) then city location
  else if truthy (region location) then region location
  else countryCode location.

Section Host.
Variable LocalTZA : Z.
(** The clock: the time value of [new Date()] in this request. *)
Variable now : Z.
Variable Date_parse : string -> Date.
Variable fetch_oauth :
  string -> option string -> option string -> Outcome FedExCarrier.OAuthResponse.
Variable fetch_rates :
  string -> option string -> FedExCarrier.RateRequest -> Outcome FedExCarrier.RateResponse.
(** [prisma.appSettings.findUnique({ where: { shop } })] *)
Variable findUnique : string -> Outcome (option AppSettings).
(** [getLocationFromPostalCode(postalCode)]: imported from
    geolocation.js, where no definition of it is found; taken as a
    collaborator that settles with a location, with [null], or rejects. *)
Variable getLocationFromPostalCode : string -> Outcome (option GeoLocation).
(** [getLocationFromIP(ipAddress)]: its requests to the geolocation
    services are not unfolded; it settles with a location or [null]. *)
Variable getLocationFromIP : option string -> Outcome (option GeoLocation).

(** [getAppSettings(shop)] *)
Definition getAppSettings (shop : string) : M unit (option AppSettings) :=
  call (CallSettingsStore shop) (findUnique shop).

(** The state of the first loop of [calculateShipDate] is
    [(shipDate, daysAdded)]. *)
Definition handling_cond (handlingDays : Z) (st : Date * Z) : bool :=
  snd st <? handlingDays.

Definition handling_body (st : Date * Z) : Date * Z :=
  let shipDate := setDate_next LocalTZA (fst st) in
  if off_weekend LocalTZA shipDate then (shipDate, snd st + 1) else (shipDate, snd st).

Definition handling_variant (handlingDays : Z) (st : Date * Z) : nat :=
  3 * Z.to_nat (handlingDays - snd st)
  + JSDate.weekend_run LocalTZA (setDate_next LocalTZA (fst st)).

(** The cut-off instant of today:
    [cutoffTime.split(':').map(Number)], then [setHours] on a copy of
    [now]. *)
Definition cutoff_of (cutoffTime : string) : Date :=
  let parts := map Number (split_colon "" cutoffTime) in
  let cutoffHour := nth 0 parts NaN in
  let cutoffMinute := nth 1 parts NaN in
  setHours LocalTZA (DateOf now) cutoffHour cutoffMinute.

(** The date from which the handling days are counted. *)
Definition start_of (cutoffTime : string) : Date :=
  let shipDate := DateOf now in
  if ge (DateOf now) (cutoff_of cutoffTime)
  then setDate_next LocalTZA shipDate
  else shipDate.

(** [calculateShipDate(handlingDays, cutoffTime)], on fuel for its two
    loops. *)
Definition calculateShipDate_loop (fuel : nat) (handlingDays : Z) (cutoffTime : string)
  : option Date :=
  match Loops.while (handling_cond handlingDays) handling_body fuel
          (start_of cutoffTime, 0) with
  | Some (shipDate, _) =>
      Loops.while (on_weekend LocalTZA) (setDate_next LocalTZA) fuel shipDate
  | None => None
  end.

Definition calculateShipDate (handlingDays : Z) (cutoffTime : string) : Date :=
  let shipDate :=
    fst (Loops.while_for (handling_cond handlingDays) handling_body
           (handling_variant handlingDays) (start_of cutoffTime, 0)) in
  Loops.while_for (on_weekend LocalTZA) (setDate_next LocalTZA)
    (JSDate.weekend_run LocalTZA) shipDate.

(** [addBusinessDays(startDate, days)]: the state of the loop is
    [(result, added)]. *)
Definition addBusinessDays_cond (days : Z) (st : Date * Z) : bool :=
  snd st <? days.

Definition addBusinessDays_body (st : Date * Z) : Date * Z :=
  let result := setDate_next LocalTZA (fst st) in
  if off_weekend LocalTZA result then (result, snd st + 1) else (result, snd st).

Definition addBusinessDays_variant (days : Z) (st : Date * Z) : nat :=
  3 * Z.to_nat (days - snd st)
  + JSDate.weekend_run LocalTZA (setDate_next LocalTZA (fst st)).

Definition addBusinessDays_loop (fuel : nat) (startDate : Date) (days : Z) : option Date :=
  option_map fst
    (Loops.while (addBusinessDays_cond days) addBusinessDays_body fuel (startDate, 0)).

Definition addBusinessDays (startDate : Date) (days : Z) : Date :=
  fst (Loops.while_for (addBusinessDays_cond days) addBusinessDays_body
         (addBusinessDays_variant days) (startDate, 0)).

(** [formatDateRange(minDate, maxDate)] *)
Definition formatDateRange (minDate maxDate : option Date) : Outcome string :=
  match minDate with
  | None =>
      Throw (TypeError "Cannot read properties of undefined (reading 'toLocaleDateString')")
  | Some minDate =>
      let minStr := toLocaleDateString_short LocalTZA minDate in
      match maxDate with
      | None => Throw (TypeError "Cannot read properties of undefined (reading 'getMonth')")
      | Some maxDate =>
          match getMonth LocalTZA minDate, getMonth LocalTZA maxDate with
          | Some a, Some b =>
              if a =? b
              then Ok (minStr ++ " - " ++ show_num (getDate LocalTZA maxDate))
              else Ok (minStr ++ " - " ++ toLocaleDateString_short LocalTZA maxDate)
          | _, _ => Ok (minStr ++ " - " ++ toLocaleDateString_short LocalTZA maxDate)
          end
      end
  end.

(** [generateFallbackEstimate(origin, destination, shipDate, settings)] *)
Definition generateFallbackEstimate (origin : Address) (destination : GeoLocation)
    (shipDate : Date) (settings : AppSettings) : Outcome DeliveryEstimate :=
  let transitDays :=
    estimateTransitDays (Types.postalCode origin) (Geolocation.postalCode destination) in
  let deliveryDateMin := addBusinessDays shipDate transitDays in
  let deliveryDateMax := addBusinessDays shipDate (transitDays + 2) in
  let locationText := formatLocation destination in
  match (if showExactDates settings
         then formatDateRange (Some deliveryDateMin) (Some deliveryDateMax)
         else Ok (formatTransitDays (Some transitDays))) with
  | Throw e => Throw e
  | Ok dateText =>
      match toISOString deliveryDateMin with
      | Throw e => Throw e
      | Ok isoMin =>
          match toISOString deliveryDateMax with
          | Throw e => Throw e
          | Ok isoMax =>
              Ok (mkEstimate true None (Some isoMin) (Some isoMax)
                    (Some ("Arrives " ++ dateText)) locationText
                    (Some transitDays) (Some true))
          end
      end
  end.

(** The customer location: lines 48-70 of [getDeliveryEstimate]. *)
Definition resolveDestination (customerIP postalCode : option string) : M unit GeoLocation :=
  if truthy postalCode then
    let code := match postalCode with Some s => s | None => "" end in
    destination <- call (CallPostalLookup code) (getLocationFromPostalCode code) ;;
    match destination with
    | Some d => ret d
    | None => ret (mkGeoLocation (Some "") (Some "") postalCode (Some "US") None)
    end
  else
    destination <- call (CallLocateIP customerIP) (getLocationFromIP customerIP) ;;
    match destination with
    | Some d => ret d
    | None => ret getDefaultLocation
    end.

(** The carrier attempt: lines 84-122 of [getDeliveryEstimate];
    [None] is the initial [null] of [transitResult]. *)
Definition tryCarrier (settings : AppSettings) (origin : Address)
    (destination : GeoLocation) (shipDate : Date) : M unit (option TransitTimeResponse) :=
  if truthy (fedexApiKey settings) && truthy (fedexSecretKey settings)
     && truthy (fedexAccountNumber settings)
  then
    try_catch
      (carrier <- lift (Carriers.createCarrier CARRIERS_FEDEX
                          (Some (mkCredentials (fedexApiKey settings)
                                   (fedexSecretKey settings)
                                   (fedexAccountNumber settings)))
                          true) ;;
       transitResult <-
         on_object carrier
           (FedExCarrier.getTransitTime LocalTZA now Date_parse fetch_oauth fetch_rates
              (mkRequest origin
                 (mkAddress None (Geolocation.city destination)
                    (Geolocation.region destination)
                    (Geolocation.postalCode destination)
                    (Geolocation.countryCode destination))
                 (Some shipDate)
                 (Some FEDEX_SERVICE_TYPES_GROUND))) ;;
       ret (Some transitResult))
      (fun _ => ret (Some (mkResponse false None None None None None None)))
  else ret None.

(** [x?.toISOString()] *)
Definition toISOString_opt (d : option Date) : Outcome (option ISOString) :=
  match d with
  | None => Ok None
  | Some d =>
      match toISOString d with
      | Ok s => Ok (Some s)
      | Throw e => Throw e
      end
  end.

(** The body of the [try] of [getDeliveryEstimate]. *)
Definition getDeliveryEstimate_try (shop : string) (customerIP postalCode : option string)
  : M unit DeliveryEstimate :=
  settings <- getAppSettings shop ;;
  match settings with
  | None => ret (failed "App not configured for this shop")
  | Some settings =>
      if negb (isEnabled settings) then ret (failed "Delivery estimates are disabled")
      else
        destination <- resolveDestination customerIP postalCode ;;
        let origin :=
          mkAddress
            (if truthy (warehouseStreet settings) then warehouseStreet settings else None)
            (Some (warehouseCity settings))
            (Some (warehouseState settings))
            (Some (warehousePostalCode settings))
            (Some (warehouseCountryCode settings)) in
        let shipDate :=
          calculateShipDate (handlingTimeDays settings) (cutoffTime settings) in
        transitResult <- tryCarrier settings origin destination shipDate ;;
        match transitResult with
        | None => lift (generateFallbackEstimate origin destination shipDate settings)
        | Some transitResult =>
            if negb (Types.success transitResult) then
              lift (generateFallbackEstimate origin destination shipDate settings)
            else
              let locationText := formatLocation destination in
              dateText <-
                lift (if showExactDates settings
                      then formatDateRange (Types.deliveryDateMin transitResult)
                             (Types.deliveryDateMax transitResult)
                      else Ok (formatTransitDays (Types.transitDays transitResult))) ;;
              isoMin <- lift (toISOString_opt (Types.deliveryDateMin transitResult)) ;;
              isoMax <- lift (toISOString_opt (Types.deliveryDateMax transitResult)) ;;
              ret (mkEstimate true None isoMin isoMax
                     (Some ("Arrives " ++ dateText)) locationText
                     (Types.transitDays transitResult) None)
        end
  end.

(** [getDeliveryEstimate(shop, customerIP, postalCode)] *)
Definition getDeliveryEstimate (shop : string) (customerIP postalCode : option string)
  : M unit DeliveryEstimate :=
  try_catch (getDeliveryEstimate_try shop customerIP postalCode)
    (fun _ => ret (failed "Failed to calculate delivery estimate")).
End Host.

End DeliveryEstimate.

(* ===================================================================== *)
(** * The ship-date rule as the specification words it *)
(* ===================================================================== *)

Module Spec.
Import JSDate.

(** The text of a valid HH:MM time. *)
Definition two_digits (n : Z) : string :=
  String (ascii_of_nat (48 + Z.to_nat (n / 10)))
    (String (ascii_of_nat (48 + Z.to_nat (n mod 10))) EmptyString).

Definition hhmm (h m : Z) : string := two_digits h ++ ":" ++ two_digits m.

(** The integer formed from the leading 3 digits of a postal code. *)
Definition sectional_code (zip : string) : option Z :=
  match zip with
  | String a (String b (String c _)) =>
      if JS.is_digit a && JS.is_digit b && JS.is_digit c
      then Some (100 * JS.digit_value a + 10 * JS.digit_value b + JS.digit_value c)
      else None
  | _ => None
  end.

Section Zone.
Variable LocalTZA : Z.

(** The cut-off instant of the local day of [now]. *)
Definition cutoff_instant (now h m : Z) : Z :=
  UTC LocalTZA (Day (LocalTime LocalTZA now) * msPerDay + (h * msPerHour + m * msPerMinute)).

Definition in_processingDays (processingDays : list Z) (d : Date) : bool :=
  match getDay LocalTZA d with
  | Some w => existsb (Z.eqb w) processingDays
  | None => false
  end.

(** One more calendar day, counted when it is a processing day. *)
Definition advance (processingDays : list Z) (st : Date * Z) : Date * Z :=
  let d := setDate_next LocalTZA (fst st) in
  if in_processingDays processingDays d then (d, snd st + 1) else (d, snd st).

(** Modelled from the words of the specification:
    [calculateShipDate(now, handlingDays, cutoffTime, processingDays)]
    starts from tomorrow when [now] is at or past the cut-off instant
    and from today otherwise, advances by [handlingDays] counting only
    the days in [processingDays], and then advances one day at a time
    until the date is in [processingDays]. *)
Definition calculateShipDate (fuel : nat) (now handlingDays h m : Z)
    (processingDays : list Z) : option Date :=
  let start :=
    if cutoff_instant now h m <=? now
    then setDate_next LocalTZA (DateOf now) else DateOf now in
  match Loops.while (fun st => snd st <? handlingDays) (advance processingDays)
          fuel (start, 0) with
  | Some (d, _) =>
      Loops.while (fun d => negb (in_processingDays processingDays d))
        (setDate_next LocalTZA) fuel d
  | None => None
  end.
End Zone.

End Spec.

(* ===================================================================== *)
(** * Predicates and abbreviations of the statements *)
(* ===================================================================== *)

(** The date of a state, when it is valid, is not before [t]. *)
Definition not_before (t : Z) (st : JSDate.Date * Z) : Prop :=
  forall u, fst st = JSDate.DateOf u -> t <= u.

(** A time value within the range of [Date]. *)
Definition in_range (t : Z) : Prop := - JSDate.maxTime <= t <= JSDate.maxTime.

(** [Number] reads back the two parts of the text of [h:m]. *)
Definition hhmm_check (h m : nat) : bool :=
  match map JS.Number (JS.split_colon "" (Spec.hhmm (Z.of_nat h) (Z.of_nat m))) with
  | [JS.Finite a; JS.Finite b] =>
      (Qnum a =? Z.of_nat h) && Pos.eqb (Qden a) 1
      && (Qnum b =? Z.of_nat m) && Pos.eqb (Qden b) 1
  | _ => false
  end.

(** The invariant of a [TransitTimeResponse]. *)
Definition response_invariant (r : Types.TransitTimeResponse) : Prop :=
  (Types.success r = true ->
   Types.deliveryDateMin r <> None /\ Types.transitDays r <> None)
  /\ (Types.success r = false ->
      Types.error r <> None /\ Types.deliveryDateMin r = None
      /\ Types.deliveryDateMax r = None /\ Types.transitDays r = None).

(** A failure response: unsuccessful, with an error text and the carrier
    identifier, and nothing else. *)
Definition is_failure_of (carrierName : string) (r : Types.TransitTimeResponse) : Prop :=
  exists err, r = Types.failure err carrierName.

(** What every response of the carrier [carrierName] satisfies. *)
Definition well_formed_response (carrierName : string) (r : Types.TransitTimeResponse) : Prop :=
  response_invariant r
  /\ Types.carrier r = Some carrierName
  /\ (Types.success r = false -> is_failure_of carrierName r).

(** What a rate detail quotes: the members that [parseRateResponse]
    reads through [commit?.transitTime?.] and [commit?.dateDetail?.]. *)
Definition quoted_transitDays (r : FedExCarrier.RateReplyDetail) : option Z :=
  match FedExCarrier.commit r with
  | Some c =>
      match FedExCarrier.transitTime c with
      | Some info => FedExCarrier.tt_transitDays info
      | None => None
      end
  | None => None
  end.

Definition quoted_description (r : FedExCarrier.RateReplyDetail) : option string :=
  match FedExCarrier.commit r with
  | Some c =>
      match FedExCarrier.transitTime c with
      | Some info => FedExCarrier.tt_description info
      | None => None
      end
  | None => None
  end.

Definition quoted_dayFormat (r : FedExCarrier.RateReplyDetail) : option string :=
  match FedExCarrier.commit r with
  | Some c =>
      match FedExCarrier.dateDetail c with
      | Some dd => FedExCarrier.dayFormat dd
      | None => None
      end
  | None => None
  end.

(** The number that a run of decimal digits denotes, digit by place. *)
Fixpoint decimal_value (digits : string) : Z :=
  match digits with
  | String c r => JS.digit_value c * 10 ^ Z.of_nat (String.length r) + decimal_value r
  | EmptyString => 0
  end.

Definition all_digits (s : string) : bool :=
  forallb JS.is_digit (list_ascii_of_string s).

Definition has_digit (s : string) : bool :=
  existsb JS.is_digit (list_ascii_of_string s).

Definition starts_with_digit (s : string) : bool :=
  match s with
  | String c _ => JS.is_digit c
  | EmptyString => false
  end.

(** The integers that a JavaScript number holds exactly. *)
Definition MAX_SAFE : Z := 9007199254740992.

(** The longest prefix of digits of a text: what the group [(\d+)] holds
    once the match has started. *)
Fixpoint digit_run (t : string) : string :=
  match t with
  | String d u => if JS.is_digit d then String d (digit_run u) else EmptyString
  | EmptyString => EmptyString
  end.

(** The days that [getNextBusinessDay] adds: three on a Friday, two on a
    Saturday, one on the other days. *)
Definition days_to_next_business (w : Z) : Z :=
  if w =? 5 then 3 else if w =? 6 then 2 else 1.

(** The days that the skip of a weekend adds. *)
Definition days_of_weekend_left (w : Z) : Z :=
  if w =? 6 then 2 else if w =? 0 then 1 else 0.

(** A number that is missing or zero: what [||] passes over. *)
Definition falsy_num (n : option Z) : Prop := n = None \/ n = Some 0.

(** The body of a rate answer whose first rate detail is [r]. *)
Definition rate_data_with (r : FedExCarrier.RateReplyDetail)
    (rest : list FedExCarrier.RateReplyDetail) : option FedExCarrier.RateData :=
  Some (FedExCarrier.mkRateData
          (Some (FedExCarrier.mkRateOutput (Some (r :: rest))))).

(** The carrier result is absent ([null]) or unsuccessful. *)
Definition carrier_unavailable (tr : option Types.TransitTimeResponse) : Prop :=
  tr = None \/ exists r, tr = Some r /\ Types.success r = false.

(** The origin that [getDeliveryEstimate] builds from the settings. *)
Definition origin_of (settings : DeliveryEstimate.AppSettings) : Types.Address :=
  Types.mkAddress
    (if JS.truthy (DeliveryEstimate.warehouseStreet settings)
     then DeliveryEstimate.warehouseStreet settings else None)
    (Some (DeliveryEstimate.warehouseCity settings))
    (Some (DeliveryEstimate.warehouseState settings))
    (Some (DeliveryEstimate.warehousePostalCode settings))
    (Some (DeliveryEstimate.warehouseCountryCode settings)).

(* ===================================================================== *)
(** * Concrete requests *)
(* ===================================================================== *)

Module Sample.
Import JS JSDate Types Geolocation.

(** Thursday 12 February 2026, 15:00 UTC, and the Monday after. *)
Definition thursday_afternoon : Z := 1770908400000.
Definition monday_afternoon : Z := 1771254000000.

(** A shop in Summerville SC that ships the next working day, with no
    carrier credentials. *)
Definition settings : DeliveryEstimate.AppSettings :=
  DeliveryEstimate.mkAppSettings "shop.example" None "Summerville" "SC" "29483" "US"
    1 "14:00" None None None true true.

Definition settings_disabled : DeliveryEstimate.AppSettings :=
  DeliveryEstimate.mkAppSettings "shop.example" None "Summerville" "SC" "29483" "US"
    1 "14:00" None None None false true.

Definition settings_with_credentials : DeliveryEstimate.AppSettings :=
  DeliveryEstimate.mkAppSettings "shop.example" None "Summerville" "SC" "29483" "US"
    1 "14:00" (Some "key") (Some "secret") (Some "740561073") true true.

Definition tallahassee : GeoLocation :=
  mkGeoLocation (Some "Tallahassee") (Some "FL") (Some "32483") (Some "US")
    (Some "postal-code-lookup").

Definition network_down : Error := mkError "TypeError" "fetch failed".
Definition database_down : Error := mkError "PrismaClientKnownRequestError" "connection refused".

(** The collaborators of the sample runs. *)
Definition no_oauth (url : string) (id secret : option string)
  : Outcome FedExCarrier.OAuthResponse := Throw network_down.
Definition no_rates (url : string) (token : option string) (req : FedExCarrier.RateRequest)
  : Outcome FedExCarrier.RateResponse := Throw network_down.
Definition no_date (text : string) : Date := InvalidDate.
Definition store_of (row : option DeliveryEstimate.AppSettings) (shop : string)
  : Outcome (option DeliveryEstimate.AppSettings) := Ok row.
Definition store_down (shop : string)
  : Outcome (option DeliveryEstimate.AppSettings) := Throw database_down.
Definition lookup_tallahassee (postalCode : string) : Outcome (option GeoLocation) :=
  Ok (Some tallahassee).
Definition locate_nothing (ip : option string) : Outcome (option GeoLocation) := Ok None.

(** A request at [now] in a UTC zone against the given settings store. *)
Definition run (now : Z)
    (findUnique : string -> Outcome (option DeliveryEstimate.AppSettings))
    (postalCode : option string) :=
  DeliveryEstimate.getDeliveryEstimate 0 now no_date no_oauth no_rates findUnique
    lookup_tallahassee locate_nothing "shop.example" None postalCode tt [].

(** A carrier instance with credentials, and a request to it. *)
Definition carrier : FedExCarrier.Carrier :=
  FedExCarrier.new (Some (mkCredentials (Some "key") (Some "secret") (Some "740561073"))) true.

Definition request : TransitTimeRequest :=
  mkRequest
    (mkAddress None (Some "Summerville") (Some "SC") (Some "29483") (Some "US"))
    (mkAddress None (Some "Tallahassee") (Some "FL") (Some "32483") (Some "US"))
    (Some (DateOf monday_afternoon)) (Some FEDEX_SERVICE_TYPES_GROUND).

(** A rate detail that quotes no transit time and no delivery date. *)
Definition bare_detail : FedExCarrier.RateReplyDetail :=
  FedExCarrier.mkRateReplyDetail None None.

End Sample.

(* ===================================================================== *)
(** * carriers/index.js and carriers/types.js: the list of carriers *)
(* ===================================================================== *)

Module CarrierList.
Import Types.

Definition CARRIERS_UPS : string := "ups".
Definition CARRIERS_USPS : string := "usps".

(** The values of the [CARRIERS] object. *)
Definition CARRIERS : list string := [CARRIERS_FEDEX; CARRIERS_UPS; CARRIERS_USPS].

(** [getSupportedCarriers()] *)
Definition getSupportedCarriers : list string := [CARRIERS_FEDEX].

End CarrierList.

(* ===================================================================== *)
(** * geolocation.js: client addresses and the geolocation services *)
(* ===================================================================== *)

Module GeoService.
Import JS Geolocation.

(** [s.startsWith(p)] *)
Definition startsWith (s p : string) : bool := String.prefix p s.

(** [s.includes(',')] *)
Fixpoint includes_comma (s : string) : bool :=
  match s with
  | String c r => Ascii.eqb c "," || includes_comma r
  | EmptyString => false
  end.

(** [s.split(',')[0]] *)
Fixpoint first_segment (s : string) : string :=
  match s with
  | String c r => if Ascii.eqb c "," then EmptyString else String c (first_segment r)
  | EmptyString => EmptyString
  end.

(** [s.trim()], on the ASCII white space. *)
Definition trim (s : string) : string := trim_end (skip_spaces s).

(** [s.substring(n)] *)
Fixpoint substring_from (n : nat) (s : string) : string :=
  match n, s with
  | S n', String _ r => substring_from n' r
  | _, _ => s
  end.

(** [isPrivateIP(ip)] *)
Definition isPrivateIP (ip : option string) : bool :=
  if negb (truthy ip) then true
  else
    let ip := match ip with Some s => s | None => "" end in
    if startsWith ip "10."
       || startsWith ip "192.168."
       || startsWith ip "172.16."
       || startsWith ip "172.17."
       || startsWith ip "172.18."
       || startsWith ip "172.19."
       || startsWith ip "172.2"
       || startsWith ip "172.30."
       || startsWith ip "172.31."
       || String.eqb ip "127.0.0.1"
       || String.eqb ip "localhost"
       || String.eqb ip "::1"
    then true
    else false.

(** [cleanIPAddress(ip)] *)
Definition cleanIPAddress (ip : option string) : string :=
  if negb (truthy ip) then ""
  else
    let ip := match ip with Some s => s | None => "" end in
    let ip := if includes_comma ip then trim (first_segment ip) else ip in
    let ip := if startsWith ip "::ffff:" then substring_from 7 ip else ip in
    if isPrivateIP (Some ip) then "" else ip.

(** The names of the headers that [getClientIP] reads, in its order. *)
Definition ipHeaders : list string :=
  ["cf-connecting-ip"; "x-real-ip"; "x-forwarded-for"; "x-client-ip";
   "true-client-ip"; "x-cluster-client-ip"].

(** The loop of [getClientIP] over the names that are left;
    [headers name] is [request.headers.get(name)]. *)
Fixpoint getClientIP_from (headers : string -> option string) (names : list string)
  : option string :=
  match names with
  | header :: rest =>
      let value := headers header in
      if truthy value then
        let ip := trim (first_segment (match value with Some v => v | None => "" end)) in
        if truthy (Some ip) && negb (isPrivateIP (Some ip)) then Some ip
        else getClientIP_from headers rest
      else getClientIP_from headers rest
  | [] => None
  end.

(** [getClientIP(request)] *)
Definition getClientIP (headers : string -> option string) : option string :=
  getClientIP_from headers ipHeaders.

(** The members that the three [parse] functions read in the body of an
    answer ([lat], [lon], [latitude], [longitude] and [loc], which only
    feed the coordinates, are left out with the coordinates). *)
Record GeoData : Type := mkGeoData {
  status : option string;
  error : bool;
  data_city : option string;
  regionCode : option string;
  region_code : option string;
  data_region : option string;
  zip : option string;
  postal : option string;
  data_countryCode : option string;
  country_code : option string;
  country : option string
}.

(** The answer of a service: [response.ok] and the settled result of
    [response.json()]; the body may be the JSON [null] ([None]). *)
Record GeoResponse : Type := mkGeoResponse {
  geo_ok : bool;
  geo_json : Outcome (option GeoData)
}.

Record Service : Type := mkService {
  service_name : string;
  service_url : string -> string;
  service_parse : GeoData -> option GeoLocation
}.

(** [ip || alt] in a template literal. *)
Definition or_text (ip alt : string) : string :=
  if truthy (Some ip) then ip else alt.

Definition GEOLOCATION_SERVICES : list Service :=
  [ mkService "ip-api"
      (fun ip => "http://ip-api.com/json/" ++ or_text ip ""
                 ++ "?fields=status,city,regionCode,zip,countryCode,lat,lon")
      (fun data =>
         if negb (match status data with
                  | Some s => String.eqb s "success"
                  | None => false
                  end)
         then None
         else Some (mkGeoLocation (data_city data) (regionCode data) (zip data)
                      (data_countryCode data) None));
    mkService "ipapi.co"
      (fun ip => "https://ipapi.co/" ++ or_text ip "json" ++ "/json/")
      (fun data =>
         if error data then None
         else Some (mkGeoLocation (data_city data) (region_code data) (postal data)
                      (country_code data) None));
    mkService "ipinfo.io"
      (fun ip => "https://ipinfo.io/" ++ or_text ip "" ++ "/json")
      (fun data =>
         if negb (truthy (data_city data)) then None
         else Some (mkGeoLocation (data_city data) (data_region data) (postal data)
                      (country data) None)) ].

Section Fetch.
(** The settled result of [fetch(url, ..)]; a timeout rejects. *)
Variable fetch : string -> Outcome GeoResponse.

(** The loop of [getLocationFromIP] over the services that are left; the
    result comes with the URLs requested so far. *)
Fixpoint try_services (cleanIP : string) (services : list Service) (requested : list string)
  : option GeoLocation * list string :=
  match services with
  | service :: rest =>
      let url := service_url service cleanIP in
      let requested := (requested ++ [url])%list in
      match fetch url with
      | Throw _ => try_services cleanIP rest requested
      | Ok response =>
          if negb (geo_ok response) then try_services cleanIP rest requested
          else
            match geo_json response with
            | Throw _ => try_services cleanIP rest requested
            | Ok None => try_services cleanIP rest requested
            | Ok (Some data) =>
                match service_parse service data with
                | Some location =>
                    if truthy (postalCode location)
                    then (Some (mkGeoLocation (city location) (region location)
                                  (postalCode location) (countryCode location)
                                  (Some (service_name service))),
                          requested)
                    else try_services cleanIP rest requested
                | None => try_services cleanIP rest requested
                end
            end
      end
  | [] => (None, requested)
  end.

(** [getLocationFromIP(ipAddress)], with the URLs that it requested. *)
Definition getLocationFromIP (ipAddress : option string)
  : option GeoLocation * list string :=
  let cleanIP := cleanIPAddress ipAddress in
  try_services cleanIP GEOLOCATION_SERVICES [].
End Fetch.

End GeoService.

(* ===================================================================== *)
(** * routes/app.settings.jsx: the processing days of the settings form *)
(* ===================================================================== *)

Module SettingsPage.
Import JS.

(** The name of the form field of day [i]: [`processingDay${i}`]. *)
Definition field (i : nat) : string := "processingDay" ++ show_Z (Z.of_nat i).

(** [parts.join(",")] *)
Fixpoint join_comma (parts : list string) : string :=
  match parts with
  | [] => ""
  | [p] => p
  | p :: rest => p ++ "," ++ join_comma rest
  end.

(** [s.split(",")] *)
Fixpoint split_comma (cur : string) (s : string) : list string :=
  match s with
  | String c r =>
      if Ascii.eqb c "," then cur :: split_comma EmptyString r
      else split_comma (cur ++ String c EmptyString) r
  | EmptyString => [cur]
  end.

(** The [processingDays] text that the action saves;
    [formData name] is [formData.get(name)]. *)
Definition action_processingDays (formData : string -> option string) : string :=
  let days :=
    map (fun i => if truthy (formData (field i)) then Some (show_Z (Z.of_nat i)) else None)
      (seq 0 7) in
  let kept :=
    flat_map (fun day => if truthy day
                         then match day with Some d => [d] | None => [] end
                         else []) days in
  let joined := join_comma kept in
  if truthy (Some joined) then joined else "1,2,3,4,5".

(** The [processingDays] list that the loader reads back from the saved
    text. *)
Definition loader_processingDays (saved : option string) : list Num :=
  if truthy saved then
    filter (fun n => negb (isNaN n) && Num_ge n 0 && Num_le n 6)
      (map Number (split_comma "" (match saved with Some s => s | None => "" end)))
  else map of_Z [1; 2; 3; 4; 5].

End SettingsPage.

(* ===================================================================== *)
(** * The app proxy route *)
(* ===================================================================== *)

Module AppProxy.
Import JS Eff.
Local Open Scope eff_scope.

(** [path.includes(sub)] *)
Fixpoint includes (sub s : string) : bool :=
  String.prefix sub s
  || match s with
     | String _ r => includes sub r
     | EmptyString => false
     end.

(** What the loader reads of its arguments: the method, the splat
    parameter [params["*"]], the query parameters [shop] and [postalCode]
    of the URL of the request, and the headers. *)
Record Request : Type := mkRequest {
  method : string;
  splat : option string;
  query_shop : option string;
  query_postalCode : option string;
  headers : string -> option string
}.

(** A response: its status and the object of its JSON body, if any. *)
Record Response : Type := mkResponse {
  status : Z;
  body : option DeliveryEstimate.DeliveryEstimate
}.

Section Host.
Variable LocalTZA : Z.
Variable now : Z.
Variable Date_parse : string -> JSDate.Date.
Variable fetch_oauth :
  string -> option string -> option string -> Outcome FedExCarrier.OAuthResponse.
Variable fetch_rates :
  string -> option string -> FedExCarrier.RateRequest -> Outcome FedExCarrier.RateResponse.
Variable findUnique : string -> Outcome (option DeliveryEstimate.AppSettings).
Variable getLocationFromPostalCode : string -> Outcome (option Geolocation.GeoLocation).
Variable getLocationFromIP : option string -> Outcome (option Geolocation.GeoLocation).

(** [loader({ request, params })] *)
Definition loader (request : Request) : M unit Response :=
  if String.eqb (method request) "OPTIONS" then ret (mkResponse 204 None)
  else
    try_catch
      (let path := splat request in
       if negb (truthy path)
          || negb (includes "api/delivery-estimate"
                     (match path with Some p => p | None => "" end))
       then ret (mkResponse 404 (Some (DeliveryEstimate.failed "Not found")))
       else
         let shop := query_shop request in
         let postalCode := query_postalCode request in
         if negb (truthy shop)
         then ret (mkResponse 400 (Some (DeliveryEstimate.failed "Shop parameter required")))
         else
           let clientIP := GeoService.getClientIP (headers request) in
           estimate <-
             DeliveryEstimate.getDeliveryEstimate LocalTZA now Date_parse fetch_oauth
               fetch_rates findUnique getLocationFromPostalCode getLocationFromIP
               (match shop with Some s => s | None => "" end) clientIP postalCode ;;
           ret (mkResponse 200 (Some estimate)))
      (fun _ =>
         ret (mkResponse 200
                (Some (DeliveryEstimate.failed
                         "Unable to calculate delivery estimate. Please try again later.")))).
End Host.

End AppProxy.

(* ===================================================================== *)
(** * Predicates of the statements about geolocation *)
(* ===================================================================== *)

(** The location that a geolocation service answers with when its answer
    is usable: the request settles with an ok status, the body parses to
    a location, and the location has a postal code. *)
Definition usable_answer (fetch : string -> JS.Outcome GeoService.GeoResponse)
    (cleanIP : string) (service : GeoService.Service) : option Geolocation.GeoLocation :=
  match fetch (GeoService.service_url service cleanIP) with
  | JS.Ok response =>
      if GeoService.geo_ok response then
        match GeoService.geo_json response with
        | JS.Ok (Some data) =>
            match GeoService.service_parse service data with
            | Some location =>
                if JS.truthy (Geolocation.postalCode location) then Some location else None
            | None => None
            end
        | _ => None
        end
      else None
  | JS.Throw _ => None
  end.

(** [{ ...location, source }] *)
Definition with_source (location : Geolocation.GeoLocation) (source : string)
  : Geolocation.GeoLocation :=
  Geolocation.mkGeoLocation (Geolocation.city location) (Geolocation.region location)
    (Geolocation.postalCode location) (Geolocation.countryCode location) (Some source).

(* ===================================================================== *)
(** * Further concrete requests *)
(* ===================================================================== *)

Module Scenario.
Import JS JSDate Types Geolocation.

(** A token endpoint that grants a token for one hour. *)
Definition grant_oauth (url : string) (id secret : option string)
  : Outcome FedExCarrier.OAuthResponse :=
  Ok (FedExCarrier.OAuthGranted
        (Ok (Some (FedExCarrier.mkOAuthData (Some "token-1") (Some 3600))))).

(** A token endpoint that refuses. *)
Definition refuse_oauth (url : string) (id secret : option string)
  : Outcome FedExCarrier.OAuthResponse :=
  Ok (FedExCarrier.OAuthRefused (Ok "invalid client")).

(** A rate detail that quotes a delivery date, and one that quotes two
    transit days. *)
Definition dated_detail : FedExCarrier.RateReplyDetail :=
  FedExCarrier.mkRateReplyDetail
    (Some (FedExCarrier.mkCommit None
             (Some (FedExCarrier.mkDateDetail (Some "2026-02-19T15:00:00")))))
    None.

Definition two_day_detail : FedExCarrier.RateReplyDetail :=
  FedExCarrier.mkRateReplyDetail
    (Some (FedExCarrier.mkCommit
             (Some (FedExCarrier.mkTransitTime (Some 2) (Some "5 business days"))) None))
    (Some "FedEx Ground").

Definition rates_of (detail : FedExCarrier.RateReplyDetail)
    (url : string) (token : option string) (req : FedExCarrier.RateRequest)
  : Outcome FedExCarrier.RateResponse :=
  Ok (FedExCarrier.RateAnswered (Ok (rate_data_with detail []))).

(** A host parser that reads the one date text of [dated_detail]
    (Thursday 19 February 2026, 15:00), and one that reads none. *)
Definition parse_thursday (text : string) : Date := DateOf 1771513200000.

Definition lookup_nothing (postalCode : string) : Outcome (option GeoLocation) := Ok None.

(** A request at Thursday 12 February 2026, 15:00 UTC, of a shop with
    carrier credentials. *)
Definition run_with_carrier (Date_parse : string -> Date)
    (detail : FedExCarrier.RateReplyDetail) :=
  DeliveryEstimate.getDeliveryEstimate 0 Sample.thursday_afternoon Date_parse
    grant_oauth (rates_of detail)
    (Sample.store_of (Some Sample.settings_with_credentials))
    Sample.lookup_tallahassee Sample.locate_nothing "shop.example" None (Some "32483") tt [].

(** Headers of a request that came through a proxy. *)
Definition proxied_headers (name : string) : option string :=
  if String.eqb name "x-real-ip" then Some "10.0.0.7"
  else if String.eqb name "x-forwarded-for" then Some "203.0.113.9, 10.0.0.7"
  else None.

(** A geolocation world in which only the last service answers. *)
Definition only_ipinfo (url : string) : Outcome GeoService.GeoResponse :=
  if String.eqb url "https://ipinfo.io/203.0.113.9/json"
  then Ok (GeoService.mkGeoResponse true
             (Ok (Some (GeoService.mkGeoData None false (Some "Tallahassee") None None
                          (Some "Florida") None (Some "32301") None None (Some "US")))))
  else Throw Sample.network_down.

(** A shop whose settings ask for a hundred million handling days, and
    Friday 12 September 275760, 00:00 UTC: the day before the last day of
    the range of [Date]. *)
Definition long_handling : DeliveryEstimate.AppSettings :=
  DeliveryEstimate.mkAppSettings "shop.example" None "Summerville" "SC" "29483" "US"
    100000000 "14:00" None None None true true.

Definition last_friday : Z := 8639999913600000.

(** A form with Monday, Wednesday and Saturday ticked. *)
Definition ticked_form (name : string) : option string :=
  if String.eqb name "processingDay1" then Some "on"
  else if String.eqb name "processingDay3" then Some "on"
  else if String.eqb name "processingDay6" then Some "on"
  else None.

Definition proxy_request : AppProxy.Request :=
  AppProxy.mkRequest "GET" (Some "api/delivery-estimate") (Some "shop.example")
    (Some "32483") proxied_headers.

End Scenario.

(* ===================================================================== *)
(** * Facts about loops *)
(* ===================================================================== *)

Section WhileFacts.
Context {St : Type}.
Variable cond : St -> bool.
Variable body : St -> St.

Lemma while_more_fuel (f f' : nat) (s r : St) :
  Loops.while cond body f s = Some r -> (f <= f')%nat ->
  Loops.while cond body f' s = Some r.
Proof.
  revert f' s. induction f as [|f IH]; intros f' s H Hle; simpl in H.
  - destruct f'; simpl; destruct (cond s); congruence.
  - destruct f' as [|f']; [lia|]. simpl.
    destruct (cond s); [|exact H].
    apply IH; [exact H | lia].
Qed.

Lemma while_exit (f : nat) (s r : St) :
  Loops.while cond body f s = Some r -> cond r = false.
Proof.
  revert s. induction f as [|f IH]; intros s H; simpl in H.
  - destruct (cond s) eqn:E; congruence.
  - destruct (cond s) eqn:E; [eauto | congruence].
Qed.

Lemma while_invariant (P : St -> Prop) :
  (forall x, P x -> cond x = true -> P (body x)) ->
  forall f s r, P s -> Loops.while cond body f s = Some r -> P r.
Proof.
  intros Hstep f. induction f as [|f IH]; intros s r Hs H; simpl in H.
  - destruct (cond s); congruence.
  - destruct (cond s) eqn:E; [eauto | congruence].
Qed.

Lemma while_skip (f : nat) (s : St) :
  cond s = false -> Loops.while cond body f s = Some s.
Proof. intros E. destruct f; simpl; rewrite E; reflexivity. Qed.

Lemma while_step (f : nat) (s : St) :
  cond s = true ->
  Loops.while cond body (S f) s = Loops.while cond body f (body s).
Proof. intros E. simpl. rewrite E. reflexivity. Qed.

(** A variant that decreases at every iteration, on the states of an
    invariant, bounds the number of iterations. *)
Lemma while_terminates (P : St -> Prop) (m : St -> nat) :
  (forall x, P x -> cond x = true -> P (body x) /\ (m (body x) < m x)%nat) ->
  forall f s, P s -> (m s <= f)%nat -> exists r, Loops.while cond body f s = Some r.
Proof.
  intros Hdec f. induction f as [|f IH]; intros s Hs Hle; simpl.
  - destruct (cond s) eqn:E; [|eauto].
    destruct (Hdec s Hs E) as [_ Hlt]. lia.
  - destruct (cond s) eqn:E; [|eauto].
    destruct (Hdec s Hs E) as [Hb Hlt]. apply IH; [exact Hb | lia].
Qed.

Lemma while_for_run (P : St -> Prop) (m : St -> nat) :
  (forall x, P x -> cond x = true -> P (body x) /\ (m (body x) < m x)%nat) ->
  forall s, P s -> Loops.while cond body (m s) s = Some (Loops.while_for cond body m s).
Proof.
  intros Hdec s Hs. unfold Loops.while_for.
  destruct (while_terminates P m Hdec (m s) s Hs (le_n _)) as [r Hr].
  rewrite Hr. reflexivity.
Qed.

Lemma while_for_unique (P : St -> Prop) (m : St -> nat) :
  (forall x, P x -> cond x = true -> P (body x) /\ (m (body x) < m x)%nat) ->
  forall f s r, P s -> Loops.while cond body f s = Some r ->
                Loops.while_for cond body m s = r.
Proof.
  intros Hdec f s r Hs Hr.
  pose proof (while_for_run P m Hdec s Hs) as Hm.
  destruct (Nat.le_ge_cases f (m s)) as [Hle|Hle].
  - rewrite (while_more_fuel _ _ _ _ Hr Hle) in Hm. congruence.
  - rewrite (while_more_fuel _ _ _ _ Hm Hle) in Hr. congruence.
Qed.
(** An invariant whose step may use that the run goes on to the final
    state [r]. *)
Lemma while_invariant_run (P : St -> Prop) (r : St) :
  (forall x f, P x -> cond x = true ->
               Loops.while cond body f (body x) = Some r -> P (body x)) ->
  forall f s, P s -> Loops.while cond body f s = Some r -> P r.
Proof.
  intros Hstep f. induction f as [|f IH]; intros s Hs H; simpl in H.
  - destruct (cond s); [discriminate|]. injection H as <-. exact Hs.
  - destruct (cond s) eqn:E.
    + apply (IH (body s)); [|exact H]. apply (Hstep s f); assumption.
    + injection H as <-. exact Hs.
Qed.
End WhileFacts.

(** A loop whose test is implied by the test of a second loop is a
    prefix of the second loop. *)
Lemma while_prefix {St : Type} (c1 c2 : St -> bool) (body : St -> St) :
  (forall x, c1 x = true -> c2 x = true) ->
  forall f1 s r1, Loops.while c1 body f1 s = Some r1 ->
  forall f2 r2, Loops.while c2 body f2 r1 = Some r2 ->
  Loops.while c2 body (f1 + f2) s = Some r2.
Proof.
  intros Himp f1. induction f1 as [|f1 IH]; intros s r1 H1 f2 r2 H2; simpl in H1.
  - destruct (c1 s) eqn:E; [congruence|]. injection H1 as <-. exact H2.
  - destruct (c1 s) eqn:E.
    + change (S f1 + f2)%nat with (S (f1 + f2)).
      rewrite while_step by auto. eapply IH; eauto.
    + injection H1 as <-.
      apply while_more_fuel with (f := f2); [exact H2 | lia].
Qed.

(* ===================================================================== *)
(** * Facts about dates *)
(* ===================================================================== *)

Section DateFacts.
Import JSDate.
Variable LocalTZA : Z.

Lemma TimeClip_in (t : Z) : in_range t -> TimeClip t = DateOf t.
Proof.
  unfold in_range, TimeClip. intros H.
  destruct (Z.ltb_spec maxTime (Z.abs t)); [lia | reflexivity].
Qed.

Lemma TimeClip_over (t : Z) : maxTime < t -> TimeClip t = InvalidDate.
Proof.
  unfold TimeClip. intros H.
  destruct (Z.ltb_spec maxTime (Z.abs t)); [reflexivity | lia].
Qed.

Lemma TimeClip_valid (t u : Z) : TimeClip t = DateOf u -> u = t /\ in_range t.
Proof.
  unfold in_range, TimeClip.
  destruct (Z.ltb_spec maxTime (Z.abs t)) as [Hout|Hin]; [discriminate|].
  intros E. injection E as <-. split; [reflexivity | lia].
Qed.

(** One more day is one more day of milliseconds, clipped. *)
Lemma setDate_next_tv (t : Z) :
  setDate_next LocalTZA (DateOf t) = TimeClip (t + msPerDay).
Proof.
  unfold setDate_next, setDate, getDate.
  destruct (civil_of_day (Day (LocalTime LocalTZA t))) as [[y mo] dd].
  cbn [option_map]. unfold UTC, LocalTime, Day, TimeWithinDay, msPerDay. f_equal.
  pose proof (Z.div_mod (t + LocalTZA) 86400000 ltac:(lia)). lia.
Qed.

Lemma setDate_next_in (t : Z) :
  in_range (t + msPerDay) ->
  setDate_next LocalTZA (DateOf t) = DateOf (t + msPerDay).
Proof. intros H. rewrite setDate_next_tv. apply TimeClip_in. exact H. Qed.

Lemma setDate_next_invalid : setDate_next LocalTZA InvalidDate = InvalidDate.
Proof. reflexivity. Qed.

(** A valid date after [setDate] was a valid date before it, one day
    earlier. *)
Lemma setDate_next_valid (d : Date) (u : Z) :
  setDate_next LocalTZA d = DateOf u -> d = DateOf (u - msPerDay) /\ in_range u.
Proof.
  destruct d as [t|]; [|discriminate].
  rewrite setDate_next_tv. intros H. apply TimeClip_valid in H. destruct H as [-> H].
  split; [f_equal; lia | exact H].
Qed.

Lemma WeekDay_range (t : Z) : 0 <= WeekDay t < 7.
Proof. unfold WeekDay. apply Z.mod_pos_bound. lia. Qed.

Lemma WeekDay_next (t : Z) : WeekDay (t + msPerDay) = (WeekDay t + 1) mod 7.
Proof.
  unfold WeekDay, Day, msPerDay.
  replace (t + 86400000) with (t + 1 * 86400000) by lia.
  rewrite Z.div_add by lia.
  rewrite Zplus_mod_idemp_l. f_equal. lia.
Qed.

(** The seven cases of a week day. *)
Lemma WeekDay_cases (t : Z) :
  let w := WeekDay t in
  w = 0 \/ w = 1 \/ w = 2 \/ w = 3 \/ w = 4 \/ w = 5 \/ w = 6.
Proof. pose proof (WeekDay_range t). simpl. lia. Qed.

Lemma on_weekend_spec (d : Date) :
  on_weekend LocalTZA d = true <->
  (getDay LocalTZA d = Some 0 \/ getDay LocalTZA d = Some 6).
Proof.
  unfold on_weekend. destruct (getDay LocalTZA d) as [w|].
  - destruct w as [|p|p]; try (split; [discriminate | intros [H|H]; discriminate]).
    + split; auto.
    + destruct p as [p|p|]; try (split; [discriminate | intros [H|H]; discriminate]).
      destruct p as [p|p|]; try (split; [discriminate | intros [H|H]; discriminate]).
      destruct p as [p|p|]; try (split; [discriminate | intros [H|H]; discriminate]).
      split; auto.
  - split; [discriminate | intros [H|H]; discriminate].
Qed.

Lemma on_weekend_tv (t : Z) :
  on_weekend LocalTZA (DateOf t)
  = (WeekDay (LocalTime LocalTZA t) =? 0) || (WeekDay (LocalTime LocalTZA t) =? 6).
Proof.
  destruct (on_weekend LocalTZA (DateOf t)) eqn:E.
  - apply on_weekend_spec in E. simpl in E. symmetry.
    destruct E as [E|E]; injection E as E; rewrite E; reflexivity.
  - symmetry. apply orb_false_iff. split; apply Z.eqb_neq; intros H;
      assert (on_weekend LocalTZA (DateOf t) = true)
        by (apply on_weekend_spec; simpl; rewrite H; auto); congruence.
Qed.

Lemma weekend_run_tv (t : Z) :
  JSDate.weekend_run LocalTZA (DateOf t)
  = if WeekDay (LocalTime LocalTZA t) =? 6 then 2%nat
    else if WeekDay (LocalTime LocalTZA t) =? 0 then 1%nat else 0%nat.
Proof.
  unfold weekend_run. simpl.
  pose proof (WeekDay_cases (LocalTime LocalTZA t)) as H. simpl in H.
  destruct H as [H|[H|[H|[H|[H|[H|H]]]]]]; rewrite H; reflexivity.
Qed.

(** The second loop of the ship-date rule and the loop of
    [getNextBusinessDay] leave a weekend in at most two steps: on the
    next day, or on no day at all when the date leaves the range. *)
Lemma weekend_run_decreases (d : Date) :
  on_weekend LocalTZA d = true ->
  (JSDate.weekend_run LocalTZA (setDate_next LocalTZA d)
   < JSDate.weekend_run LocalTZA d)%nat.
Proof.
  destruct d as [t|]; [|discriminate].
  rewrite on_weekend_tv, setDate_next_tv, weekend_run_tv.
  unfold TimeClip. destruct (maxTime <? Z.abs (t + msPerDay)).
  - change (weekend_run LocalTZA InvalidDate) with 0%nat.
    destruct (_ =? 6); [lia|]. destruct (_ =? 0); [lia | discriminate].
  - rewrite weekend_run_tv. unfold LocalTime.
    replace (t + msPerDay + LocalTZA) with (t + LocalTZA + msPerDay) by lia.
    rewrite WeekDay_next.
    pose proof (WeekDay_cases (t + LocalTZA)) as H. simpl in H.
    destruct H as [H|[H|[H|[H|[H|[H|H]]]]]]; rewrite H; simpl; intros; try lia; discriminate.
Qed.

Lemma weekend_run_off (d : Date) :
  off_weekend LocalTZA d = true -> JSDate.weekend_run LocalTZA d = 0%nat.
Proof.
  unfold off_weekend. destruct d as [t|]; [|reflexivity].
  rewrite on_weekend_tv, weekend_run_tv.
  destruct (WeekDay (LocalTime LocalTZA t) =? 6), (WeekDay (LocalTime LocalTZA t) =? 0);
    simpl; intros; congruence.
Qed.

Lemma weekend_run_bound (d : Date) : (JSDate.weekend_run LocalTZA d <= 2)%nat.
Proof.
  unfold weekend_run. destruct (getDay LocalTZA d) as [w|]; [|lia].
  destruct w as [|p|p]; try lia.
  destruct p as [p|p|]; try lia. destruct p as [p|p|]; try lia.
  destruct p as [p|p|]; lia.
Qed.

(** The skip of a weekend as a total function. *)
Lemma skip_weekend_run (d : Date) :
  Loops.while (on_weekend LocalTZA) (setDate_next LocalTZA)
    (JSDate.weekend_run LocalTZA d) d
  = Some (Loops.while_for (on_weekend LocalTZA) (setDate_next LocalTZA)
            (JSDate.weekend_run LocalTZA) d).
Proof.
  apply while_for_run with (P := fun _ => True); [|exact I].
  intros x _ Hx. split; [exact I | apply weekend_run_decreases; exact Hx].
Qed.

Lemma skip_weekend_off (d : Date) :
  on_weekend LocalTZA
    (Loops.while_for (on_weekend LocalTZA) (setDate_next LocalTZA)
       (JSDate.weekend_run LocalTZA) d) = false.
Proof. eapply while_exit. apply skip_weekend_run. Qed.

Lemma skip_weekend_result (f : nat) (d r : Date) :
  Loops.while (on_weekend LocalTZA) (setDate_next LocalTZA) f d = Some r ->
  Loops.while_for (on_weekend LocalTZA) (setDate_next LocalTZA)
    (weekend_run LocalTZA) d = r.
Proof.
  apply while_for_unique with (P := fun _ => True); [|exact I].
  intros x _ Hx. split; [exact I | apply weekend_run_decreases; exact Hx].
Qed.

(** The skip of a weekend never moves the date back, and it ends on a
    valid date only from a valid date. *)
Lemma skip_weekend_not_before (t : Z) (d : Date) :
  (forall u, d = DateOf u -> t <= u) ->
  forall u, Loops.while_for (on_weekend LocalTZA) (setDate_next LocalTZA)
              (JSDate.weekend_run LocalTZA) d = DateOf u -> t <= u.
Proof.
  intros H.
  eapply (while_invariant (on_weekend LocalTZA) (setDate_next LocalTZA)
            (fun x => forall u, x = DateOf u -> t <= u));
    [|exact H|apply skip_weekend_run].
  intros x Hx _ u Hu. apply setDate_next_valid in Hu.
  destruct Hu as [Hd _]. specialize (Hx _ Hd). unfold msPerDay in *. lia.
Qed.

Lemma skip_weekend_valid (d : Date) (u : Z) :
  Loops.while_for (on_weekend LocalTZA) (setDate_next LocalTZA)
    (JSDate.weekend_run LocalTZA) d = DateOf u ->
  is_valid d = true.
Proof. destruct d as [t|]; [reflexivity | discriminate]. Qed.
End DateFacts.

(* ===================================================================== *)
(** * Facts about the business-day loop *)
(* ===================================================================== *)

Section BusinessDayFacts.
Import JSDate.
Variable LocalTZA : Z.

Abbreviation cond := DeliveryEstimate.addBusinessDays_cond.
Abbreviation body := (DeliveryEstimate.addBusinessDays_body LocalTZA).
Abbreviation variant := (DeliveryEstimate.addBusinessDays_variant LocalTZA).

Lemma body_fst (st : Date * Z) : fst (body st) = setDate_next LocalTZA (fst st).
Proof.
  unfold DeliveryEstimate.addBusinessDays_body.
  destruct (off_weekend LocalTZA _); reflexivity.
Qed.

Lemma body_snd (st : Date * Z) : snd st <= snd (body st) <= snd st + 1.
Proof.
  unfold DeliveryEstimate.addBusinessDays_body.
  destruct (off_weekend LocalTZA _); simpl; lia.
Qed.

Lemma variant_decreases (days : Z) (st : Date * Z) :
  cond days st = true -> (variant days (body st) < variant days st)%nat.
Proof.
  unfold DeliveryEstimate.addBusinessDays_cond, DeliveryEstimate.addBusinessDays_variant.
  intros Hc. apply Z.ltb_lt in Hc.
  unfold DeliveryEstimate.addBusinessDays_body.
  destruct (off_weekend LocalTZA (setDate_next LocalTZA (fst st))) eqn:E; simpl.
  - rewrite (weekend_run_off _ _ E).
    pose proof (weekend_run_bound LocalTZA
                  (setDate_next LocalTZA (setDate_next LocalTZA (fst st)))).
    lia.
  - unfold off_weekend in E. apply negb_false_iff in E.
    pose proof (weekend_run_decreases _ _ E). lia.
Qed.

Lemma business_loop_run (days : Z) (st : Date * Z) :
  Loops.while (cond days) body (variant days st) st
  = Some (Loops.while_for (cond days) body (variant days) st).
Proof.
  apply while_for_run with (P := fun _ => True); [|exact I].
  intros x _ Hx. split; [exact I | apply variant_decreases; exact Hx].
Qed.

Lemma business_loop_unique (days : Z) (f : nat) (st r : Date * Z) :
  Loops.while (cond days) body f st = Some r ->
  Loops.while_for (cond days) body (variant days) st = r.
Proof.
  apply while_for_unique with (P := fun _ => True); [|exact I].
  intros x _ Hx. split; [exact I | apply variant_decreases; exact Hx].
Qed.

(** The loop stops with its counter at [days]. *)
Lemma business_loop_count (days : Z) (st : Date * Z) :
  snd st <= days ->
  snd (Loops.while_for (cond days) body (variant days) st) = days.
Proof.
  intros Hle.
  pose proof (business_loop_run days st) as Hrun.
  set (r := Loops.while_for (cond days) body (variant days) st) in *.
  assert (Hinv : snd r <= days).
  { eapply (while_invariant (cond days) body (fun x => snd x <= days)); [|exact Hle|exact Hrun].
    intros x Hx Hc. unfold DeliveryEstimate.addBusinessDays_cond in Hc.
    apply Z.ltb_lt in Hc. pose proof (body_snd x). lia. }
  apply while_exit in Hrun. unfold DeliveryEstimate.addBusinessDays_cond in Hrun.
  apply Z.ltb_ge in Hrun. lia.
Qed.

(** An Invalid Date stays one: a run of the loop that ends on a valid
    date went through valid dates only. *)
Lemma business_run_invalid (days : Z) (f : nat) (st r : Date * Z) :
  Loops.while (cond days) body f st = Some r ->
  fst st = InvalidDate -> fst r = InvalidDate.
Proof.
  intros Hrun Hst.
  eapply (while_invariant (cond days) body (fun x => fst x = InvalidDate));
    [|exact Hst|exact Hrun].
  intros x Hx _. rewrite body_fst, Hx. reflexivity.
Qed.

Lemma business_loop_invalid (days : Z) (st : Date * Z) :
  fst st = InvalidDate ->
  fst (Loops.while_for (cond days) body (variant days) st) = InvalidDate.
Proof. apply (business_run_invalid days (variant days st)). apply business_loop_run. Qed.

(** The loop never moves the date back. *)
Lemma business_loop_not_before (days t : Z) (st : Date * Z) :
  not_before t st ->
  not_before t (Loops.while_for (cond days) body (variant days) st).
Proof.
  intros H. eapply (while_invariant (cond days) body (not_before t));
    [|exact H|apply business_loop_run].
  intros x Hx _ u Hu. rewrite body_fst in Hu.
  apply setDate_next_valid in Hu. destruct Hu as [Hd _].
  specialize (Hx _ Hd). unfold msPerDay in *. lia.
Qed.

(** The loop keeps the date in the range of [Date]. *)
Lemma business_loop_in_range (days : Z) (st : Date * Z) :
  (forall u, fst st = DateOf u -> in_range u) ->
  forall u, fst (Loops.while_for (cond days) body (variant days) st) = DateOf u -> in_range u.
Proof.
  intros H.
  eapply (while_invariant (cond days) body
            (fun x => forall u, fst x = DateOf u -> in_range u));
    [|exact H|apply business_loop_run].
  intros x _ _ u Hu. rewrite body_fst in Hu.
  apply setDate_next_valid in Hu. apply Hu.
Qed.

(** The date of the final state counts at least one day for every day
    that the loop counted. *)
Lemma business_loop_days (days s : Z) (st : Date * Z) :
  (forall u, fst st = DateOf u -> s + snd st * msPerDay <= u) ->
  let r := Loops.while_for (cond days) body (variant days) st in
  forall u, fst r = DateOf u -> s + snd r * msPerDay <= u.
Proof.
  intros H r.
  eapply (while_invariant (cond days) body
            (fun x => forall u, fst x = DateOf u -> s + snd x * msPerDay <= u));
    [|exact H|apply business_loop_run].
  intros x Hx _ u Hu. rewrite body_fst in Hu.
  apply setDate_next_valid in Hu. destruct Hu as [Hd _].
  specialize (Hx _ Hd). pose proof (body_snd x).
  unfold msPerDay in *. nia.
Qed.

(** [addBusinessDays] without a day to add. *)
Lemma addBusinessDays_nothing (d : Date) (days : Z) :
  days <= 0 ->
  DeliveryEstimate.addBusinessDays LocalTZA d days = d
  /\ forall fuel, DeliveryEstimate.addBusinessDays_loop LocalTZA fuel d days = Some d.
Proof.
  intros Hle.
  assert (Hc : cond days (d, 0) = false)
    by (unfold DeliveryEstimate.addBusinessDays_cond; apply Z.ltb_ge; simpl; lia).
  split.
  - unfold DeliveryEstimate.addBusinessDays.
    rewrite (business_loop_unique days 0 (d, 0) (d, 0)); [reflexivity|].
    apply while_skip; exact Hc.
  - intros fuel. unfold DeliveryEstimate.addBusinessDays_loop.
    rewrite while_skip by exact Hc. reflexivity.
Qed.

(** The loop for [m] days runs through the final state of the loop for
    [n <= m] days. *)
Lemma business_loop_split (n m : Z) (st : Date * Z) :
  n <= m ->
  Loops.while_for (cond m) body (variant m) st
  = Loops.while_for (cond m) body (variant m)
      (Loops.while_for (cond n) body (variant n) st).
Proof.
  intros Hle.
  eapply business_loop_unique.
  eapply while_prefix with (c1 := cond n).
  - intros x Hx. unfold DeliveryEstimate.addBusinessDays_cond in *.
    apply Z.ltb_lt in Hx. apply Z.ltb_lt. lia.
  - apply business_loop_run.
  - apply business_loop_run.
Qed.

Lemma business_loop_advances (days t : Z) (st : Date * Z) :
  fst st = DateOf t -> cond days st = true ->
  not_before (t + msPerDay) (Loops.while_for (cond days) body (variant days) st).
Proof.
  intros Ht Hc.
  pose proof (business_loop_run days st) as Hrun.
  assert (Hpos : exists k, variant days st = S k).
  { pose proof (variant_decreases days st Hc).
    destruct (variant days st); [lia | eauto]. }
  destruct Hpos as [k Hk]. rewrite Hk in Hrun.
  rewrite while_step in Hrun by exact Hc.
  apply business_loop_unique in Hrun. rewrite <- Hrun.
  apply business_loop_not_before. intros u Hu.
  rewrite body_fst, Ht in Hu. apply setDate_next_valid in Hu. destruct Hu as [Hd _].
  injection Hd as Hd. lia.
Qed.

(** What [addBusinessDays] does at the end of the range: from an Invalid
    Date it gives an Invalid Date, for more days it stays invalid, and a
    valid result is not before the start and within the range. *)
Lemma addBusinessDays_invalid (days : Z) :
  DeliveryEstimate.addBusinessDays LocalTZA InvalidDate days = InvalidDate.
Proof. unfold DeliveryEstimate.addBusinessDays. apply business_loop_invalid. reflexivity. Qed.

Lemma addBusinessDays_stays_invalid (d : Date) (n m : Z) :
  n <= m ->
  DeliveryEstimate.addBusinessDays LocalTZA d n = InvalidDate ->
  DeliveryEstimate.addBusinessDays LocalTZA d m = InvalidDate.
Proof.
  intros Hle Hn. unfold DeliveryEstimate.addBusinessDays in *.
  rewrite (business_loop_split n m) by exact Hle.
  apply business_loop_invalid. exact Hn.
Qed.

Lemma addBusinessDays_valid_before (d : Date) (n m : Z) :
  n <= m ->
  is_valid (DeliveryEstimate.addBusinessDays LocalTZA d m) = true ->
  is_valid (DeliveryEstimate.addBusinessDays LocalTZA d n) = true.
Proof.
  intros Hle Hm.
  destruct (DeliveryEstimate.addBusinessDays LocalTZA d n) eqn:E; [reflexivity|].
  rewrite (addBusinessDays_stays_invalid d n m Hle E) in Hm. discriminate Hm.
Qed.

Lemma addBusinessDays_not_before (t days u : Z) :
  DeliveryEstimate.addBusinessDays LocalTZA (DateOf t) days = DateOf u -> t <= u.
Proof.
  unfold DeliveryEstimate.addBusinessDays.
  apply (business_loop_not_before days t (DateOf t, 0)).
  intros v Hv. injection Hv as <-. lia.
Qed.

Lemma addBusinessDays_in_range (t days u : Z) :
  in_range t ->
  DeliveryEstimate.addBusinessDays LocalTZA (DateOf t) days = DateOf u -> in_range u.
Proof.
  intros Ht. unfold DeliveryEstimate.addBusinessDays.
  apply (business_loop_in_range days (DateOf t, 0)).
  intros v Hv. injection Hv as <-. exact Ht.
Qed.

Lemma addBusinessDays_increasing (t n m : Z) :
  0 <= n -> n < m ->
  is_valid (DeliveryEstimate.addBusinessDays LocalTZA (DateOf t) m) = true ->
  lt (DeliveryEstimate.addBusinessDays LocalTZA (DateOf t) n)
     (DeliveryEstimate.addBusinessDays LocalTZA (DateOf t) m) = true.
Proof.
  intros Hn Hnm Hvalid.
  pose proof (addBusinessDays_valid_before (DateOf t) n m ltac:(lia) Hvalid) as Hvn.
  unfold DeliveryEstimate.addBusinessDays in *.
  rewrite (business_loop_split n m) in * by lia.
  set (sn := Loops.while_for (cond n) body (variant n) (DateOf t, 0)) in *.
  assert (Hcount : snd sn = n) by (apply business_loop_count; simpl; lia).
  destruct (fst sn) as [u|] eqn:Hu; [|discriminate Hvn].
  pose proof (business_loop_advances m u sn Hu) as Hadv.
  destruct (fst (Loops.while_for (cond m) body (variant m) sn)) as [v|] eqn:Hv;
    [|discriminate Hvalid].
  assert (Huv : u + msPerDay <= v).
  { apply Hadv; [|exact Hv].
    unfold DeliveryEstimate.addBusinessDays_cond. apply Z.ltb_lt. lia. }
  simpl. apply Z.ltb_lt. unfold msPerDay in Huv. lia.
Qed.

(** The carrier's copy and the first loop of the ship-date rule are the
    same loop. *)
Lemma fedex_addBusinessDays_same (d : Date) (days : Z) :
  FedExCarrier.addBusinessDays LocalTZA d days
  = DeliveryEstimate.addBusinessDays LocalTZA d days.
Proof. reflexivity. Qed.

Lemma fedex_addBusinessDays_loop_same (fuel : nat) (d : Date) (days : Z) :
  FedExCarrier.addBusinessDays_loop LocalTZA fuel d days
  = DeliveryEstimate.addBusinessDays_loop LocalTZA fuel d days.
Proof. reflexivity. Qed.

Lemma addBusinessDays_loop_total (d : Date) (days : Z) :
  DeliveryEstimate.addBusinessDays_loop LocalTZA
    (DeliveryEstimate.addBusinessDays_variant LocalTZA days (d, 0)) d days
  = Some (DeliveryEstimate.addBusinessDays LocalTZA d days).
Proof.
  unfold DeliveryEstimate.addBusinessDays_loop, DeliveryEstimate.addBusinessDays.
  rewrite business_loop_run. reflexivity.
Qed.
End BusinessDayFacts.

(* ===================================================================== *)
(** * Facts about the zone heuristic *)
(* ===================================================================== *)

Section ZoneFacts.
Import JS.
Local Arguments Z.mul : simpl never.
Local Arguments Z.add : simpl never.

Lemma digit_not_special (c : ascii) :
  is_digit c = true ->
  is_space c = false /\ Ascii.eqb c "-" = false /\ Ascii.eqb c "+" = false.
Proof.
  destruct c as [[] [] [] [] [] [] [] []]; intros H; try discriminate H;
    repeat split; reflexivity.
Qed.

Lemma digit_value_range (c : ascii) : is_digit c = true -> 0 <= digit_value c <= 9.
Proof.
  destruct c as [[] [] [] [] [] [] [] []]; intros H; try discriminate H;
    unfold digit_value; simpl; lia.
Qed.

(** [parseInt] reads the sectional code off the first three characters
    of a postal code that starts with three digits. *)
Lemma parseInt_sectional_code (zip : string) (n : Z) :
  Spec.sectional_code zip = Some n -> parseInt (substring0 3 zip) = Some n.
Proof.
  destruct zip as [|a [|b [|c rest]]]; try discriminate.
  unfold Spec.sectional_code.
  destruct (is_digit a) eqn:Ha; [|discriminate].
  destruct (is_digit b) eqn:Hb; [|discriminate].
  destruct (is_digit c) eqn:Hc; [|discriminate].
  simpl. intros H. injection H as <-.
  destruct (digit_not_special a Ha) as [Hs [Hm Hp]].
  unfold parseInt. simpl. rewrite Hs, Hm, Hp.
  unfold digits_prefix. simpl. rewrite Ha. simpl. rewrite Hb. simpl. rewrite Hc.
  f_equal. lia.
Qed.

Lemma sectional_code_range (zip : string) (n : Z) :
  Spec.sectional_code zip = Some n -> 0 <= n <= 999.
Proof.
  destruct zip as [|a [|b [|c rest]]]; try discriminate.
  unfold Spec.sectional_code.
  destruct (is_digit a) eqn:Ha; [|discriminate].
  destruct (is_digit b) eqn:Hb; [|discriminate].
  destruct (is_digit c) eqn:Hc; [|discriminate].
  simpl. intros H. injection H as <-.
  pose proof (digit_value_range a Ha). pose proof (digit_value_range b Hb).
  pose proof (digit_value_range c Hc). lia.
Qed.

Lemma sectional_code_truthy (zip : string) (n : Z) :
  Spec.sectional_code zip = Some n -> truthy (Some zip) = true.
Proof. destruct zip; [discriminate | reflexivity]. Qed.

Lemma truthy_nonempty (s : string) : s <> "" -> truthy (Some s) = true.
Proof. destruct s; [congruence | reflexivity]. Qed.

(** The ladder of thresholds, on the difference of two sectional
    codes that [parseInt] could read. *)
Lemma estimateTransitDays_parsed (o d : string) (a b : Z) :
  truthy (Some o) = true -> truthy (Some d) = true ->
  parseInt (substring0 3 o) = Some a -> parseInt (substring0 3 d) = Some b ->
  DeliveryEstimate.estimateTransitDays (Some o) (Some d)
  = if Z.abs (a - b) <? 50 then 2
    else if Z.abs (a - b) <? 200 then 3
    else if Z.abs (a - b) <? 400 then 4
    else if Z.abs (a - b) <? 600 then 5
    else 6.
Proof.
  intros Ho Hd Ha Hb. unfold DeliveryEstimate.estimateTransitDays.
  rewrite Ho, Hd, Ha, Hb. reflexivity.
Qed.

(** The ladder on two postal codes that start with three digits. *)
Lemma estimateTransitDays_sectional (o d : string) (a b : Z) :
  Spec.sectional_code o = Some a -> Spec.sectional_code d = Some b ->
  DeliveryEstimate.estimateTransitDays (Some o) (Some d)
  = if Z.abs (a - b) <? 50 then 2
    else if Z.abs (a - b) <? 200 then 3
    else if Z.abs (a - b) <? 400 then 4
    else if Z.abs (a - b) <? 600 then 5
    else 6.
Proof.
  intros Ha Hb. apply estimateTransitDays_parsed.
  - eapply sectional_code_truthy; eassumption.
  - eapply sectional_code_truthy; eassumption.
  - apply parseInt_sectional_code; assumption.
  - apply parseInt_sectional_code; assumption.
Qed.

Lemma estimateTransitDays_range (o d : option string) :
  2 <= DeliveryEstimate.estimateTransitDays o d <= 6.
Proof.
  unfold DeliveryEstimate.estimateTransitDays.
  repeat match goal with
         | |- context [if ?c then _ else _] => destruct c
         end; lia.
Qed.
End ZoneFacts.

(** Two loops that agree, test and body, on the states of an invariant
    of the first give the same result. *)
Lemma while_ext {St : Type} (P : St -> Prop) (c1 c2 : St -> bool) (b1 b2 : St -> St) :
  (forall x, P x -> c1 x = c2 x) ->
  (forall x, P x -> c1 x = true -> b1 x = b2 x /\ P (b1 x)) ->
  forall f s, P s -> Loops.while c1 b1 f s = Loops.while c2 b2 f s.
Proof.
  intros Hc Hb f. induction f as [|f IH]; intros s Hs; simpl; rewrite <- (Hc s Hs).
  - reflexivity.
  - destruct (c1 s) eqn:E; [|reflexivity].
    destruct (Hb s Hs E) as [Heq HP]. rewrite <- Heq. apply IH. exact HP.
Qed.

(* ===================================================================== *)
(** * Facts about the ship-date rule *)
(* ===================================================================== *)

Lemma hhmm_check_all :
  forallb (fun h => forallb (hhmm_check h) (seq 0 60)) (seq 0 24) = true.
Proof. vm_compute. reflexivity. Qed.

Lemma Number_hhmm (h m : Z) :
  0 <= h < 24 -> 0 <= m < 60 ->
  map JS.Number (JS.split_colon "" (Spec.hhmm h m)) = [JS.of_Z h; JS.of_Z m].
Proof.
  intros Hh Hm.
  pose proof hhmm_check_all as Hall.
  rewrite forallb_forall in Hall.
  specialize (Hall (Z.to_nat h)).
  rewrite forallb_forall in Hall.
  assert (Hin : In (Z.to_nat h) (seq 0 24)) by (apply in_seq; lia).
  specialize (Hall Hin (Z.to_nat m)).
  assert (Hin' : In (Z.to_nat m) (seq 0 60)) by (apply in_seq; lia).
  specialize (Hall Hin'). unfold hhmm_check in Hall.
  rewrite !Z2Nat.id in Hall by lia.
  destruct (map JS.Number (JS.split_colon "" (Spec.hhmm h m)))
    as [|[| | |[a da]] [|[| | |[b db]] [|]]]; try discriminate.
  cbn [Qnum Qden] in Hall.
  repeat (apply andb_true_iff in Hall; destruct Hall as [Hall ?]).
  repeat match goal with
         | H : (_ =? _) = true |- _ => apply Z.eqb_eq in H
         | H : Pos.eqb _ _ = true |- _ => apply Pos.eqb_eq in H
         end.
  subst. reflexivity.
Qed.

(** Every integer up to [2 ^ 53] in size is a double. *)
Lemma double_of_Z_small (z : Z) :
  Z.abs z <= 9007199254740992 -> JS.double_of_Z z = Some z.
Proof.
  intros H. unfold JS.double_of_Z.
  destruct (Z.leb_spec (Z.abs z) 9007199254740992); [reflexivity|lia].
Qed.

(** The time of day of whole hours and minutes, as long as it is exact
    in doubles. *)
Lemma MakeTime_of_Z (h m : Z) :
  Z.abs h <= 1000000000 -> Z.abs m <= 1000000000 ->
  JSDate.MakeTime (JS.of_Z h) (JS.of_Z m)
  = Some (h * JSDate.msPerHour + m * JSDate.msPerMinute).
Proof.
  intros Hh Hm. unfold JSDate.MakeTime, JS.of_Z, JS.truncate, inject_Z.
  cbn [Qnum Qden]. rewrite !Z.quot_1_r.
  unfold JSDate.msPerHour, JSDate.msPerMinute.
  rewrite !double_of_Z_small by lia. reflexivity.
Qed.

Section ShipDateFacts.
Import JSDate.
Variable LocalTZA : Z.
Variable now : Z.

Abbreviation handling_final handlingDays cutoffTime :=
  (Loops.while_for (DeliveryEstimate.handling_cond handlingDays)
     (DeliveryEstimate.handling_body LocalTZA)
     (DeliveryEstimate.handling_variant LocalTZA handlingDays)
     (DeliveryEstimate.start_of LocalTZA now cutoffTime, 0)).

(** The cut-off instant of today lies less than a day from [now]. *)
Lemma cutoff_instant_near (h m : Z) :
  0 <= h < 24 -> 0 <= m < 60 ->
  now - msPerDay < Spec.cutoff_instant LocalTZA now h m < now + msPerDay.
Proof.
  intros Hh Hm. unfold Spec.cutoff_instant, UTC, LocalTime, Day, msPerDay, msPerHour,
    msPerMinute.
  pose proof (Z.div_mod (now + LocalTZA) 86400000 ltac:(lia)).
  pose proof (Z.mod_pos_bound (now + LocalTZA) 86400000 ltac:(lia)).
  lia.
Qed.

Lemma cutoff_of_hhmm (h m : Z) :
  0 <= h < 24 -> 0 <= m < 60 ->
  DeliveryEstimate.cutoff_of LocalTZA now (Spec.hhmm h m)
  = TimeClip (Spec.cutoff_instant LocalTZA now h m).
Proof.
  intros Hh Hm. unfold DeliveryEstimate.cutoff_of.
  rewrite Number_hhmm by assumption. cbn [nth]. unfold setHours.
  rewrite MakeTime_of_Z by lia. reflexivity.
Qed.

(** The comparison of [now] with the cut-off date is the comparison of
    the two instants, the day at the lower end of the range apart. *)
Lemma past_cutoff_hhmm (h m : Z) :
  0 <= h < 24 -> 0 <= m < 60 ->
  - maxTime + msPerDay <= now <= maxTime ->
  ge (DateOf now) (DeliveryEstimate.cutoff_of LocalTZA now (Spec.hhmm h m))
  = (Spec.cutoff_instant LocalTZA now h m <=? now).
Proof.
  intros Hh Hm Hnow. rewrite cutoff_of_hhmm by assumption.
  pose proof (cutoff_instant_near h m Hh Hm) as Hnear.
  unfold TimeClip.
  destruct (Z.ltb_spec maxTime (Z.abs (Spec.cutoff_instant LocalTZA now h m))) as [Hout|Hin].
  - simpl. symmetry. apply Z.leb_gt. lia.
  - reflexivity.
Qed.

Lemma start_of_hhmm (h m : Z) :
  0 <= h < 24 -> 0 <= m < 60 ->
  - maxTime + msPerDay <= now <= maxTime ->
  DeliveryEstimate.start_of LocalTZA now (Spec.hhmm h m)
  = if Spec.cutoff_instant LocalTZA now h m <=? now
    then setDate_next LocalTZA (DateOf now) else DateOf now.
Proof.
  intros Hh Hm Hnow. unfold DeliveryEstimate.start_of.
  rewrite past_cutoff_hhmm by assumption. reflexivity.
Qed.

(** The start of the count is [now], or the day after. *)
Lemma start_of_days (cutoffTime : string) (u : Z) :
  DeliveryEstimate.start_of LocalTZA now cutoffTime = DateOf u ->
  u = now + (if ge (DateOf now) (DeliveryEstimate.cutoff_of LocalTZA now cutoffTime)
             then 1 else 0) * msPerDay.
Proof.
  unfold DeliveryEstimate.start_of. destruct (ge _ _).
  - intros H. apply setDate_next_valid in H. destruct H as [H _].
    injection H as H. lia.
  - intros H. injection H as <-. lia.
Qed.

Lemma start_of_in_range (cutoffTime : string) (u : Z) :
  in_range now ->
  DeliveryEstimate.start_of LocalTZA now cutoffTime = DateOf u -> in_range u.
Proof.
  intros Hnow. unfold DeliveryEstimate.start_of. destruct (ge _ _).
  - intros H. apply setDate_next_valid in H. apply H.
  - intros H. injection H as <-. exact Hnow.
Qed.

(** On a valid date, Monday to Friday is what is not Saturday or Sunday. *)
Lemma weekday_processing (t : Z) :
  Spec.in_processingDays LocalTZA [1; 2; 3; 4; 5] (DateOf t) = off_weekend LocalTZA (DateOf t).
Proof.
  unfold off_weekend. rewrite on_weekend_tv. unfold Spec.in_processingDays. simpl.
  pose proof (WeekDay_cases (LocalTime LocalTZA t)) as H. simpl in H.
  destruct H as [H|[H|[H|[H|[H|[H|H]]]]]]; rewrite H; reflexivity.
Qed.

(** A ship date that is valid comes from a count that ended on a valid
    date. *)
Lemma calculateShipDate_handling_valid (handlingDays : Z) (cutoffTime : string) :
  is_valid (DeliveryEstimate.calculateShipDate LocalTZA now handlingDays cutoffTime) = true ->
  is_valid (fst (handling_final handlingDays cutoffTime)) = true.
Proof.
  unfold DeliveryEstimate.calculateShipDate.
  destruct (fst (handling_final handlingDays cutoffTime)); [reflexivity | discriminate].
Qed.

(** A valid ship date is [now] plus whole days: at least one for every
    handling day, and one more past the cut-off. *)
Lemma calculateShipDate_days_after (handlingDays : Z) (cutoffTime : string) (u : Z) :
  0 <= handlingDays ->
  DeliveryEstimate.calculateShipDate LocalTZA now handlingDays cutoffTime = DateOf u ->
  exists k,
    u = now + k * msPerDay
    /\ handlingDays
       + (if ge (DateOf now) (DeliveryEstimate.cutoff_of LocalTZA now cutoffTime)
          then 1 else 0) <= k.
Proof.
  intros Hdays. unfold DeliveryEstimate.calculateShipDate.
  set (p := if ge (DateOf now) (DeliveryEstimate.cutoff_of LocalTZA now cutoffTime)
            then 1 else 0).
  pose (inv := fun st : Date * Z =>
                 forall v, fst st = DateOf v ->
                           exists j, v = now + j * msPerDay /\ p + snd st <= j).
  assert (Hloop : inv (handling_final handlingDays cutoffTime)).
  { change (DeliveryEstimate.handling_cond handlingDays)
      with (DeliveryEstimate.addBusinessDays_cond handlingDays).
    change (DeliveryEstimate.handling_body LocalTZA)
      with (DeliveryEstimate.addBusinessDays_body LocalTZA).
    change (DeliveryEstimate.handling_variant LocalTZA handlingDays)
      with (DeliveryEstimate.addBusinessDays_variant LocalTZA handlingDays).
    eapply (while_invariant _ _ inv); [| |apply business_loop_run].
    - intros x Hx _ v Hv. rewrite body_fst in Hv.
      apply setDate_next_valid in Hv. destruct Hv as [Hd _].
      destruct (Hx _ Hd) as [j [Hj Hle]]. exists (j + 1).
      pose proof (body_snd LocalTZA x). split; lia.
    - intros v Hv. cbn [fst snd] in *. apply start_of_days in Hv.
      exists p. split; [exact Hv | lia]. }
  assert (Hcount : snd (handling_final handlingDays cutoffTime) = handlingDays).
  { apply (business_loop_count LocalTZA handlingDays). simpl. lia. }
  revert u.
  eapply (while_invariant _ _
            (fun x => forall u, x = DateOf u ->
                                exists k, u = now + k * msPerDay
                                          /\ handlingDays + p <= k));
    [| |apply skip_weekend_run].
  - intros x Hx _ u Hu. apply setDate_next_valid in Hu. destruct Hu as [Hd _].
    destruct (Hx _ Hd) as [k [Hk Hle]]. exists (k + 1). split; lia.
  - intros u Hu. destruct (Hloop u Hu) as [j [Hj Hle]].
    exists j. split; [exact Hj | lia].
Qed.

Lemma calculateShipDate_in_range (handlingDays : Z) (cutoffTime : string) (u : Z) :
  in_range now ->
  DeliveryEstimate.calculateShipDate LocalTZA now handlingDays cutoffTime = DateOf u ->
  in_range u.
Proof.
  intros Hnow. unfold DeliveryEstimate.calculateShipDate.
  revert u.
  eapply (while_invariant _ _ (fun x => forall u, x = DateOf u -> in_range u));
    [| |apply skip_weekend_run].
  - intros x _ _ u Hu. apply setDate_next_valid in Hu. apply Hu.
  - apply (business_loop_in_range LocalTZA handlingDays).
    intros v Hv. apply (start_of_in_range cutoffTime v Hnow Hv).
Qed.

(** With more handling days than the range of [Date] has days left, the
    ship date is an Invalid Date. *)
Lemma calculateShipDate_out_of_range (handlingDays : Z) (cutoffTime : string) :
  0 <= handlingDays -> in_range now ->
  maxTime < now + handlingDays * msPerDay ->
  DeliveryEstimate.calculateShipDate LocalTZA now handlingDays cutoffTime = InvalidDate.
Proof.
  intros Hdays Hnow Hfar.
  destruct (DeliveryEstimate.calculateShipDate LocalTZA now handlingDays cutoffTime)
    as [u|] eqn:E; [exfalso | reflexivity].
  pose proof (calculateShipDate_in_range _ _ _ Hnow E) as Hu.
  destruct (calculateShipDate_days_after _ _ _ Hdays E) as [k [Hk Hle]].
  unfold in_range, msPerDay in *.
  destruct (ge _ _); nia.
Qed.

(** The two loops of the rule end within the fuel of their variants. *)
Lemma calculateShipDate_loop_total (handlingDays : Z) (cutoffTime : string) (fuel : nat) :
  (DeliveryEstimate.handling_variant LocalTZA handlingDays
     (DeliveryEstimate.start_of LocalTZA now cutoffTime, 0%Z) <= fuel)%nat ->
  (2 <= fuel)%nat ->
  DeliveryEstimate.calculateShipDate_loop LocalTZA now fuel handlingDays cutoffTime
  = Some (DeliveryEstimate.calculateShipDate LocalTZA now handlingDays cutoffTime).
Proof.
  intros H1 H2. unfold DeliveryEstimate.calculateShipDate_loop, DeliveryEstimate.calculateShipDate.
  pose proof (business_loop_run LocalTZA handlingDays
                (DeliveryEstimate.start_of LocalTZA now cutoffTime, 0)) as Hrun.
  apply while_more_fuel with (f' := fuel) in Hrun; [|exact H1].
  change (DeliveryEstimate.handling_cond handlingDays)
    with (DeliveryEstimate.addBusinessDays_cond handlingDays).
  change (DeliveryEstimate.handling_body LocalTZA)
    with (DeliveryEstimate.addBusinessDays_body LocalTZA).
  change (DeliveryEstimate.handling_variant LocalTZA handlingDays)
    with (DeliveryEstimate.addBusinessDays_variant LocalTZA handlingDays).
  rewrite Hrun.
  destruct (Loops.while_for _ _ _ _) as [shipDate added]. simpl fst.
  apply while_more_fuel with (f := JSDate.weekend_run LocalTZA shipDate).
  - apply skip_weekend_run.
  - pose proof (weekend_run_bound LocalTZA shipDate). lia.
Qed.

(** A step of a loop does not change where the loop ends. *)
Lemma business_loop_step (days : Z) (x : Date * Z) :
  DeliveryEstimate.addBusinessDays_cond days x = true ->
  Loops.while_for (DeliveryEstimate.addBusinessDays_cond days)
    (DeliveryEstimate.addBusinessDays_body LocalTZA)
    (DeliveryEstimate.addBusinessDays_variant LocalTZA days)
    (DeliveryEstimate.addBusinessDays_body LocalTZA x)
  = Loops.while_for (DeliveryEstimate.addBusinessDays_cond days)
      (DeliveryEstimate.addBusinessDays_body LocalTZA)
      (DeliveryEstimate.addBusinessDays_variant LocalTZA days) x.
Proof.
  intros Hc.
  pose proof (business_loop_run LocalTZA days x) as Hrun.
  pose proof (variant_decreases LocalTZA days x Hc) as Hdec.
  destruct (DeliveryEstimate.addBusinessDays_variant LocalTZA days x) as [|k]; [lia|].
  rewrite while_step in Hrun by exact Hc.
  apply business_loop_unique in Hrun. exact Hrun.
Qed.

Lemma skip_weekend_step (x : Date) :
  on_weekend LocalTZA x = true ->
  Loops.while_for (on_weekend LocalTZA) (setDate_next LocalTZA)
    (weekend_run LocalTZA) (setDate_next LocalTZA x)
  = Loops.while_for (on_weekend LocalTZA) (setDate_next LocalTZA)
      (weekend_run LocalTZA) x.
Proof.
  intros Hc.
  pose proof (skip_weekend_run LocalTZA x) as Hrun.
  pose proof (weekend_run_decreases LocalTZA x Hc) as Hdec.
  destruct (weekend_run LocalTZA x) as [|k]; [lia|].
  rewrite while_step in Hrun by exact Hc.
  apply skip_weekend_result in Hrun. exact Hrun.
Qed.

(** With Monday to Friday for processing days, the rule of the
    specification is the rule of the code, fuel for fuel, whenever the
    ship date of the code is a valid date. *)
Lemma spec_rule_on_weekdays (fuel : nat) (handlingDays h m : Z) :
  0 <= h < 24 -> 0 <= m < 60 ->
  - maxTime + msPerDay <= now <= maxTime ->
  is_valid (DeliveryEstimate.calculateShipDate LocalTZA now handlingDays (Spec.hhmm h m))
  = true ->
  Spec.calculateShipDate LocalTZA fuel now handlingDays h m [1; 2; 3; 4; 5]
  = DeliveryEstimate.calculateShipDate_loop LocalTZA now fuel handlingDays (Spec.hhmm h m).
Proof.
  intros Hh Hm Hnow Hvalid.
  unfold Spec.calculateShipDate, DeliveryEstimate.calculateShipDate_loop.
  unfold DeliveryEstimate.calculateShipDate in Hvalid.
  rewrite start_of_hhmm in * by assumption.
  set (start := if Spec.cutoff_instant LocalTZA now h m <=? now
                then setDate_next LocalTZA (DateOf now) else DateOf now) in *.
  change (DeliveryEstimate.handling_cond handlingDays)
    with (DeliveryEstimate.addBusinessDays_cond handlingDays) in *.
  change (DeliveryEstimate.handling_body LocalTZA)
    with (DeliveryEstimate.addBusinessDays_body LocalTZA) in *.
  change (DeliveryEstimate.handling_variant LocalTZA handlingDays)
    with (DeliveryEstimate.addBusinessDays_variant LocalTZA handlingDays) in *.
  pose (skip := Loops.while_for (on_weekend LocalTZA) (setDate_next LocalTZA)
                  (weekend_run LocalTZA)).
  pose (final := Loops.while_for (DeliveryEstimate.addBusinessDays_cond handlingDays)
                   (DeliveryEstimate.addBusinessDays_body LocalTZA)
                   (DeliveryEstimate.addBusinessDays_variant LocalTZA handlingDays)).
  pose (good := fun st : Date * Z => is_valid (skip (fst (final st))) = true).
  assert (Hgood : forall x, good x -> exists t, fst x = DateOf t).
  { intros x Hx. unfold good in Hx.
    destruct (fst x) as [t|] eqn:E; [eauto|].
    unfold final in Hx. rewrite (business_loop_invalid LocalTZA handlingDays x E) in Hx.
    discriminate Hx. }
  assert (Hloop :
    Loops.while (fun st : Date * Z => snd st <? handlingDays)
      (Spec.advance LocalTZA [1; 2; 3; 4; 5]) fuel (start, 0)
    = Loops.while (DeliveryEstimate.addBusinessDays_cond handlingDays)
        (DeliveryEstimate.addBusinessDays_body LocalTZA) fuel (start, 0)).
  { apply while_ext with (P := good); [reflexivity| |exact Hvalid].
    intros x Hx Hc.
    assert (Hnext : good (DeliveryEstimate.addBusinessDays_body LocalTZA x)).
    { unfold good, final. rewrite business_loop_step by exact Hc. exact Hx. }
    assert (Heq : Spec.advance LocalTZA [1; 2; 3; 4; 5] x
                  = DeliveryEstimate.addBusinessDays_body LocalTZA x).
    { destruct (Hgood _ Hnext) as [t Ht]. rewrite body_fst in Ht.
      unfold Spec.advance, DeliveryEstimate.addBusinessDays_body.
      rewrite Ht, weekday_processing. reflexivity. }
    split; [exact Heq | rewrite Heq; exact Hnext]. }
  rewrite Hloop.
  destruct (Loops.while (DeliveryEstimate.addBusinessDays_cond handlingDays) _ fuel (start, 0))
    as [[d a]|] eqn:E; [|reflexivity].
  apply business_loop_unique in E.
  assert (Hd : is_valid (skip d) = true).
  { change d with (fst (d, a)). rewrite <- E. exact Hvalid. }
  apply while_ext with (P := fun x => is_valid (skip x) = true); [| |exact Hd].
  - intros x Hx. destruct x as [t|]; [|discriminate Hx].
    rewrite weekday_processing. unfold off_weekend. apply negb_involutive.
  - intros x Hx Hc. split; [reflexivity|].
    destruct x as [t|]; [|discriminate Hx].
    rewrite weekday_processing in Hc. unfold off_weekend in Hc.
    rewrite negb_involutive in Hc.
    unfold skip. rewrite skip_weekend_step by exact Hc. exact Hx.
Qed.

Lemma calculateShipDate_weekday (handlingDays : Z) (cutoffTime : string) :
  is_valid (DeliveryEstimate.calculateShipDate LocalTZA now handlingDays cutoffTime) = true ->
  Spec.in_processingDays LocalTZA [1; 2; 3; 4; 5]
    (DeliveryEstimate.calculateShipDate LocalTZA now handlingDays cutoffTime) = true.
Proof.
  intros Hvalid.
  pose proof (skip_weekend_off LocalTZA (fst (handling_final handlingDays cutoffTime)))
    as Hoff.
  fold (DeliveryEstimate.calculateShipDate LocalTZA now handlingDays cutoffTime) in Hoff.
  destruct (DeliveryEstimate.calculateShipDate LocalTZA now handlingDays cutoffTime)
    as [u|]; [|discriminate Hvalid].
  rewrite weekday_processing. unfold off_weekend. rewrite Hoff. reflexivity.
Qed.

(** An order placed before the cut-off of a working day, with no
    handling day, ships at once. *)
Lemma calculateShipDate_same_day (cutoffTime : string) :
  ge (DateOf now) (DeliveryEstimate.cutoff_of LocalTZA now cutoffTime) = false ->
  on_weekend LocalTZA (DateOf now) = false ->
  DeliveryEstimate.calculateShipDate LocalTZA now 0 cutoffTime = DateOf now.
Proof.
  intros Hbefore Hday. unfold DeliveryEstimate.calculateShipDate, DeliveryEstimate.start_of.
  rewrite Hbefore.
  change (DeliveryEstimate.handling_cond 0) with (DeliveryEstimate.addBusinessDays_cond 0).
  change (DeliveryEstimate.handling_body LocalTZA)
    with (DeliveryEstimate.addBusinessDays_body LocalTZA).
  change (DeliveryEstimate.handling_variant LocalTZA 0)
    with (DeliveryEstimate.addBusinessDays_variant LocalTZA 0).
  rewrite (business_loop_unique LocalTZA 0 0 (DateOf now, 0) (DateOf now, 0))
    by (apply while_skip; reflexivity).
  cbn [fst]. apply skip_weekend_result with (f := 0%nat).
  apply while_skip. exact Hday.
Qed.
End ShipDateFacts.

(* ===================================================================== *)
(** * Facts about the carrier *)
(* ===================================================================== *)

Ltac break_match :=
  match goal with
  | |- context [match ?x with _ => _ end] => destruct x eqn:?
  | H : context [match ?x with _ => _ end] |- _ => destruct x eqn:?
  end.

Ltac pair_eq :=
  repeat match goal with
         | H : (_, _) = (_, _) |- _ => injection H as; subst
         end.

Section CarrierFacts.
Import JS JSDate Eff Types.
Variable LocalTZA : Z.
Variable now : Z.
Variable Date_parse : string -> Date.
Variable fetch_oauth :
  string -> option string -> option string -> Outcome FedExCarrier.OAuthResponse.
Variable fetch_rates :
  string -> option string -> FedExCarrier.RateRequest -> Outcome FedExCarrier.RateResponse.

(** The loop of [getNextBusinessDay] ends within the fuel of its variant. *)
Lemma getNextBusinessDay_loop_total (date : Date) :
  FedExCarrier.getNextBusinessDay_loop LocalTZA
    (JSDate.weekend_run LocalTZA (setDate_next LocalTZA date)) date
  = Some (FedExCarrier.getNextBusinessDay LocalTZA date).
Proof.
  unfold FedExCarrier.getNextBusinessDay_loop, FedExCarrier.getNextBusinessDay.
  apply skip_weekend_run.
Qed.

(** The variant of the loop of [calculateBusinessDays]: the days left to
    the end date, and none once the date has left the range. *)
Lemma count_variant_decreases (endDate : Date) (st : Date * Z) :
  FedExCarrier.calculateBusinessDays_cond endDate st = true ->
  (FedExCarrier.calculateBusinessDays_variant endDate
     (FedExCarrier.calculateBusinessDays_body LocalTZA st)
   < FedExCarrier.calculateBusinessDays_variant endDate st)%nat.
Proof.
  destruct st as [current count]. unfold FedExCarrier.calculateBusinessDays_cond. cbn [fst].
  destruct current as [c|]; [|discriminate]. destruct endDate as [e|]; [|discriminate].
  cbn [andb JSDate.lt]. intros Hc. apply Z.ltb_lt in Hc.
  assert (Hpos : 1 <= (e - c + 86400000 - 1) / 86400000)
    by (apply Z.div_le_lower_bound; lia).
  assert (Hfst : fst (FedExCarrier.calculateBusinessDays_body LocalTZA (DateOf c, count))
                 = TimeClip (c + msPerDay)).
  { unfold FedExCarrier.calculateBusinessDays_body.
    change (fst (DateOf c, count)) with (DateOf c). rewrite setDate_next_tv.
    destruct (off_weekend _ _); reflexivity. }
  unfold FedExCarrier.calculateBusinessDays_variant. rewrite Hfst.
  change (fst (DateOf c, count)) with (DateOf c). unfold msPerDay.
  unfold TimeClip. destruct (maxTime <? Z.abs (c + 86400000)); [lia|].
  replace (e - (c + 86400000) + 86400000 - 1) with ((e - c + 86400000 - 1) + (-1) * 86400000)
    by lia.
  rewrite Z.div_add by lia. lia.
Qed.

(** The loop of [calculateBusinessDays] ends within the fuel of its
    variant. *)
Lemma calculateBusinessDays_loop_total (startDate endDate : Date) :
  FedExCarrier.calculateBusinessDays_loop LocalTZA
    (FedExCarrier.calculateBusinessDays_variant endDate (startDate, 0)) startDate endDate
  = Some (FedExCarrier.calculateBusinessDays LocalTZA startDate endDate).
Proof.
  unfold FedExCarrier.calculateBusinessDays_loop, FedExCarrier.calculateBusinessDays.
  rewrite (while_for_run _ _ (fun _ => True)
             (FedExCarrier.calculateBusinessDays_variant endDate)); [reflexivity| |exact I].
  intros x _ Hc. split; [exact I | apply count_variant_decreases; exact Hc].
Qed.

Lemma or_num_default (a : option Z) (k : Z) : or_num a (Some k) <> None.
Proof. destruct a as [[| |]|]; discriminate. Qed.

Lemma or_num_falsy (a : option Z) (k : Z) :
  a = None \/ a = Some 0 -> or_num a (Some k) = Some k.
Proof. intros [->| ->]; reflexivity. Qed.

Lemma failure_well_formed (err name : string) :
  well_formed_response name (failure err name).
Proof.
  (split; [split|split]); simpl; try reflexivity; try (intros H; discriminate H).
  - intros _. repeat split; discriminate.
  - intros _. exists err. reflexivity.
Qed.

Lemma parseRateResponse_well_formed (self : FedExCarrier.Carrier)
    (data : option FedExCarrier.RateData) (shipDate : Date) :
  well_formed_response (FedExCarrier.carrierName self)
    (FedExCarrier.parseRateResponse LocalTZA Date_parse self data shipDate).
Proof.
  unfold FedExCarrier.parseRateResponse, FedExCarrier.parseRateResponse_try.
  destruct data as [data|]; [|apply failure_well_formed].
  destruct (match FedExCarrier.output data with
            | Some out => _
            | None => None
            end) as [rateReply|]; [|apply failure_well_formed].
  destruct (truthy _); (split; [split|split]); simpl;
    try reflexivity; try (intros H; discriminate H);
    intros _; (split; [discriminate | apply or_num_default]).
Qed.

Lemma getAccessToken_keeps_name (self self' : FedExCarrier.Carrier)
    (log log' : list Event) (out : Outcome (option string)) :
  FedExCarrier.getAccessToken now fetch_oauth self log = (out, self', log') ->
  FedExCarrier.carrierName self' = FedExCarrier.carrierName self.
Proof.
  unfold FedExCarrier.getAccessToken, bind, this, ret, throw, call, lift, set_this.
  intros H. repeat break_match; pair_eq; try discriminate; reflexivity.
Qed.

Lemma getTransitTime_try_well_formed (request : TransitTimeRequest)
    (self self' : FedExCarrier.Carrier) (log log' : list Event)
    (out : Outcome TransitTimeResponse) :
  FedExCarrier.getTransitTime_try LocalTZA now Date_parse fetch_oauth fetch_rates
    request self log = (out, self', log') ->
  FedExCarrier.carrierName self' = FedExCarrier.carrierName self
  /\ forall r, out = Ok r -> well_formed_response (FedExCarrier.carrierName self) r.
Proof.
  unfold FedExCarrier.getTransitTime_try.
  unfold bind at 1. unfold this at 1.
  destruct (negb (FedExCarrier.validateCredentials self)).
  { unfold ret. intros H. pair_eq. split; [reflexivity|].
    intros r Hr. injection Hr as <-. apply failure_well_formed. }
  unfold bind at 1.
  destruct (FedExCarrier.getAccessToken now fetch_oauth self log)
    as [[tok self1] log1] eqn:Etok.
  apply getAccessToken_keeps_name in Etok.
  destruct tok as [token|e].
  2:{ intros H. pair_eq. split; [exact Etok | discriminate]. }
  unfold bind, ret, throw, call, lift.
  intros H.
  repeat break_match; pair_eq; try discriminate;
    (split; [exact Etok|]); intros r Hr; try discriminate Hr;
    injection Hr as <-;
    try apply failure_well_formed; apply parseRateResponse_well_formed.
Qed.

Lemma getTransitTime_total (request : TransitTimeRequest)
    (self : FedExCarrier.Carrier) (log : list Event) :
  exists r self' log',
    FedExCarrier.getTransitTime LocalTZA now Date_parse fetch_oauth fetch_rates
      request self log = (Ok r, self', log')
    /\ well_formed_response (FedExCarrier.carrierName self) r.
Proof.
  unfold FedExCarrier.getTransitTime, try_catch.
  destruct (FedExCarrier.getTransitTime_try LocalTZA now Date_parse fetch_oauth fetch_rates
              request self log) as [[out self1] log1] eqn:E.
  apply getTransitTime_try_well_formed in E. destruct E as [Hname Hok].
  destruct out as [r|e].
  - exists r, self1, log1. split; [reflexivity | apply Hok; reflexivity].
  - unfold bind, this, ret. rewrite Hname.
    eexists _, _, _. split; [reflexivity | apply failure_well_formed].
Qed.
End CarrierFacts.

Section DefaultWindowFacts.
Import JS JSDate Types.
Variable LocalTZA : Z.
Variable Date_parse : string -> Date.

Lemma parseRateResponse_no_signal (self : FedExCarrier.Carrier)
    (r : FedExCarrier.RateReplyDetail) (rest : list FedExCarrier.RateReplyDetail)
    (shipDate : Date) :
  falsy_num (quoted_transitDays r) ->
  falsy_num (FedExCarrier.parseTransitDays (quoted_description r)) ->
  truthy (quoted_dayFormat r) = false ->
  FedExCarrier.parseRateResponse LocalTZA Date_parse self (rate_data_with r rest) shipDate
  = mkResponse true None
      (Some (FedExCarrier.addBusinessDays LocalTZA shipDate 3))
      (Some (FedExCarrier.addBusinessDays LocalTZA shipDate 5))
      (Some 5)
      (if truthy (FedExCarrier.reply_serviceName r)
       then FedExCarrier.reply_serviceName r else Some "FedEx Ground")
      (Some (FedExCarrier.carrierName self)).
Proof.
  intros Hdays Hdesc Hdate.
  assert (Hnone : falsy_num (or_num (quoted_transitDays r)
                               (FedExCarrier.parseTransitDays (quoted_description r)))).
  { destruct Hdays as [-> | ->]; exact Hdesc. }
  clear Hdays Hdesc.
  unfold FedExCarrier.parseRateResponse, FedExCarrier.parseRateResponse_try, rate_data_with.
  cbn [FedExCarrier.output FedExCarrier.rateReplyDetails hd_error].
  cbv zeta.
  unfold quoted_transitDays, quoted_description, quoted_dayFormat in *.
  destruct (FedExCarrier.commit r) as [c|].
  - destruct (FedExCarrier.transitTime c) as [info|];
      destruct (FedExCarrier.dateDetail c) as [dd|];
      rewrite ?Hdate, !(or_num_falsy _ _ Hnone); reflexivity.
  - rewrite ?Hdate, !(or_num_falsy _ _ Hnone). reflexivity.
Qed.
End DefaultWindowFacts.

(* ===================================================================== *)
(** * Facts about the orchestrator *)
(* ===================================================================== *)

(* ===================================================================== *)
(** * Facts about the orchestrator *)
(* ===================================================================== *)

Section OrchestratorFacts.
Import JS JSDate Eff Types Geolocation.
Variable LocalTZA : Z.
Variable now : Z.
Variable Date_parse : string -> Date.
Variable fetch_oauth :
  string -> option string -> option string -> Outcome FedExCarrier.OAuthResponse.
Variable fetch_rates :
  string -> option string -> FedExCarrier.RateRequest -> Outcome FedExCarrier.RateResponse.
Variable findUnique : string -> Outcome (option DeliveryEstimate.AppSettings).
Variable getLocationFromPostalCode : string -> Outcome (option GeoLocation).
Variable getLocationFromIP : option string -> Outcome (option GeoLocation).

Abbreviation getDeliveryEstimate :=
  (DeliveryEstimate.getDeliveryEstimate LocalTZA now Date_parse fetch_oauth fetch_rates
     findUnique getLocationFromPostalCode getLocationFromIP).
Abbreviation getDeliveryEstimate_try :=
  (DeliveryEstimate.getDeliveryEstimate_try LocalTZA now Date_parse fetch_oauth fetch_rates
     findUnique getLocationFromPostalCode getLocationFromIP).
Abbreviation tryCarrier :=
  (DeliveryEstimate.tryCarrier LocalTZA now Date_parse fetch_oauth fetch_rates).
Abbreviation resolveDestination :=
  (DeliveryEstimate.resolveDestination getLocationFromPostalCode getLocationFromIP).

(** The orchestrator returns, whatever its [try] does. *)
Lemma getDeliveryEstimate_total (shop : string) (customerIP postalCode : option string)
    (log : list Event) :
  exists est log',
    getDeliveryEstimate shop customerIP postalCode tt log = (Ok est, tt, log')
    /\ forall e o l,
        getDeliveryEstimate_try shop customerIP postalCode tt log = (Throw e, o, l) ->
        est = DeliveryEstimate.failed "Failed to calculate delivery estimate" /\ log' = l.
Proof.
  unfold DeliveryEstimate.getDeliveryEstimate, try_catch.
  destruct (getDeliveryEstimate_try shop customerIP postalCode tt log)
    as [[[est|e] []] l] eqn:E.
  - exists est, l. split; [reflexivity | intros; discriminate].
  - eexists _, _. split; [reflexivity|]. intros e' o l' H. pair_eq. split; reflexivity.
Qed.

(** The first two exits of the orchestrator. *)
Lemma getDeliveryEstimate_not_configured (shop : string)
    (customerIP postalCode : option string) (log : list Event) :
  findUnique shop = Ok None ->
  getDeliveryEstimate shop customerIP postalCode tt log
  = (Ok (DeliveryEstimate.failed "App not configured for this shop"), tt,
     (log ++ [CallSettingsStore shop])%list).
Proof.
  intros H. unfold DeliveryEstimate.getDeliveryEstimate, try_catch,
    DeliveryEstimate.getDeliveryEstimate_try, DeliveryEstimate.getAppSettings, bind, call.
  rewrite H. reflexivity.
Qed.

Lemma getDeliveryEstimate_disabled (shop : string)
    (customerIP postalCode : option string) (log : list Event)
    (settings : DeliveryEstimate.AppSettings) :
  findUnique shop = Ok (Some settings) ->
  DeliveryEstimate.isEnabled settings = false ->
  getDeliveryEstimate shop customerIP postalCode tt log
  = (Ok (DeliveryEstimate.failed "Delivery estimates are disabled"), tt,
     (log ++ [CallSettingsStore shop])%list).
Proof.
  intros H Hoff. unfold DeliveryEstimate.getDeliveryEstimate, try_catch,
    DeliveryEstimate.getDeliveryEstimate_try, DeliveryEstimate.getAppSettings, bind, call.
  rewrite H, Hoff. reflexivity.
Qed.

Lemma createCarrier_fedex (creds : option CarrierCredentials) (useSandbox : bool) :
  Carriers.createCarrier CARRIERS_FEDEX creds useSandbox
  = Ok (FedExCarrier.new creds useSandbox).
Proof. reflexivity. Qed.

(** The carrier attempt never throws, and is skipped without credentials. *)
Lemma tryCarrier_total (settings : DeliveryEstimate.AppSettings) (origin : Address)
    (destination : GeoLocation) (shipDate : Date) (log : list Event) :
  exists tr log',
    tryCarrier settings origin destination shipDate tt log = (Ok tr, tt, log')
    /\ (truthy (DeliveryEstimate.fedexApiKey settings)
        && truthy (DeliveryEstimate.fedexSecretKey settings)
        && truthy (DeliveryEstimate.fedexAccountNumber settings) = false ->
        tr = None /\ log' = log).
Proof.
  unfold DeliveryEstimate.tryCarrier.
  destruct (truthy (DeliveryEstimate.fedexApiKey settings)
            && truthy (DeliveryEstimate.fedexSecretKey settings)
            && truthy (DeliveryEstimate.fedexAccountNumber settings)).
  - unfold try_catch, bind, lift, on_object, ret. rewrite createCarrier_fedex.
    match goal with
    | |- context [FedExCarrier.getTransitTime ?a ?b ?c ?d ?e ?req ?self ?l] =>
        destruct (getTransitTime_total a b c d e req self l) as [r [self' [l' [Hrun _]]]];
        rewrite Hrun
    end.
    eexists _, _. split; [reflexivity | discriminate].
  - exists None, log. split; [reflexivity | auto].
Qed.

Lemma formatDateRange_total (a b : Date) :
  exists text, DeliveryEstimate.formatDateRange LocalTZA (Some a) (Some b) = Ok text.
Proof.
  unfold DeliveryEstimate.formatDateRange. repeat break_match; eauto.
Qed.

(** The fallback estimate: it is built when its two dates are valid,
    which they are when the later one is, and [toISOString] throws
    otherwise. *)
Lemma generateFallbackEstimate_ok (origin : Address) (destination : GeoLocation)
    (shipDate : Date) (settings : DeliveryEstimate.AppSettings) (umax : Z) :
  let transitDays :=
    DeliveryEstimate.estimateTransitDays (Types.postalCode origin)
      (Geolocation.postalCode destination) in
  DeliveryEstimate.addBusinessDays LocalTZA shipDate (transitDays + 2) = DateOf umax ->
  exists est umin,
    DeliveryEstimate.generateFallbackEstimate LocalTZA origin destination shipDate settings
    = Ok est
    /\ DeliveryEstimate.success est = true
    /\ DeliveryEstimate.error est = None
    /\ DeliveryEstimate.transitDays est = Some transitDays
    /\ DeliveryEstimate.addBusinessDays LocalTZA shipDate transitDays = DateOf umin
    /\ DeliveryEstimate.deliveryDateMin est = Some (ISO umin)
    /\ DeliveryEstimate.deliveryDateMax est = Some (ISO umax)
    /\ DeliveryEstimate.isFallback est = Some true.
Proof.
  intros transitDays Hmax. unfold DeliveryEstimate.generateFallbackEstimate.
  fold transitDays.
  pose proof (addBusinessDays_valid_before LocalTZA shipDate transitDays (transitDays + 2)
                ltac:(lia)) as Hmin.
  rewrite Hmax in *.
  destruct (DeliveryEstimate.addBusinessDays LocalTZA shipDate transitDays) as [umin|];
    [|discriminate (Hmin eq_refl)].
  destruct (formatDateRange_total (DateOf umin) (DateOf umax)) as [text Htext].
  rewrite Htext.
  destruct (DeliveryEstimate.showExactDates settings); simpl;
    eexists; exists umin; repeat split; reflexivity.
Qed.

Lemma generateFallbackEstimate_throws (origin : Address) (destination : GeoLocation)
    (shipDate : Date) (settings : DeliveryEstimate.AppSettings) :
  DeliveryEstimate.addBusinessDays LocalTZA shipDate
    (DeliveryEstimate.estimateTransitDays (Types.postalCode origin)
       (Geolocation.postalCode destination) + 2) = InvalidDate ->
  DeliveryEstimate.generateFallbackEstimate LocalTZA origin destination shipDate settings
  = Throw (mkError "RangeError" "Invalid time value").
Proof.
  intros Hmax. unfold DeliveryEstimate.generateFallbackEstimate. rewrite Hmax.
  match goal with
  | |- context [if _ then DeliveryEstimate.formatDateRange _ (Some ?a) (Some ?b) else _] =>
      destruct (formatDateRange_total a b) as [text Htext]; rewrite Htext
  end.
  clear Hmax Htext.
  destruct (DeliveryEstimate.showExactDates settings);
    destruct (DeliveryEstimate.addBusinessDays LocalTZA shipDate _); reflexivity.
Qed.

(** The fallback path of the orchestrator: the fallback estimate, or the
    failure of the outer [catch] when the fallback throws. *)
Lemma getDeliveryEstimate_fallback (shop : string) (customerIP postalCode : option string)
    (settings : DeliveryEstimate.AppSettings) (destination : GeoLocation)
    (log log1 log2 : list Event) (transitResult : option TransitTimeResponse) :
  findUnique shop = Ok (Some settings) ->
  DeliveryEstimate.isEnabled settings = true ->
  resolveDestination customerIP postalCode tt (log ++ [CallSettingsStore shop])%list
  = (Ok destination, tt, log1) ->
  tryCarrier settings (origin_of settings) destination
    (DeliveryEstimate.calculateShipDate LocalTZA now
       (DeliveryEstimate.handlingTimeDays settings) (DeliveryEstimate.cutoffTime settings))
    tt log1 = (Ok transitResult, tt, log2) ->
  carrier_unavailable transitResult ->
  getDeliveryEstimate shop customerIP postalCode tt log
  = (match DeliveryEstimate.generateFallbackEstimate LocalTZA (origin_of settings)
             destination
             (DeliveryEstimate.calculateShipDate LocalTZA now
                (DeliveryEstimate.handlingTimeDays settings)
                (DeliveryEstimate.cutoffTime settings))
             settings with
     | Ok est => Ok est
     | Throw _ => Ok (DeliveryEstimate.failed "Failed to calculate delivery estimate")
     end, tt, log2).
Proof.
  intros Hset Hon Hdest Hcar Hun.
  unfold DeliveryEstimate.getDeliveryEstimate, try_catch,
    DeliveryEstimate.getDeliveryEstimate_try.
  unfold bind at 1. unfold DeliveryEstimate.getAppSettings, call at 1.
  rewrite Hset, Hon. cbn [negb].
  unfold bind at 1. rewrite Hdest.
  unfold bind at 1. fold (origin_of settings). rewrite Hcar.
  destruct Hun as [-> | [r [-> Hr]]].
  - unfold lift. destruct (DeliveryEstimate.generateFallbackEstimate _ _ _ _ _); reflexivity.
  - rewrite Hr. cbn [negb]. unfold lift.
    destruct (DeliveryEstimate.generateFallbackEstimate _ _ _ _ _); reflexivity.
Qed.
End OrchestratorFacts.

(* ===================================================================== *)
(** * The claims *)
(* ===================================================================== *)

(** C1, as stated, fails on the text of the error.  With the settings
    store unreachable the [try] of [getDeliveryEstimate] throws, and the
    result carries the error text "Failed to calculate delivery estimate",
    which is another string than "failed to calculate delivery estimate". *)
Lemma getDeliveryEstimate_error_text :
  (exists l, DeliveryEstimate.getDeliveryEstimate_try 0 Sample.thursday_afternoon
               Sample.no_date Sample.no_oauth Sample.no_rates Sample.store_down
               Sample.lookup_tallahassee Sample.locate_nothing
               "shop.example" None None tt []
             = (JS.Throw Sample.database_down, tt, l))
  /\ Sample.run Sample.thursday_afternoon Sample.store_down None
     = (JS.Ok (DeliveryEstimate.failed "Failed to calculate delivery estimate"), tt,
        [Eff.CallSettingsStore "shop.example"])
  /\ DeliveryEstimate.failed "Failed to calculate delivery estimate"
     <> DeliveryEstimate.failed "failed to calculate delivery estimate".
Proof.
  split; [eexists; vm_compute; reflexivity|].
  split; [vm_compute; reflexivity | discriminate].
Qed.

(** C1, as amended.  For every input (shop, customerIP, postalCode) and
    every behaviour of the collaborators, [getDeliveryEstimate] returns:
    it never throws, and whenever its [try] throws, the result is
    [{success: false, error: "Failed to calculate delivery estimate"}]
    and nothing more is called. *)
Theorem getDeliveryEstimate_never_throws :
  forall LocalTZA now Date_parse fetch_oauth fetch_rates findUnique
         getLocationFromPostalCode getLocationFromIP
         (shop : string) (customerIP postalCode : option string) (log : list Eff.Event),
  exists est log',
    DeliveryEstimate.getDeliveryEstimate LocalTZA now Date_parse fetch_oauth fetch_rates
      findUnique getLocationFromPostalCode getLocationFromIP
      shop customerIP postalCode tt log = (JS.Ok est, tt, log')
    /\ forall e o l,
        DeliveryEstimate.getDeliveryEstimate_try LocalTZA now Date_parse fetch_oauth
          fetch_rates findUnique getLocationFromPostalCode getLocationFromIP
          shop customerIP postalCode tt log = (JS.Throw e, o, l) ->
        est = DeliveryEstimate.failed "Failed to calculate delivery estimate" /\ log' = l.
Proof.
  intros. destruct (getDeliveryEstimate_total LocalTZA now Date_parse fetch_oauth
                      fetch_rates findUnique getLocationFromPostalCode getLocationFromIP
                      shop customerIP postalCode log) as [est [log' [Hrun Hthrow]]].
  exists est, log'. split; [exact Hrun | exact Hthrow].
Qed.

Lemma getDeliveryEstimate_never_throws_witness :
  exists est log',
    Sample.run Sample.thursday_afternoon Sample.store_down None = (JS.Ok est, tt, log')
    /\ forall e o l,
        DeliveryEstimate.getDeliveryEstimate_try 0 Sample.thursday_afternoon
          Sample.no_date Sample.no_oauth Sample.no_rates Sample.store_down
          Sample.lookup_tallahassee Sample.locate_nothing
          "shop.example" None None tt [] = (JS.Throw e, o, l) ->
        est = DeliveryEstimate.failed "Failed to calculate delivery estimate" /\ log' = l.
Proof.
  exact (getDeliveryEstimate_never_throws 0 Sample.thursday_afternoon
           Sample.no_date Sample.no_oauth Sample.no_rates Sample.store_down
           Sample.lookup_tallahassee Sample.locate_nothing "shop.example" None None []).
Defined.

(** C2.  For a shop with no settings record [getDeliveryEstimate] returns
    [{success: false, error: "App not configured for this shop"}], and
    for a shop whose settings have [isEnabled = false] it returns
    [{success: false, error: "Delivery estimates are disabled"}]; in both
    cases the result has no other member and the only call made is the
    one to the settings store. *)
Theorem getDeliveryEstimate_configuration_errors :
  forall LocalTZA now Date_parse fetch_oauth fetch_rates findUnique
         getLocationFromPostalCode getLocationFromIP
         (shop : string) (customerIP postalCode : option string) (log : list Eff.Event),
  (findUnique shop = JS.Ok None ->
   DeliveryEstimate.getDeliveryEstimate LocalTZA now Date_parse fetch_oauth fetch_rates
     findUnique getLocationFromPostalCode getLocationFromIP
     shop customerIP postalCode tt log
   = (JS.Ok (DeliveryEstimate.mkEstimate false (Some "App not configured for this shop")
               None None None None None None),
      tt, (log ++ [Eff.CallSettingsStore shop])%list))
  /\ (forall settings,
        findUnique shop = JS.Ok (Some settings) ->
        DeliveryEstimate.isEnabled settings = false ->
        DeliveryEstimate.getDeliveryEstimate LocalTZA now Date_parse fetch_oauth fetch_rates
          findUnique getLocationFromPostalCode getLocationFromIP
          shop customerIP postalCode tt log
        = (JS.Ok (DeliveryEstimate.mkEstimate false (Some "Delivery estimates are disabled")
                    None None None None None None),
           tt, (log ++ [Eff.CallSettingsStore shop])%list)).
Proof.
  intros. split.
  - intros H. apply getDeliveryEstimate_not_configured. exact H.
  - intros settings H Hoff. eapply getDeliveryEstimate_disabled; eassumption.
Qed.

Lemma getDeliveryEstimate_configuration_errors_witness :
  Sample.run Sample.thursday_afternoon (Sample.store_of None) (Some "32483")
  = (JS.Ok (DeliveryEstimate.mkEstimate false (Some "App not configured for this shop")
              None None None None None None),
     tt, [Eff.CallSettingsStore "shop.example"])
  /\ Sample.run Sample.thursday_afternoon (Sample.store_of (Some Sample.settings_disabled))
       (Some "32483")
     = (JS.Ok (DeliveryEstimate.mkEstimate false (Some "Delivery estimates are disabled")
                 None None None None None None),
        tt, [Eff.CallSettingsStore "shop.example"]).
Proof.
  split.
  - apply (proj1 (getDeliveryEstimate_configuration_errors 0 Sample.thursday_afternoon
                    Sample.no_date Sample.no_oauth Sample.no_rates (Sample.store_of None)
                    Sample.lookup_tallahassee Sample.locate_nothing
                    "shop.example" None (Some "32483") [])).
    reflexivity.
  - apply (proj2 (getDeliveryEstimate_configuration_errors 0 Sample.thursday_afternoon
                    Sample.no_date Sample.no_oauth Sample.no_rates
                    (Sample.store_of (Some Sample.settings_disabled))
                    Sample.lookup_tallahassee Sample.locate_nothing
                    "shop.example" None (Some "32483") []) Sample.settings_disabled);
      reflexivity.
Defined.

(** C3, as stated, fails: the code does not consult a set of processing
    days.  On Thursday 12 February 2026 at 15:00, past the cut-off of
    14:00, with no handling day and Monday to Thursday for processing
    days, [calculateShipDate] returns Friday the 13th, which is not a
    processing day; the rule of the specification gives Monday the 16th. *)
Lemma calculateShipDate_ignores_processingDays :
  DeliveryEstimate.calculateShipDate 0 Sample.thursday_afternoon 0 "14:00"
  = JSDate.DateOf 1770994800000
  /\ JSDate.getDay 0 (JSDate.DateOf 1770994800000) = Some 5
  /\ Spec.in_processingDays 0 [1; 2; 3; 4]
       (DeliveryEstimate.calculateShipDate 0 Sample.thursday_afternoon 0 "14:00") = false
  /\ Spec.calculateShipDate 0 10 Sample.thursday_afternoon 0 14 0 [1; 2; 3; 4]
     = Some (JSDate.DateOf Sample.monday_afternoon).
Proof. vm_compute. repeat split; reflexivity. Qed.

(** C3, as amended.  For every [now] in the range of [Date] (its first
    day apart), every [handlingDays >= 0] and every valid HH:MM
    [cutoffTime], whenever the date that [calculateShipDate(handlingDays,
    cutoffTime)] returns is a valid date: the function starts from
    tomorrow when [now] is at or past the cut-off instant of today (the
    exact instant included) and from today otherwise, then advances by
    [handlingDays] counting only the days from Monday to Friday, and
    finally, if the date falls on a Saturday or a Sunday, advances one day
    at a time until it does not: its two loops end, it is the rule of the
    specification for the processing days Monday to Friday, and the
    returned date is one of these days.  The returned date is an Invalid
    Date when [handlingDays] days from [now] are past the range of [Date]
    (8.64e15 ms from the epoch). *)
Theorem calculateShipDate_monday_to_friday :
  forall (LocalTZA now handlingDays h m : Z),
  0 <= handlingDays -> 0 <= h < 24 -> 0 <= m < 60 ->
  - JSDate.maxTime + JSDate.msPerDay <= now <= JSDate.maxTime ->
  let shipDate :=
    DeliveryEstimate.calculateShipDate LocalTZA now handlingDays (Spec.hhmm h m) in
  (JSDate.is_valid shipDate = true ->
   DeliveryEstimate.start_of LocalTZA now (Spec.hhmm h m)
   = (if Spec.cutoff_instant LocalTZA now h m <=? now
      then JSDate.DateOf (now + JSDate.msPerDay) else JSDate.DateOf now)
   /\ (exists fuel, forall fuel', (fuel <= fuel')%nat ->
         DeliveryEstimate.calculateShipDate_loop LocalTZA now fuel' handlingDays (Spec.hhmm h m)
         = Some shipDate
         /\ Spec.calculateShipDate LocalTZA fuel' now handlingDays h m [1; 2; 3; 4; 5]
            = Some shipDate)
   /\ Spec.in_processingDays LocalTZA [1; 2; 3; 4; 5] shipDate = true)
  /\ (JSDate.maxTime < now + handlingDays * JSDate.msPerDay ->
      shipDate = JSDate.InvalidDate).
Proof.
  intros LocalTZA now handlingDays h m Hdays Hh Hm Hnow shipDate.
  split.
  - intros Hvalid. split; [|split].
    + rewrite start_of_hhmm by assumption.
      destruct (_ <=? _) eqn:Hpast; [|reflexivity].
      apply calculateShipDate_handling_valid in Hvalid.
      rewrite start_of_hhmm, Hpast in Hvalid by assumption.
      destruct (JSDate.setDate_next LocalTZA (JSDate.DateOf now)) as [u|] eqn:E.
      * apply setDate_next_valid in E. destruct E as [E _].
        injection E as E. f_equal. lia.
      * change (DeliveryEstimate.handling_cond handlingDays)
          with (DeliveryEstimate.addBusinessDays_cond handlingDays) in Hvalid.
        change (DeliveryEstimate.handling_body LocalTZA)
          with (DeliveryEstimate.addBusinessDays_body LocalTZA) in Hvalid.
        change (DeliveryEstimate.handling_variant LocalTZA handlingDays)
          with (DeliveryEstimate.addBusinessDays_variant LocalTZA handlingDays) in Hvalid.
        rewrite business_loop_invalid in Hvalid by reflexivity. discriminate Hvalid.
    + exists (Nat.max 2 (DeliveryEstimate.handling_variant LocalTZA handlingDays
                           (DeliveryEstimate.start_of LocalTZA now (Spec.hhmm h m), 0))).
      intros fuel' Hfuel.
      assert (Hloop : DeliveryEstimate.calculateShipDate_loop LocalTZA now fuel' handlingDays
                        (Spec.hhmm h m) = Some shipDate)
        by (apply calculateShipDate_loop_total; lia).
      split; [exact Hloop|].
      rewrite spec_rule_on_weekdays by assumption. exact Hloop.
    + apply calculateShipDate_weekday. exact Hvalid.
  - intros Hfar. apply calculateShipDate_out_of_range; [exact Hdays | | exact Hfar].
    unfold in_range, JSDate.msPerDay in *. lia.
Qed.

Lemma calculateShipDate_monday_to_friday_witness :
  DeliveryEstimate.start_of 0 Sample.thursday_afternoon (Spec.hhmm 15 0)
  = (if Spec.cutoff_instant 0 Sample.thursday_afternoon 15 0 <=? Sample.thursday_afternoon
     then JSDate.DateOf (Sample.thursday_afternoon + JSDate.msPerDay)
     else JSDate.DateOf Sample.thursday_afternoon)
  /\ (exists fuel, forall fuel', (fuel <= fuel')%nat ->
        DeliveryEstimate.calculateShipDate_loop 0 Sample.thursday_afternoon fuel' 1
          (Spec.hhmm 15 0)
        = Some (DeliveryEstimate.calculateShipDate 0 Sample.thursday_afternoon 1
                  (Spec.hhmm 15 0))
        /\ Spec.calculateShipDate 0 fuel' Sample.thursday_afternoon 1 15 0 [1; 2; 3; 4; 5]
           = Some (DeliveryEstimate.calculateShipDate 0 Sample.thursday_afternoon 1
                     (Spec.hhmm 15 0)))
  /\ Spec.in_processingDays 0 [1; 2; 3; 4; 5]
       (DeliveryEstimate.calculateShipDate 0 Sample.thursday_afternoon 1 (Spec.hhmm 15 0))
     = true.
Proof.
  apply (calculateShipDate_monday_to_friday 0 Sample.thursday_afternoon 1 15 0);
    try (unfold JSDate.maxTime, JSDate.msPerDay, Sample.thursday_afternoon; lia).
  vm_compute. reflexivity.
Defined.

(** C4.  [estimateTransitDays] returns 5 when either postal code is
    absent; otherwise, with [x] the absolute difference of the integers
    formed from the leading 3 digits of each code, it returns 2 when
    [x < 50], 3 when [x < 200], 4 when [x < 400], 5 when [x < 600], and 6
    otherwise. *)
Theorem estimateTransitDays_ladder :
  (forall originZip destZip : option string,
      JS.truthy originZip = false \/ JS.truthy destZip = false ->
      DeliveryEstimate.estimateTransitDays originZip destZip = 5)
  /\ (forall (originZip destZip : string) (a b : Z),
        Spec.sectional_code originZip = Some a ->
        Spec.sectional_code destZip = Some b ->
        DeliveryEstimate.estimateTransitDays (Some originZip) (Some destZip)
        = if Z.abs (a - b) <? 50 then 2
          else if Z.abs (a - b) <? 200 then 3
          else if Z.abs (a - b) <? 400 then 4
          else if Z.abs (a - b) <? 600 then 5
          else 6).
Proof.
  split.
  - intros originZip destZip H. unfold DeliveryEstimate.estimateTransitDays.
    destruct H as [H|H]; rewrite H; [reflexivity|].
    rewrite orb_true_r. reflexivity.
  - intros originZip destZip a b Ha Hb.
    rewrite (estimateTransitDays_sectional originZip destZip a b Ha Hb). reflexivity.
Qed.

Lemma estimateTransitDays_ladder_witness :
  DeliveryEstimate.estimateTransitDays None (Some "32483") = 5
  /\ DeliveryEstimate.estimateTransitDays (Some "29483") (Some "32483") = 2
  /\ DeliveryEstimate.estimateTransitDays (Some "29483") (Some "98101") = 6.
Proof.
  split; [|split].
  - apply (proj1 estimateTransitDays_ladder None (Some "32483")). left. reflexivity.
  - apply (proj2 estimateTransitDays_ladder "29483" "32483" 294 324); reflexivity.
  - apply (proj2 estimateTransitDays_ladder "29483" "98101" 294 981); reflexivity.
Defined.

(** C8, as stated, fails at the end of the range of [Date].  From
    Friday 12 September 275760, the day before the last day of the range,
    [addBusinessDays] gives an Invalid Date for one day and for two days,
    and an Invalid Date is not before an Invalid Date. *)
Lemma addBusinessDays_invalid_at_range_end :
  in_range Scenario.last_friday
  /\ DeliveryEstimate.addBusinessDays 0 (JSDate.DateOf Scenario.last_friday) 1
     = JSDate.InvalidDate
  /\ DeliveryEstimate.addBusinessDays 0 (JSDate.DateOf Scenario.last_friday) 2
     = JSDate.InvalidDate
  /\ JSDate.lt (DeliveryEstimate.addBusinessDays 0 (JSDate.DateOf Scenario.last_friday) 1)
               (DeliveryEstimate.addBusinessDays 0 (JSDate.DateOf Scenario.last_friday) 2)
     = false.
Proof.
  split; [unfold in_range, Scenario.last_friday, JSDate.maxTime; lia|].
  vm_compute. repeat split; reflexivity.
Qed.

(** C8, as amended.  For every date [d], [addBusinessDays(d, 0) = d]; for
    every date of time value [t] and all [0 <= n < m] such that
    [addBusinessDays(d, m)] is a valid date, [addBusinessDays(d, n)] is
    before [addBusinessDays(d, m)]; and once the result is an Invalid Date
    (the date has left the range of [Date]) it is one for every greater
    number of days.  So it is for the copy of the function in the carrier.
    The loop of the function ends within the fuel of its variant. *)
Theorem addBusinessDays_zero_and_increasing :
  forall LocalTZA : Z,
  (forall d : JSDate.Date,
      DeliveryEstimate.addBusinessDays LocalTZA d 0 = d
      /\ FedExCarrier.addBusinessDays LocalTZA d 0 = d)
  /\ (forall (d : JSDate.Date) (n : Z),
        DeliveryEstimate.addBusinessDays_loop LocalTZA
          (DeliveryEstimate.addBusinessDays_variant LocalTZA n (d, 0)) d n
        = Some (DeliveryEstimate.addBusinessDays LocalTZA d n))
  /\ (forall t n m : Z,
        0 <= n -> n < m ->
        JSDate.is_valid (DeliveryEstimate.addBusinessDays LocalTZA (JSDate.DateOf t) m) = true ->
        JSDate.lt (DeliveryEstimate.addBusinessDays LocalTZA (JSDate.DateOf t) n)
                  (DeliveryEstimate.addBusinessDays LocalTZA (JSDate.DateOf t) m) = true
        /\ JSDate.lt (FedExCarrier.addBusinessDays LocalTZA (JSDate.DateOf t) n)
                     (FedExCarrier.addBusinessDays LocalTZA (JSDate.DateOf t) m) = true)
  /\ (forall (d : JSDate.Date) (n m : Z),
        n <= m ->
        DeliveryEstimate.addBusinessDays LocalTZA d n = JSDate.InvalidDate ->
        DeliveryEstimate.addBusinessDays LocalTZA d m = JSDate.InvalidDate
        /\ FedExCarrier.addBusinessDays LocalTZA d m = JSDate.InvalidDate).
Proof.
  intros LocalTZA. split; [|split; [|split]].
  - intros d.
    pose proof (proj1 (addBusinessDays_nothing LocalTZA d 0 (Z.le_refl 0))) as H.
    split; [exact H | rewrite fedex_addBusinessDays_same; exact H].
  - intros d n. apply addBusinessDays_loop_total.
  - intros t n m Hn Hnm Hvalid.
    pose proof (addBusinessDays_increasing LocalTZA t n m Hn Hnm Hvalid) as H.
    split; [exact H | rewrite !fedex_addBusinessDays_same; exact H].
  - intros d n m Hle Hn.
    pose proof (addBusinessDays_stays_invalid LocalTZA d n m Hle Hn) as H.
    split; [exact H | rewrite fedex_addBusinessDays_same; exact H].
Qed.

Lemma addBusinessDays_zero_and_increasing_witness :
  DeliveryEstimate.addBusinessDays 0 (JSDate.DateOf Sample.thursday_afternoon) 0
  = JSDate.DateOf Sample.thursday_afternoon
  /\ JSDate.lt (DeliveryEstimate.addBusinessDays 0 (JSDate.DateOf Sample.thursday_afternoon) 1)
               (DeliveryEstimate.addBusinessDays 0 (JSDate.DateOf Sample.thursday_afternoon) 2)
     = true.
Proof.
  split.
  - apply (proj1 (addBusinessDays_zero_and_increasing 0)).
  - apply (proj1 (proj2 (proj2 (addBusinessDays_zero_and_increasing 0)))
             Sample.thursday_afternoon 1 2); [lia | lia | reflexivity].
Defined.

(** C9.  For every pair of non-empty postal codes of which the leading
    3 characters of one or the other do not parse as an integer,
    [estimateTransitDays] returns 6: the difference is not a number, the
    four comparisons fail and the last branch is taken. *)
Theorem estimateTransitDays_not_a_number :
  forall originZip destZip : string,
  originZip <> "" -> destZip <> "" ->
  JS.parseInt (JS.substring0 3 originZip) = None
  \/ JS.parseInt (JS.substring0 3 destZip) = None ->
  DeliveryEstimate.estimateTransitDays (Some originZip) (Some destZip) = 6.
Proof.
  intros originZip destZip Ho Hd H.
  unfold DeliveryEstimate.estimateTransitDays.
  rewrite (truthy_nonempty _ Ho), (truthy_nonempty _ Hd). cbn [negb orb].
  destruct H as [H|H]; rewrite H.
  - reflexivity.
  - destruct (JS.parseInt (JS.substring0 3 originZip)); reflexivity.
Qed.

Lemma estimateTransitDays_not_a_number_witness :
  DeliveryEstimate.estimateTransitDays (Some "K1A 0B1") (Some "90210") = 6.
Proof.
  apply (estimateTransitDays_not_a_number "K1A 0B1" "90210").
  - discriminate.
  - discriminate.
  - left. reflexivity.
Defined.

(** C10.  For every date [d] and every integer [n <= 0],
    [addBusinessDays(d, n)] returns [d]: the loop never runs its body,
    whatever the fuel, so the function ends and adds no day. *)
Theorem addBusinessDays_nonpositive :
  forall (LocalTZA : Z) (d : JSDate.Date) (n : Z),
  n <= 0 ->
  DeliveryEstimate.addBusinessDays LocalTZA d n = d
  /\ forall fuel, DeliveryEstimate.addBusinessDays_loop LocalTZA fuel d n = Some d.
Proof.
  intros LocalTZA d n Hn.
  destruct (addBusinessDays_nothing LocalTZA d n Hn) as [Hfun Hloop].
  split; [exact Hfun | exact Hloop].
Qed.

Lemma addBusinessDays_nonpositive_witness :
  DeliveryEstimate.addBusinessDays 0 (JSDate.DateOf Sample.thursday_afternoon) (-3)
  = JSDate.DateOf Sample.thursday_afternoon
  /\ forall fuel,
      DeliveryEstimate.addBusinessDays_loop 0 fuel (JSDate.DateOf Sample.thursday_afternoon) (-3)
      = Some (JSDate.DateOf Sample.thursday_afternoon).
Proof.
  apply (addBusinessDays_nonpositive 0 (JSDate.DateOf Sample.thursday_afternoon) (-3)). lia.
Defined.

(** C5, as stated, fails when the dates leave the range of [Date].  A
    configured and enabled shop without carrier credentials whose settings
    ask for 100,000,000 handling days gets, on Thursday 12 February 2026,
    an Invalid Date for ship date; the fallback estimate throws on it and
    the result is the failure of the outer [catch], not a successful
    estimate. *)
Lemma getDeliveryEstimate_fallback_fails :
  DeliveryEstimate.isEnabled Scenario.long_handling = true
  /\ DeliveryEstimate.handlingTimeDays Scenario.long_handling = 100000000
  /\ DeliveryEstimate.calculateShipDate 0 Sample.thursday_afternoon
       (DeliveryEstimate.handlingTimeDays Scenario.long_handling)
       (DeliveryEstimate.cutoffTime Scenario.long_handling)
     = JSDate.InvalidDate
  /\ Sample.run Sample.thursday_afternoon (Sample.store_of (Some Scenario.long_handling))
       (Some "32483")
     = (JS.Ok (DeliveryEstimate.failed "Failed to calculate delivery estimate"), tt,
        [Eff.CallSettingsStore "shop.example"; Eff.CallPostalLookup "32483"]).
Proof.
  assert (Hship : DeliveryEstimate.calculateShipDate 0 Sample.thursday_afternoon
                    (DeliveryEstimate.handlingTimeDays Scenario.long_handling)
                    (DeliveryEstimate.cutoffTime Scenario.long_handling)
                  = JSDate.InvalidDate).
  { apply calculateShipDate_out_of_range;
      unfold in_range, Sample.thursday_afternoon, JSDate.maxTime, JSDate.msPerDay;
      cbn [DeliveryEstimate.handlingTimeDays Scenario.long_handling]; lia. }
  split; [reflexivity|]. split; [reflexivity|]. split; [exact Hship|].
  unfold Sample.run.
  rewrite (getDeliveryEstimate_fallback 0 Sample.thursday_afternoon Sample.no_date
             Sample.no_oauth Sample.no_rates (Sample.store_of (Some Scenario.long_handling))
             Sample.lookup_tallahassee Sample.locate_nothing "shop.example" None
             (Some "32483") Scenario.long_handling Sample.tallahassee []
             [Eff.CallSettingsStore "shop.example"; Eff.CallPostalLookup "32483"]
             [Eff.CallSettingsStore "shop.example"; Eff.CallPostalLookup "32483"]
             None eq_refl eq_refl eq_refl eq_refl (or_introl eq_refl)).
  rewrite Hship.
  rewrite generateFallbackEstimate_throws by apply addBusinessDays_invalid.
  reflexivity.
Qed.

(** C5, as amended.  In a configured and enabled shop, whenever the
    carrier result is absent or unsuccessful (it is absent when the
    credentials are not all set) and [addBusinessDays(shipDate,
    transitDays + 2)] is a valid date, [getDeliveryEstimate] returns a
    successful estimate whose [transitDays] is
    [estimateTransitDays(originPostal, destPostal)], whose
    [deliveryDateMin] is the ISO text of [addBusinessDays(shipDate,
    transitDays)], whose [deliveryDateMax] is the ISO text of
    [addBusinessDays(shipDate, transitDays + 2)], and which is marked
    [isFallback: true]; when that date is an Invalid Date (the dates have
    left the range of [Date]) the result is [{success: false, error:
    "Failed to calculate delivery estimate"}].  When the two 3-digit
    prefixes differ by 30, [transitDays] is 2. *)
Theorem getDeliveryEstimate_fallback_estimate :
  forall LocalTZA now Date_parse fetch_oauth fetch_rates findUnique
         getLocationFromPostalCode getLocationFromIP
         (shop : string) (customerIP postalCode : option string)
         (settings : DeliveryEstimate.AppSettings) (destination : Geolocation.GeoLocation)
         (log log1 log2 : list Eff.Event)
         (transitResult : option Types.TransitTimeResponse),
  findUnique shop = JS.Ok (Some settings) ->
  DeliveryEstimate.isEnabled settings = true ->
  DeliveryEstimate.resolveDestination getLocationFromPostalCode getLocationFromIP
    customerIP postalCode tt (log ++ [Eff.CallSettingsStore shop])%list
  = (JS.Ok destination, tt, log1) ->
  DeliveryEstimate.tryCarrier LocalTZA now Date_parse fetch_oauth fetch_rates
    settings (origin_of settings) destination
    (DeliveryEstimate.calculateShipDate LocalTZA now
       (DeliveryEstimate.handlingTimeDays settings) (DeliveryEstimate.cutoffTime settings))
    tt log1 = (JS.Ok transitResult, tt, log2) ->
  carrier_unavailable transitResult ->
  let shipDate :=
    DeliveryEstimate.calculateShipDate LocalTZA now
      (DeliveryEstimate.handlingTimeDays settings) (DeliveryEstimate.cutoffTime settings) in
  let transitDays :=
    DeliveryEstimate.estimateTransitDays
      (Some (DeliveryEstimate.warehousePostalCode settings))
      (Geolocation.postalCode destination) in
  (forall umax,
      DeliveryEstimate.addBusinessDays LocalTZA shipDate (transitDays + 2)
      = JSDate.DateOf umax ->
      exists est umin,
        DeliveryEstimate.getDeliveryEstimate LocalTZA now Date_parse fetch_oauth fetch_rates
          findUnique getLocationFromPostalCode getLocationFromIP
          shop customerIP postalCode tt log = (JS.Ok est, tt, log2)
        /\ DeliveryEstimate.success est = true
        /\ DeliveryEstimate.transitDays est = Some transitDays
        /\ DeliveryEstimate.addBusinessDays LocalTZA shipDate transitDays = JSDate.DateOf umin
        /\ DeliveryEstimate.deliveryDateMin est = Some (JSDate.ISO umin)
        /\ DeliveryEstimate.deliveryDateMax est = Some (JSDate.ISO umax)
        /\ DeliveryEstimate.isFallback est = Some true)
  /\ (DeliveryEstimate.addBusinessDays LocalTZA shipDate (transitDays + 2)
      = JSDate.InvalidDate ->
      DeliveryEstimate.getDeliveryEstimate LocalTZA now Date_parse fetch_oauth fetch_rates
        findUnique getLocationFromPostalCode getLocationFromIP
        shop customerIP postalCode tt log
      = (JS.Ok (DeliveryEstimate.failed "Failed to calculate delivery estimate"), tt, log2))
  /\ (JS.truthy (DeliveryEstimate.fedexApiKey settings)
      && JS.truthy (DeliveryEstimate.fedexSecretKey settings)
      && JS.truthy (DeliveryEstimate.fedexAccountNumber settings) = false ->
      transitResult = None)
  /\ (forall (destZip : string) (a b : Z),
        Geolocation.postalCode destination = Some destZip ->
        Spec.sectional_code (DeliveryEstimate.warehousePostalCode settings) = Some a ->
        Spec.sectional_code destZip = Some b ->
        Z.abs (a - b) = 30 ->
        transitDays = 2).
Proof.
  intros LocalTZA now Date_parse fetch_oauth fetch_rates findUnique
         getLocationFromPostalCode getLocationFromIP shop customerIP postalCode
         settings destination log log1 log2 transitResult
         Hset Hon Hdest Hcar Hun shipDate transitDays.
  pose proof (getDeliveryEstimate_fallback LocalTZA now Date_parse fetch_oauth fetch_rates
                findUnique getLocationFromPostalCode getLocationFromIP shop customerIP
                postalCode settings destination log log1 log2 transitResult
                Hset Hon Hdest Hcar Hun) as Hrun.
  fold shipDate in Hrun, Hcar.
  split; [|split; [|split]].
  - intros umax Hmax.
    destruct (generateFallbackEstimate_ok LocalTZA (origin_of settings) destination shipDate
                settings umax Hmax)
      as [est [umin [Hest [Hok [_ [Hdays [Hmin [Himin [Himax Hfb]]]]]]]]].
    rewrite Hest in Hrun. exists est, umin.
    repeat (split; [assumption|]). exact Hfb.
  - intros Hmax.
    rewrite (generateFallbackEstimate_throws LocalTZA (origin_of settings) destination
               shipDate settings Hmax) in Hrun.
    exact Hrun.
  - intros Hcreds.
    destruct (tryCarrier_total LocalTZA now Date_parse fetch_oauth fetch_rates settings
                (origin_of settings) destination shipDate log1) as [tr [l [Htr Hnone]]].
    rewrite Hcar in Htr. injection Htr as <- <-.
    apply Hnone. exact Hcreds.
  - intros destZip a b Hzip Ha Hb Hdiff.
    unfold transitDays. rewrite Hzip.
    rewrite (estimateTransitDays_sectional _ _ _ _ Ha Hb), Hdiff. reflexivity.
Qed.

Lemma getDeliveryEstimate_fallback_estimate_witness :
  exists est,
    Sample.run Sample.thursday_afternoon (Sample.store_of (Some Sample.settings))
      (Some "32483")
    = (JS.Ok est, tt, [Eff.CallSettingsStore "shop.example"; Eff.CallPostalLookup "32483"])
    /\ DeliveryEstimate.success est = true
    /\ DeliveryEstimate.transitDays est = Some 2
    /\ DeliveryEstimate.deliveryDateMin est = Some (JSDate.ISO 1771426800000)
    /\ DeliveryEstimate.deliveryDateMax est = Some (JSDate.ISO 1771599600000)
    /\ DeliveryEstimate.isFallback est = Some true.
Proof.
  destruct (getDeliveryEstimate_fallback_estimate 0 Sample.thursday_afternoon
              Sample.no_date Sample.no_oauth Sample.no_rates
              (Sample.store_of (Some Sample.settings))
              Sample.lookup_tallahassee Sample.locate_nothing
              "shop.example" None (Some "32483") Sample.settings Sample.tallahassee []
              [Eff.CallSettingsStore "shop.example"; Eff.CallPostalLookup "32483"]
              [Eff.CallSettingsStore "shop.example"; Eff.CallPostalLookup "32483"]
              None eq_refl eq_refl eq_refl eq_refl (or_introl eq_refl))
    as [Hvalid [_ [_ Hzone]]].
  destruct (Hvalid 1771599600000 ltac:(vm_compute; reflexivity))
    as [est [umin [Hrun [Hok [Hdays [Hmin [Himin [Himax Hfb]]]]]]]].
  exists est. split; [exact Hrun|]. split; [exact Hok|].
  split; [rewrite Hdays; f_equal;
          exact (Hzone "32483" 294 324 eq_refl eq_refl eq_refl eq_refl)|].
  split.
  - rewrite Himin. vm_compute in Hmin. injection Hmin as <-. reflexivity.
  - split; [exact Himax | exact Hfb].
Defined.



(** C7, on the code.  When the first rate detail quotes no transit-day
    count (none, or zero), no run of digits in the transit description
    (none, or one that reads as zero) and no delivery date, the parsed
    response is successful, its [deliveryDateMin] is the ship date plus 3
    business days and its [deliveryDateMax] the ship date plus 5 business
    days, and the [transitDays] that it reports is 5, not the 3 of the
    minimum window. *)
Theorem parseRateResponse_default_window :
  forall (LocalTZA : Z) (Date_parse : string -> JSDate.Date)
         (self : FedExCarrier.Carrier) (r : FedExCarrier.RateReplyDetail)
         (rest : list FedExCarrier.RateReplyDetail) (shipDate : JSDate.Date),
  falsy_num (quoted_transitDays r) ->
  falsy_num (FedExCarrier.parseTransitDays (quoted_description r)) ->
  JS.truthy (quoted_dayFormat r) = false ->
  let response :=
    FedExCarrier.parseRateResponse LocalTZA Date_parse self (rate_data_with r rest) shipDate in
  Types.success response = true
  /\ Types.deliveryDateMin response
     = Some (FedExCarrier.addBusinessDays LocalTZA shipDate 3)
  /\ Types.deliveryDateMax response
     = Some (FedExCarrier.addBusinessDays LocalTZA shipDate 5)
  /\ Types.transitDays response = Some 5.
Proof.
  intros LocalTZA Date_parse self r rest shipDate Hdays Hdesc Hdate response.
  unfold response.
  rewrite (parseRateResponse_no_signal LocalTZA Date_parse self r rest shipDate
             Hdays Hdesc Hdate).
  repeat split.
Qed.

Lemma parseRateResponse_default_window_witness :
  Types.success
    (FedExCarrier.parseRateResponse 0 Sample.no_date Sample.carrier
       (rate_data_with Sample.bare_detail []) (JSDate.DateOf Sample.monday_afternoon))
  = true
  /\ Types.deliveryDateMin
       (FedExCarrier.parseRateResponse 0 Sample.no_date Sample.carrier
          (rate_data_with Sample.bare_detail []) (JSDate.DateOf Sample.monday_afternoon))
     = Some (FedExCarrier.addBusinessDays 0 (JSDate.DateOf Sample.monday_afternoon) 3)
  /\ Types.deliveryDateMax
       (FedExCarrier.parseRateResponse 0 Sample.no_date Sample.carrier
          (rate_data_with Sample.bare_detail []) (JSDate.DateOf Sample.monday_afternoon))
     = Some (FedExCarrier.addBusinessDays 0 (JSDate.DateOf Sample.monday_afternoon) 5)
  /\ Types.transitDays
       (FedExCarrier.parseRateResponse 0 Sample.no_date Sample.carrier
          (rate_data_with Sample.bare_detail []) (JSDate.DateOf Sample.monday_afternoon))
     = Some 5.
Proof.
  apply (parseRateResponse_default_window 0 Sample.no_date Sample.carrier
           Sample.bare_detail [] (JSDate.DateOf Sample.monday_afternoon)).
  - left. reflexivity.
  - left. reflexivity.
  - reflexivity.
Defined.

(* ===================================================================== *)
(** * Further facts about the business calendar *)
(* ===================================================================== *)

Section CalendarFacts.
Import JSDate.
Variable LocalTZA : Z.

Lemma WeekDay_shift (t j : Z) : WeekDay (t + j * msPerDay) = (WeekDay t + j) mod 7.
Proof.
  unfold WeekDay, Day, msPerDay. rewrite Z.div_add by lia.
  rewrite Zplus_mod_idemp_l. f_equal. lia.
Qed.

Lemma on_weekend_shift (t j : Z) :
  on_weekend LocalTZA (DateOf (t + j * msPerDay))
  = ((WeekDay (LocalTime LocalTZA t) + j) mod 7 =? 0)
    || ((WeekDay (LocalTime LocalTZA t) + j) mod 7 =? 6).
Proof.
  rewrite on_weekend_tv. unfold LocalTime.
  replace (t + j * msPerDay + LocalTZA) with (t + LocalTZA + j * msPerDay) by lia.
  rewrite WeekDay_shift. reflexivity.
Qed.

(** A clipped date is on a weekend only if its time is. *)
Lemma on_weekend_clip (t : Z) :
  on_weekend LocalTZA (DateOf t) = false -> on_weekend LocalTZA (TimeClip t) = false.
Proof. unfold TimeClip. destruct (maxTime <? Z.abs t); [reflexivity | auto]. Qed.

Lemma setDate_next_shift (t j : Z) :
  setDate_next LocalTZA (DateOf (t + j * msPerDay)) = TimeClip (t + (j + 1) * msPerDay).
Proof. rewrite setDate_next_tv. f_equal. lia. Qed.

(** The skip of a weekend from a clipped time: the first day from Monday
    to Friday, clipped; two steps are enough. *)
Lemma skip_weekend_clip (y : Z) :
  - maxTime <= y ->
  Loops.while (on_weekend LocalTZA) (setDate_next LocalTZA) 2 (TimeClip y)
  = Some (TimeClip (y + days_of_weekend_left (WeekDay (LocalTime LocalTZA y)) * msPerDay)).
Proof.
  intros Hlow.
  assert (Hleft : 0 <= days_of_weekend_left (WeekDay (LocalTime LocalTZA y)))
    by (unfold days_of_weekend_left; destruct (_ =? 6); [lia|]; destruct (_ =? 0); lia).
  destruct (Z_le_gt_dec y maxTime) as [Hin|Hout].
  2:{ rewrite !TimeClip_over by (unfold msPerDay; nia). reflexivity. }
  rewrite (TimeClip_in y) by (unfold in_range; lia).
  replace (DateOf y) with (DateOf (y + 0 * msPerDay)) by (f_equal; lia).
  pose proof (WeekDay_cases (LocalTime LocalTZA y)) as H. simpl in H.
  destruct H as [H|[H|[H|[H|[H|[H|H]]]]]]; rewrite H;
    cbn [days_of_weekend_left Z.eqb Pos.eqb].
  - (* Sunday *)
    rewrite while_step by (rewrite on_weekend_shift, H; reflexivity).
    rewrite setDate_next_shift. cbn [Z.add Pos.add].
    apply while_skip. apply on_weekend_clip. rewrite on_weekend_shift, H. reflexivity.
  - rewrite while_skip by (rewrite on_weekend_shift, H; reflexivity).
    f_equal. symmetry. apply TimeClip_in. unfold in_range. lia.
  - rewrite while_skip by (rewrite on_weekend_shift, H; reflexivity).
    f_equal. symmetry. apply TimeClip_in. unfold in_range. lia.
  - rewrite while_skip by (rewrite on_weekend_shift, H; reflexivity).
    f_equal. symmetry. apply TimeClip_in. unfold in_range. lia.
  - rewrite while_skip by (rewrite on_weekend_shift, H; reflexivity).
    f_equal. symmetry. apply TimeClip_in. unfold in_range. lia.
  - rewrite while_skip by (rewrite on_weekend_shift, H; reflexivity).
    f_equal. symmetry. apply TimeClip_in. unfold in_range. lia.
  - (* Saturday *)
    rewrite while_step by (rewrite on_weekend_shift, H; reflexivity).
    rewrite setDate_next_shift. cbn [Z.add Pos.add].
    destruct (Z_le_gt_dec (y + 1 * msPerDay) maxTime) as [Hin1|Hout1].
    + rewrite (TimeClip_in (y + 1 * msPerDay)) by (unfold in_range, msPerDay in *; lia).
      rewrite while_step by (rewrite on_weekend_shift, H; reflexivity).
      rewrite setDate_next_shift. cbn [Z.add Pos.add Pos.succ].
      apply while_skip. apply on_weekend_clip. rewrite on_weekend_shift, H. reflexivity.
    + rewrite !TimeClip_over by (unfold msPerDay in *; lia). reflexivity.
Qed.

(** The closed form of [getNextBusinessDay], clipped. *)
Lemma getNextBusinessDay_tv (t : Z) :
  - maxTime <= t + msPerDay ->
  FedExCarrier.getNextBusinessDay LocalTZA (DateOf t)
  = TimeClip (t + days_to_next_business (WeekDay (LocalTime LocalTZA t)) * msPerDay).
Proof.
  intros Hlow. unfold FedExCarrier.getNextBusinessDay.
  apply skip_weekend_result with (f := 2%nat).
  rewrite setDate_next_tv, skip_weekend_clip by exact Hlow.
  do 2 f_equal. unfold LocalTime.
  replace (t + msPerDay + LocalTZA) with (t + LocalTZA + msPerDay) by lia.
  rewrite WeekDay_next.
  pose proof (WeekDay_cases (t + LocalTZA)) as H. simpl in H.
  destruct H as [H|[H|[H|[H|[H|[H|H]]]]]]; rewrite H;
    match goal with
    | |- context [days_of_weekend_left ?e] =>
        let v := eval vm_compute in (days_of_weekend_left e) in
        change (days_of_weekend_left e) with v
    end;
    match goal with
    | |- context [days_to_next_business ?e] =>
        let v := eval vm_compute in (days_to_next_business e) in
        change (days_to_next_business e) with v
    end;
    unfold msPerDay; lia.
Qed.

Lemma getNextBusinessDay_invalid :
  FedExCarrier.getNextBusinessDay LocalTZA InvalidDate = InvalidDate.
Proof. reflexivity. Qed.

Lemma getNextBusinessDay_clip (x : Z) :
  - maxTime <= x ->
  FedExCarrier.getNextBusinessDay LocalTZA (TimeClip x)
  = TimeClip (x + days_to_next_business (WeekDay (LocalTime LocalTZA x)) * msPerDay).
Proof.
  intros Hlow.
  assert (Hk : 1 <= days_to_next_business (WeekDay (LocalTime LocalTZA x)))
    by (unfold days_to_next_business; destruct (_ =? 5); [lia|]; destruct (_ =? 6); lia).
  destruct (Z_le_gt_dec x maxTime) as [Hin|Hout].
  - rewrite (TimeClip_in x) by (unfold in_range; lia).
    apply getNextBusinessDay_tv. unfold msPerDay. lia.
  - rewrite !TimeClip_over by (unfold msPerDay; nia). reflexivity.
Qed.

(** [getNextBusinessDay] never ends on a Saturday or a Sunday. *)
Lemma getNextBusinessDay_off_weekend (d : Date) :
  on_weekend LocalTZA (FedExCarrier.getNextBusinessDay LocalTZA d) = false.
Proof. unfold FedExCarrier.getNextBusinessDay. apply skip_weekend_off. Qed.

(** One more business day is the next business day: the loop of
    [addBusinessDays] for one more day, from the end of the loop for [n]
    days, is the loop of [getNextBusinessDay]. *)
Lemma one_more_day (n : Z) (f : nat) (x : Date) :
  Loops.while (DeliveryEstimate.addBusinessDays_cond (n + 1))
    (DeliveryEstimate.addBusinessDays_body LocalTZA) (S f) (x, n)
  = option_map (fun r => (r, n + 1))
      (Loops.while (on_weekend LocalTZA) (setDate_next LocalTZA) f (setDate_next LocalTZA x)).
Proof.
  revert x. induction f as [|f IH]; intros x.
  - rewrite while_step
      by (unfold DeliveryEstimate.addBusinessDays_cond; apply Z.ltb_lt; simpl; lia).
    unfold DeliveryEstimate.addBusinessDays_body. cbn [fst snd]. unfold off_weekend.
    destruct (on_weekend LocalTZA (setDate_next LocalTZA x)) eqn:E; cbn [negb].
    + simpl. rewrite E. unfold DeliveryEstimate.addBusinessDays_cond. cbn [snd].
      replace (n <? n + 1) with true by (symmetry; apply Z.ltb_lt; lia). reflexivity.
    + rewrite !while_skip; [reflexivity | exact E |].
      unfold DeliveryEstimate.addBusinessDays_cond. apply Z.ltb_ge. simpl. lia.
  - rewrite while_step
      by (unfold DeliveryEstimate.addBusinessDays_cond; apply Z.ltb_lt; simpl; lia).
    unfold DeliveryEstimate.addBusinessDays_body at 2. cbn [fst snd]. unfold off_weekend.
    destruct (on_weekend LocalTZA (setDate_next LocalTZA x)) eqn:E; cbn [negb].
    + rewrite IH. rewrite (while_step _ _ f _ E). reflexivity.
    + rewrite !while_skip; [reflexivity | exact E |].
      unfold DeliveryEstimate.addBusinessDays_cond. apply Z.ltb_ge. simpl. lia.
Qed.

Lemma addBusinessDays_step (d : Date) (n : Z) :
  0 <= n ->
  DeliveryEstimate.addBusinessDays LocalTZA d (n + 1)
  = FedExCarrier.getNextBusinessDay LocalTZA (DeliveryEstimate.addBusinessDays LocalTZA d n).
Proof.
  intros Hn. unfold DeliveryEstimate.addBusinessDays.
  rewrite (business_loop_split LocalTZA n (n + 1)) by lia.
  set (sn := Loops.while_for (DeliveryEstimate.addBusinessDays_cond n)
               (DeliveryEstimate.addBusinessDays_body LocalTZA)
               (DeliveryEstimate.addBusinessDays_variant LocalTZA n) (d, 0)).
  assert (Hcount : snd sn = n) by (apply business_loop_count; simpl; lia).
  destruct sn as [x c]. simpl in Hcount. subst c. cbn [fst].
  pose proof (skip_weekend_run LocalTZA (setDate_next LocalTZA x)) as Hskip.
  pose proof (one_more_day n (weekend_run LocalTZA (setDate_next LocalTZA x)) x) as Hone.
  rewrite Hskip in Hone. cbn [option_map] in Hone.
  apply business_loop_unique in Hone. rewrite Hone. reflexivity.
Qed.

(** From one business day on, the date is never on a weekend. *)
Lemma addBusinessDays_business_day (d : Date) (n : Z) :
  1 <= n ->
  on_weekend LocalTZA (DeliveryEstimate.addBusinessDays LocalTZA d n) = false.
Proof.
  intros Hn. replace n with (n - 1 + 1) by lia.
  rewrite addBusinessDays_step by lia. apply getNextBusinessDay_off_weekend.
Qed.
End CalendarFacts.

(** Evaluation of the closed day offsets and week-day tests that the
    unrolling of a loop leaves behind. *)
Ltac compute_shift u :=
  repeat match goal with
         | |- context [u + ?e * JSDate.msPerDay] =>
             lazymatch e with
             | Z0 => fail
             | Zpos _ => fail
             | Zneg _ => fail
             | _ => let v := eval vm_compute in e in change e with v
             end
         end.

Ltac compute_test :=
  match goal with
  | |- context [if ?b then _ else _] =>
      let v := eval vm_compute in b in change b with v; cbv iota
  end.

Section BusinessCountFacts.
Import JSDate.
Variable LocalTZA : Z.

Abbreviation count_cond := FedExCarrier.calculateBusinessDays_cond.
Abbreviation count_body := (FedExCarrier.calculateBusinessDays_body LocalTZA).
Abbreviation count_variant := FedExCarrier.calculateBusinessDays_variant.

Lemma count_body_in (c n : Z) :
  in_range (c + msPerDay) ->
  count_body (DateOf c, n)
  = (DateOf (c + msPerDay),
     if on_weekend LocalTZA (DateOf (c + msPerDay)) then n else n + 1).
Proof.
  intros Hc. unfold FedExCarrier.calculateBusinessDays_body. cbn [fst snd].
  rewrite setDate_next_in by exact Hc. unfold off_weekend.
  destruct (on_weekend LocalTZA (DateOf (c + msPerDay))); reflexivity.
Qed.

Lemma count_loop_run (endDate : Date) (st : Date * Z) :
  Loops.while (count_cond endDate) count_body (count_variant endDate st) st
  = Some (Loops.while_for (count_cond endDate) count_body (count_variant endDate) st).
Proof.
  apply while_for_run with (P := fun _ => True); [|exact I].
  intros x _ Hx. split; [exact I | apply count_variant_decreases; exact Hx].
Qed.

Lemma count_loop_unique (endDate : Date) (f : nat) (st r : Date * Z) :
  Loops.while (count_cond endDate) count_body f st = Some r ->
  Loops.while_for (count_cond endDate) count_body (count_variant endDate) st = r.
Proof.
  apply while_for_unique with (P := fun _ => True); [|exact I].
  intros x _ Hx. split; [exact I | apply count_variant_decreases; exact Hx].
Qed.

(** The counting loop, from a date to its next business day, counts one. *)
Lemma count_to_next_business (u n : Z) :
  in_range u ->
  in_range (u + days_to_next_business (WeekDay (LocalTime LocalTZA u)) * msPerDay) ->
  Loops.while
    (count_cond (DateOf (u + days_to_next_business (WeekDay (LocalTime LocalTZA u)) * msPerDay)))
    count_body 3 (DateOf u, n)
  = Some (DateOf (u + days_to_next_business (WeekDay (LocalTime LocalTZA u)) * msPerDay),
          n + 1).
Proof.
  intros Hu Hend.
  assert (Hcond : forall j k c,
            count_cond (DateOf (u + k * msPerDay)) (DateOf (u + j * msPerDay), c) = (j <? k)).
  { intros j k c. unfold FedExCarrier.calculateBusinessDays_cond. simpl. unfold msPerDay.
    destruct (Z.ltb_spec j k); [apply Z.ltb_lt | apply Z.ltb_ge]; lia. }
  assert (Hbody : forall j c,
            in_range (u + (j + 1) * msPerDay) ->
            count_body (DateOf (u + j * msPerDay), c)
            = (DateOf (u + (j + 1) * msPerDay),
               if on_weekend LocalTZA (DateOf (u + (j + 1) * msPerDay)) then c else c + 1)).
  { intros j c Hj.
    replace (u + (j + 1) * msPerDay) with (u + j * msPerDay + msPerDay) in * by lia.
    apply count_body_in. exact Hj. }
  replace (DateOf u, n) with (DateOf (u + 0 * msPerDay), n) by (do 2 f_equal; lia).
  pose proof (WeekDay_cases (LocalTime LocalTZA u)) as H. simpl in H.
  destruct H as [H|[H|[H|[H|[H|[H|H]]]]]]; rewrite H in *;
    cbn [days_to_next_business Z.eqb Pos.eqb] in *;
    repeat first
      [ rewrite while_skip by (rewrite Hcond; reflexivity)
      | rewrite while_step by (rewrite Hcond; reflexivity);
        rewrite Hbody by (unfold in_range, msPerDay in *; lia);
        rewrite on_weekend_shift, H; compute_test; compute_shift u ];
    reflexivity.
Qed.

(** The state in which the counting loop ends when it runs from a date
    to the valid date that [addBusinessDays] gives for [n] days. *)
Lemma count_of_added (t : Z) (n : nat) (u : Z) :
  in_range t ->
  DeliveryEstimate.addBusinessDays LocalTZA (DateOf t) (Z.of_nat n) = DateOf u ->
  Loops.while_for (count_cond (DateOf u)) count_body (count_variant (DateOf u)) (DateOf t, 0)
  = (DateOf u, Z.of_nat n).
Proof.
  intros Ht. revert u. induction n as [|n IH]; intros u' Hu'.
  - change (Z.of_nat 0) with 0 in *.
    rewrite (proj1 (addBusinessDays_nothing LocalTZA (DateOf t) 0 (Z.le_refl 0))) in Hu'.
    injection Hu' as <-.
    apply count_loop_unique with (f := 0%nat). apply while_skip.
    unfold FedExCarrier.calculateBusinessDays_cond. simpl. apply Z.ltb_irrefl.
  - replace (Z.of_nat (S n)) with (Z.of_nat n + 1) in * by lia.
    rewrite addBusinessDays_step in Hu' by lia.
    destruct (DeliveryEstimate.addBusinessDays LocalTZA (DateOf t) (Z.of_nat n))
      as [u|] eqn:Hu; [|discriminate Hu'].
    pose proof (addBusinessDays_in_range LocalTZA t _ u Ht Hu) as Hru.
    rewrite getNextBusinessDay_tv in Hu' by (unfold in_range, msPerDay in *; lia).
    apply TimeClip_valid in Hu'. destruct Hu' as [-> Hru'].
    specialize (IH u eq_refl).
    eapply count_loop_unique.
    eapply while_prefix with (c1 := count_cond (DateOf u)).
    + intros [x c]. unfold FedExCarrier.calculateBusinessDays_cond. cbn [fst].
      destruct x as [v|]; [|discriminate]. simpl. intros Hx.
      apply Z.ltb_lt in Hx. apply Z.ltb_lt.
      assert (1 <= days_to_next_business (WeekDay (LocalTime LocalTZA u))).
      { unfold days_to_next_business.
        destruct (_ =? 5); [lia|]. destruct (_ =? 6); lia. }
      unfold msPerDay. nia.
    + apply count_loop_run.
    + rewrite IH. apply count_to_next_business; assumption.
Qed.

Lemma next_business_off_weekend (u : Z) :
  on_weekend LocalTZA
    (DateOf (u + days_to_next_business (WeekDay (LocalTime LocalTZA u)) * msPerDay)) = false.
Proof.
  rewrite on_weekend_shift.
  pose proof (WeekDay_cases (LocalTime LocalTZA u)) as H. simpl in H.
  destruct H as [H|[H|[H|[H|[H|[H|H]]]]]]; rewrite H; reflexivity.
Qed.

Lemma next_business_at (u j : Z) :
  - maxTime <= u -> 0 <= j ->
  FedExCarrier.getNextBusinessDay LocalTZA (TimeClip (u + j * msPerDay))
  = TimeClip (u + (j + days_to_next_business ((WeekDay (LocalTime LocalTZA u) + j) mod 7))
                  * msPerDay).
Proof.
  intros Hu Hj. rewrite getNextBusinessDay_clip by (unfold msPerDay; lia).
  unfold LocalTime.
  replace (u + j * msPerDay + LocalTZA) with (u + LocalTZA + j * msPerDay) by lia.
  rewrite WeekDay_shift. f_equal. lia.
Qed.

(** Five business days after a business day is the same day of the next
    week, if that day is in the range. *)
Lemma five_business_days (u : Z) :
  in_range u ->
  on_weekend LocalTZA (DateOf u) = false ->
  FedExCarrier.getNextBusinessDay LocalTZA
    (FedExCarrier.getNextBusinessDay LocalTZA
       (FedExCarrier.getNextBusinessDay LocalTZA
          (FedExCarrier.getNextBusinessDay LocalTZA
             (FedExCarrier.getNextBusinessDay LocalTZA (DateOf u)))))
  = TimeClip (u + 7 * msPerDay).
Proof.
  intros Hu. rewrite on_weekend_tv. intros Hoff.
  replace (DateOf u) with (TimeClip (u + 0 * msPerDay))
    by (rewrite TimeClip_in; [f_equal; lia | unfold in_range in *; lia]).
  assert (Hlow : - maxTime <= u) by (unfold in_range in Hu; lia).
  pose proof (WeekDay_cases (LocalTime LocalTZA u)) as H. simpl in H.
  destruct H as [H|[H|[H|[H|[H|[H|H]]]]]]; rewrite H in Hoff; try discriminate Hoff;
    repeat (rewrite next_business_at by (exact Hlow || lia); rewrite H; compute_shift u);
    reflexivity.
Qed.
End BusinessCountFacts.

Section CountBoundsFacts.
Import JSDate.
Variable LocalTZA : Z.

Lemma calculateBusinessDays_nonnegative (startDate endDate : Date) :
  0 <= FedExCarrier.calculateBusinessDays LocalTZA startDate endDate.
Proof.
  unfold FedExCarrier.calculateBusinessDays.
  eapply (while_invariant _ _ (fun st : Date * Z => 0 <= snd st));
    [| |apply count_loop_run].
  - intros [c n] Hn _. unfold FedExCarrier.calculateBusinessDays_body. cbn [fst snd] in *.
    destruct (off_weekend _ _); simpl; lia.
  - simpl. lia.
Qed.

Lemma calculateBusinessDays_none (startDate endDate : Date) :
  lt startDate endDate = false ->
  FedExCarrier.calculateBusinessDays LocalTZA startDate endDate = 0.
Proof.
  intros H. unfold FedExCarrier.calculateBusinessDays.
  rewrite (count_loop_unique LocalTZA endDate 0 (startDate, 0) (startDate, 0));
    [reflexivity|].
  apply while_skip. exact H.
Qed.
End CountBoundsFacts.

(* ===================================================================== *)
(** * Further properties: the business calendar *)
(* ===================================================================== *)

(** X1.  On a date [d] with a time value in the range of [Date],
    [getNextBusinessDay(d)] adds three days on a Friday, two on a Saturday
    and one on every other day, at the same time of day, and clips the
    result: it is an Invalid Date when that day is past the range.  The
    date that it returns never falls on a Saturday or a Sunday, and its
    loop ends within two steps. *)
Theorem getNextBusinessDay_closed_form :
  forall (LocalTZA t : Z),
  in_range t ->
  let w := JSDate.WeekDay (JSDate.LocalTime LocalTZA t) in
  let next := FedExCarrier.getNextBusinessDay LocalTZA (JSDate.DateOf t) in
  next = JSDate.TimeClip
           (t + (if w =? 5 then 3 else if w =? 6 then 2 else 1) * JSDate.msPerDay)
  /\ JSDate.on_weekend LocalTZA next = false
  /\ FedExCarrier.getNextBusinessDay_loop LocalTZA 2 (JSDate.DateOf t) = Some next.
Proof.
  intros LocalTZA t Ht w next. unfold next, w. split; [|split].
  - apply getNextBusinessDay_tv. unfold in_range, JSDate.msPerDay in *. lia.
  - apply getNextBusinessDay_off_weekend.
  - apply while_more_fuel
      with (f := JSDate.weekend_run LocalTZA (JSDate.setDate_next LocalTZA (JSDate.DateOf t))).
    + apply getNextBusinessDay_loop_total.
    + apply weekend_run_bound.
Qed.

Lemma getNextBusinessDay_closed_form_witness :
  FedExCarrier.getNextBusinessDay 0 (JSDate.DateOf Scenario.last_friday)
  = JSDate.InvalidDate
  /\ FedExCarrier.getNextBusinessDay 0 (JSDate.DateOf Sample.thursday_afternoon)
     = JSDate.DateOf (Sample.thursday_afternoon + 1 * JSDate.msPerDay).
Proof.
  split.
  - destruct (getNextBusinessDay_closed_form 0 Scenario.last_friday) as [H _].
    + unfold in_range, Scenario.last_friday, JSDate.maxTime. lia.
    + rewrite H. reflexivity.
  - destruct (getNextBusinessDay_closed_form 0 Sample.thursday_afternoon) as [H _].
    + unfold in_range, Sample.thursday_afternoon, JSDate.maxTime. lia.
    + rewrite H. reflexivity.
Defined.

(** X2.  For [n >= 0], one more business day is the next business day:
    [addBusinessDays(d, n + 1) = getNextBusinessDay(addBusinessDays(d, n))],
    for the function of delivery-estimate.js and for the method of the
    carrier, on every date, an Invalid Date included. *)
Theorem addBusinessDays_one_more :
  forall (LocalTZA : Z) (d : JSDate.Date) (n : Z),
  0 <= n ->
  DeliveryEstimate.addBusinessDays LocalTZA d (n + 1)
  = FedExCarrier.getNextBusinessDay LocalTZA (DeliveryEstimate.addBusinessDays LocalTZA d n)
  /\ FedExCarrier.addBusinessDays LocalTZA d (n + 1)
     = FedExCarrier.getNextBusinessDay LocalTZA (FedExCarrier.addBusinessDays LocalTZA d n).
Proof.
  intros LocalTZA d n Hn.
  pose proof (addBusinessDays_step LocalTZA d n Hn) as H.
  split; [exact H|]. rewrite !fedex_addBusinessDays_same. exact H.
Qed.

Lemma addBusinessDays_one_more_witness :
  DeliveryEstimate.addBusinessDays 0 (JSDate.DateOf Sample.thursday_afternoon) (1 + 1)
  = FedExCarrier.getNextBusinessDay 0
      (DeliveryEstimate.addBusinessDays 0 (JSDate.DateOf Sample.thursday_afternoon) 1)
  /\ FedExCarrier.addBusinessDays 0 (JSDate.DateOf Sample.thursday_afternoon) (1 + 1)
     = FedExCarrier.getNextBusinessDay 0
         (FedExCarrier.addBusinessDays 0 (JSDate.DateOf Sample.thursday_afternoon) 1).
Proof.
  apply (addBusinessDays_one_more 0 (JSDate.DateOf Sample.thursday_afternoon) 1). lia.
Defined.

(** X3.  Counting back what was added: for a date [d] with a time value
    in the range of [Date] and [n >= 0],
    [calculateBusinessDays(d, addBusinessDays(d, n))] is [n] when
    [addBusinessDays(d, n)] is a valid date, and 0 when it is an Invalid
    Date. *)
Theorem calculateBusinessDays_of_addBusinessDays :
  forall (LocalTZA t n : Z),
  0 <= n -> in_range t ->
  let added := FedExCarrier.addBusinessDays LocalTZA (JSDate.DateOf t) n in
  (JSDate.is_valid added = true ->
   FedExCarrier.calculateBusinessDays LocalTZA (JSDate.DateOf t) added = n)
  /\ (JSDate.is_valid added = false ->
      FedExCarrier.calculateBusinessDays LocalTZA (JSDate.DateOf t) added = 0).
Proof.
  intros LocalTZA t n Hn Ht added. unfold added.
  rewrite fedex_addBusinessDays_same.
  destruct (DeliveryEstimate.addBusinessDays LocalTZA (JSDate.DateOf t) n) as [u|] eqn:Hu.
  - split; [intros _ | discriminate].
    unfold FedExCarrier.calculateBusinessDays.
    replace n with (Z.of_nat (Z.to_nat n)) in Hu by lia.
    rewrite (count_of_added LocalTZA t (Z.to_nat n) u Ht Hu). cbn [snd]. lia.
  - split; [discriminate | intros _].
    apply calculateBusinessDays_none. reflexivity.
Qed.

Lemma calculateBusinessDays_of_addBusinessDays_witness :
  FedExCarrier.calculateBusinessDays 0 (JSDate.DateOf Sample.thursday_afternoon)
    (FedExCarrier.addBusinessDays 0 (JSDate.DateOf Sample.thursday_afternoon) 4) = 4
  /\ FedExCarrier.calculateBusinessDays 0 (JSDate.DateOf Scenario.last_friday)
       (FedExCarrier.addBusinessDays 0 (JSDate.DateOf Scenario.last_friday) 1) = 0.
Proof.
  split.
  - apply (proj1 (calculateBusinessDays_of_addBusinessDays 0 Sample.thursday_afternoon 4
                    ltac:(lia)
                    ltac:(unfold in_range, Sample.thursday_afternoon, JSDate.maxTime; lia))).
    reflexivity.
  - apply (proj2 (calculateBusinessDays_of_addBusinessDays 0 Scenario.last_friday 1
                    ltac:(lia)
                    ltac:(unfold in_range, Scenario.last_friday, JSDate.maxTime; lia))).
    reflexivity.
Defined.

(** X4.  [calculateBusinessDays(startDate, endDate)] is never negative,
    and it is 0 whenever [startDate < endDate] is false: when the end date
    is not after the start date, or when one of the two is an Invalid
    Date.  Its loop ends within the fuel of its variant. *)
Theorem calculateBusinessDays_bounds :
  forall (LocalTZA : Z) (startDate endDate : JSDate.Date),
  0 <= FedExCarrier.calculateBusinessDays LocalTZA startDate endDate
  /\ (JSDate.lt startDate endDate = false ->
      FedExCarrier.calculateBusinessDays LocalTZA startDate endDate = 0)
  /\ FedExCarrier.calculateBusinessDays_loop LocalTZA
       (FedExCarrier.calculateBusinessDays_variant endDate (startDate, 0)) startDate endDate
     = Some (FedExCarrier.calculateBusinessDays LocalTZA startDate endDate).
Proof.
  intros LocalTZA startDate endDate. split; [|split].
  - apply calculateBusinessDays_nonnegative.
  - apply calculateBusinessDays_none.
  - apply calculateBusinessDays_loop_total.
Qed.

Lemma calculateBusinessDays_bounds_witness :
  FedExCarrier.calculateBusinessDays 0 (JSDate.DateOf Sample.monday_afternoon)
    (JSDate.DateOf Sample.thursday_afternoon) = 0
  /\ FedExCarrier.calculateBusinessDays 0 (JSDate.DateOf Sample.monday_afternoon)
       JSDate.InvalidDate = 0.
Proof.
  split.
  - apply (proj1 (proj2 (calculateBusinessDays_bounds 0
                           (JSDate.DateOf Sample.monday_afternoon)
                           (JSDate.DateOf Sample.thursday_afternoon)))).
    reflexivity.
  - apply (proj1 (proj2 (calculateBusinessDays_bounds 0
                           (JSDate.DateOf Sample.monday_afternoon) JSDate.InvalidDate))).
    reflexivity.
Defined.

(** X5.  For [n >= 1], [addBusinessDays(d, n)] never falls on a Saturday
    or a Sunday; and when [d] has a time value in the range of [Date] and
    [addBusinessDays(d, n)] is a valid date, five business days more are
    exactly one week more, clipped: an Invalid Date when that day is past
    the range. *)
Theorem addBusinessDays_lands_on_business_day :
  forall (LocalTZA t n : Z),
  1 <= n -> in_range t ->
  JSDate.on_weekend LocalTZA
    (DeliveryEstimate.addBusinessDays LocalTZA (JSDate.DateOf t) n) = false
  /\ (forall u,
        DeliveryEstimate.addBusinessDays LocalTZA (JSDate.DateOf t) n = JSDate.DateOf u ->
        t < u
        /\ DeliveryEstimate.addBusinessDays LocalTZA (JSDate.DateOf t) (n + 5)
           = JSDate.TimeClip (u + 7 * JSDate.msPerDay)).
Proof.
  intros LocalTZA t n Hn Ht.
  pose proof (addBusinessDays_business_day LocalTZA (JSDate.DateOf t) n Hn) as Hoff.
  split; [exact Hoff|]. intros u Hu. split.
  - pose proof (addBusinessDays_increasing LocalTZA t 0 n (Z.le_refl 0) ltac:(lia)) as Hlt.
    rewrite (proj1 (addBusinessDays_nothing LocalTZA (JSDate.DateOf t) 0 (Z.le_refl 0))),
      Hu in Hlt.
    specialize (Hlt eq_refl). simpl in Hlt. apply Z.ltb_lt in Hlt. exact Hlt.
  - replace (n + 5) with (n + 1 + 1 + 1 + 1 + 1) by lia.
    rewrite !addBusinessDays_step by lia. rewrite Hu in *.
    apply five_business_days; [|exact Hoff].
    apply (addBusinessDays_in_range LocalTZA t n u Ht Hu).
Qed.

Lemma addBusinessDays_lands_on_business_day_witness :
  JSDate.on_weekend 0
    (DeliveryEstimate.addBusinessDays 0 (JSDate.DateOf Sample.thursday_afternoon) 2) = false
  /\ DeliveryEstimate.addBusinessDays 0 (JSDate.DateOf Sample.thursday_afternoon) (2 + 5)
     = JSDate.TimeClip (1771254000000 + 7 * JSDate.msPerDay).
Proof.
  destruct (addBusinessDays_lands_on_business_day 0 Sample.thursday_afternoon 2
              ltac:(lia)
              ltac:(unfold in_range, Sample.thursday_afternoon, JSDate.maxTime; lia))
    as [Hoff Hweek].
  split; [exact Hoff|].
  apply (Hweek 1771254000000). vm_compute. reflexivity.
Defined.

(** X6.  For every [now] in the range of [Date], [handlingDays >= 0]
    and every cut-off text: a valid date of [calculateShipDate] is a
    whole number [k] of days after [now], at the time of day of [now],
    with [k >= handlingDays], and [k >= handlingDays + 1] when
    [now >= cutoffDate]; the date is an Invalid Date when [handlingDays]
    days from [now] pass the range of [Date]; with no handling day, before
    the cut-off and from Monday to Friday, the order ships at [now].  For
    an HH:MM text the cut-off date is that time on the local day of
    [now]. *)
Theorem calculateShipDate_days_ahead :
  forall (LocalTZA now handlingDays : Z) (cutoffTime : string),
  0 <= handlingDays -> in_range now ->
  let cutoffDate := DeliveryEstimate.cutoff_of LocalTZA now cutoffTime in
  let past := JSDate.ge (JSDate.DateOf now) cutoffDate in
  let shipDate :=
    DeliveryEstimate.calculateShipDate LocalTZA now handlingDays cutoffTime in
  (forall u,
      shipDate = JSDate.DateOf u ->
      exists k, u = now + k * JSDate.msPerDay
                /\ handlingDays + (if past then 1 else 0) <= k)
  /\ (JSDate.maxTime < now + handlingDays * JSDate.msPerDay ->
      shipDate = JSDate.InvalidDate)
  /\ (handlingDays = 0 -> past = false ->
      JSDate.on_weekend LocalTZA (JSDate.DateOf now) = false ->
      shipDate = JSDate.DateOf now)
  /\ (forall h m, 0 <= h < 24 -> 0 <= m < 60 -> cutoffTime = Spec.hhmm h m ->
      cutoffDate = JSDate.TimeClip (Spec.cutoff_instant LocalTZA now h m)).
Proof.
  intros LocalTZA now handlingDays cutoffTime Hdays Hnow cutoffDate past shipDate.
  unfold past, shipDate, cutoffDate.
  split; [|split; [|split]].
  - intros u Hu. apply (calculateShipDate_days_after LocalTZA now _ _ u Hdays Hu).
  - intros Hfar. apply calculateShipDate_out_of_range; assumption.
  - intros -> Hpast Hday. apply calculateShipDate_same_day; assumption.
  - intros h m Hh Hm ->. apply cutoff_of_hhmm; assumption.
Qed.

Lemma calculateShipDate_days_ahead_witness :
  (exists k,
      1770994800000 = Sample.thursday_afternoon + k * JSDate.msPerDay
      /\ 0 + (if JSDate.ge (JSDate.DateOf Sample.thursday_afternoon)
                   (DeliveryEstimate.cutoff_of 0 Sample.thursday_afternoon "+14:00")
              then 1 else 0) <= k)
  /\ DeliveryEstimate.calculateShipDate 0 Sample.thursday_afternoon 0 "16:30"
     = JSDate.DateOf Sample.thursday_afternoon.
Proof.
  split.
  - apply (proj1 (calculateShipDate_days_ahead 0 Sample.thursday_afternoon 0 "+14:00"
                    ltac:(lia)
                    ltac:(unfold in_range, Sample.thursday_afternoon, JSDate.maxTime; lia))).
    vm_compute. reflexivity.
  - apply (proj1 (proj2 (proj2
             (calculateShipDate_days_ahead 0 Sample.thursday_afternoon 0 "16:30"
                ltac:(lia)
                ltac:(unfold in_range, Sample.thursday_afternoon, JSDate.maxTime; lia)))));
      reflexivity.
Defined.

(* ===================================================================== *)
(** * Further properties: the carrier *)
(* ===================================================================== *)

Section TokenFacts.
Import JS JSDate Eff Types.
Variable fetch_oauth :
  string -> option string -> option string -> Outcome FedExCarrier.OAuthResponse.

(** A token in the cache that has not expired at [now] is returned as it
    is. *)
Lemma getAccessToken_from_cache (now : Z) (self : FedExCarrier.Carrier) (expiry : Date)
    (log : list Event) :
  truthy (FedExCarrier.accessToken self) = true ->
  FedExCarrier.tokenExpiry self = Some expiry ->
  lt (DateOf now) expiry = true ->
  FedExCarrier.getAccessToken now fetch_oauth self log
  = (Ok (FedExCarrier.accessToken self), self, log).
Proof.
  intros Htok Hexp Hlt.
  unfold FedExCarrier.getAccessToken, bind, this, ret.
  rewrite Htok, Hexp, Hlt. reflexivity.
Qed.

(** A token is requested at [now] when the cache holds none, or one that
    has expired. *)
Lemma getAccessToken_granted (now : Z) (self : FedExCarrier.Carrier)
    (creds : CarrierCredentials) (token : option string) (secs : option Z)
    (log : list Event) :
  truthy (FedExCarrier.accessToken self) = false
  \/ (exists expiry, FedExCarrier.tokenExpiry self = Some expiry
                     /\ lt (DateOf now) expiry = false) ->
  FedExCarrier.credentials self = Some creds ->
  fetch_oauth (FedExCarrier.baseUrl self ++ "/oauth/token") (apiKey creds) (secretKey creds)
  = Ok (FedExCarrier.OAuthGranted (Ok (Some (FedExCarrier.mkOAuthData token secs)))) ->
  FedExCarrier.getAccessToken now fetch_oauth self log
  = (Ok token,
     FedExCarrier.mkCarrier (Some creds) (FedExCarrier.carrierName self)
       (FedExCarrier.baseUrl self) token
       (Some (match secs with
              | Some s => TimeClip (now + (s - 300) * 1000)
              | None => InvalidDate
              end)),
     (log ++ [CallOAuthToken (FedExCarrier.baseUrl self ++ "/oauth/token")])%list).
Proof.
  intros Hmiss Hcreds Hfetch.
  unfold FedExCarrier.getAccessToken, bind, this, ret, call, lift, set_this.
  assert (Htest : truthy (FedExCarrier.accessToken self)
                  && match FedExCarrier.tokenExpiry self with
                     | Some expiry => lt (DateOf now) expiry
                     | None => false
                     end = false).
  { destruct Hmiss as [H | [expiry [He Hlt]]].
    - rewrite H. reflexivity.
    - rewrite He, Hlt. apply andb_false_r. }
  rewrite Htest, Hcreds, Hfetch. reflexivity.
Qed.
End TokenFacts.

(** X7.  A carrier whose credentials are not all set answers
    [getTransitTime] with [{success: false, error: "FedEx credentials not
    configured", carrier}] without any request to a remote endpoint and
    without a change to the instance. *)
Theorem getTransitTime_without_credentials :
  forall LocalTZA now Date_parse fetch_oauth fetch_rates
         (request : Types.TransitTimeRequest) (self : FedExCarrier.Carrier)
         (log : list Eff.Event),
  FedExCarrier.validateCredentials self = false ->
  FedExCarrier.getTransitTime LocalTZA now Date_parse fetch_oauth fetch_rates
    request self log
  = (JS.Ok (Types.mkResponse false (Some "FedEx credentials not configured")
              None None None None (Some (FedExCarrier.carrierName self))),
     self, log).
Proof.
  intros LocalTZA now Date_parse fetch_oauth fetch_rates request self log Hcreds.
  unfold FedExCarrier.getTransitTime, Eff.try_catch, FedExCarrier.getTransitTime_try.
  unfold Eff.bind at 1. unfold Eff.this at 1. rewrite Hcreds. reflexivity.
Qed.

Lemma getTransitTime_without_credentials_witness :
  FedExCarrier.getTransitTime 0 Sample.thursday_afternoon Sample.no_date
    Sample.no_oauth Sample.no_rates Sample.request
    (FedExCarrier.new (Some (Types.mkCredentials (Some "key") (Some "") (Some "740561073")))
       true) []
  = (JS.Ok (Types.mkResponse false (Some "FedEx credentials not configured")
              None None None None (Some "fedex")),
     FedExCarrier.new (Some (Types.mkCredentials (Some "key") (Some "") (Some "740561073")))
       true,
     []).
Proof.
  apply (getTransitTime_without_credentials 0 Sample.thursday_afternoon Sample.no_date
           Sample.no_oauth Sample.no_rates Sample.request
           (FedExCarrier.new
              (Some (Types.mkCredentials (Some "key") (Some "") (Some "740561073"))) true)
           []).
  reflexivity.
Defined.

(** X8.  The token cache of [getAccessToken].  When no token is cached
    and the token endpoint grants, at the clock reading [now1], a
    non-empty token for [secs] seconds, the call makes one request, returns
    the token and sets the expiry to [now1 + (secs - 300) * 1000], clipped.
    A later call on the same instance, at the clock reading [now2], returns
    the same token without any request when the expiry is a valid date
    after [now2]; it makes a request again when [now2] has reached the
    expiry, and always when the expiry is outside the range of [Date]. *)
Theorem getAccessToken_caches_token :
  forall (now1 now2 : Z) fetch_oauth (self : FedExCarrier.Carrier)
         (creds : Types.CarrierCredentials) (token : string) (secs : Z)
         (log log' : list Eff.Event),
  JS.truthy (FedExCarrier.accessToken self) = false ->
  FedExCarrier.credentials self = Some creds ->
  token <> "" ->
  fetch_oauth (FedExCarrier.baseUrl self ++ "/oauth/token")
    (Types.apiKey creds) (Types.secretKey creds)
  = JS.Ok (FedExCarrier.OAuthGranted
             (JS.Ok (Some (FedExCarrier.mkOAuthData (Some token) (Some secs))))) ->
  let url := FedExCarrier.baseUrl self ++ "/oauth/token" in
  let expiry := now1 + (secs - 300) * 1000 in
  exists self1,
    FedExCarrier.getAccessToken now1 fetch_oauth self log
    = (JS.Ok (Some token), self1, (log ++ [Eff.CallOAuthToken url])%list)
    /\ FedExCarrier.tokenExpiry self1 = Some (JSDate.TimeClip expiry)
    /\ (in_range expiry -> now2 < expiry ->
        FedExCarrier.getAccessToken now2 fetch_oauth self1 log'
        = (JS.Ok (Some token), self1, log'))
    /\ (expiry <= now2 \/ JSDate.maxTime < Z.abs expiry ->
        exists self2,
          FedExCarrier.getAccessToken now2 fetch_oauth self1 log'
          = (JS.Ok (Some token), self2, (log' ++ [Eff.CallOAuthToken url])%list)).
Proof.
  intros now1 now2 fetch_oauth self creds token secs log log'
         Hempty Hcreds Htoken Hfetch url expiry.
  eexists. split; [|split; [|split]].
  - apply getAccessToken_granted; [left; exact Hempty | exact Hcreds | exact Hfetch].
  - reflexivity.
  - intros Hin Hlt.
    apply getAccessToken_from_cache with (expiry := JSDate.TimeClip expiry).
    + simpl. apply truthy_nonempty. exact Htoken.
    + reflexivity.
    + fold expiry. rewrite TimeClip_in by exact Hin. simpl. apply Z.ltb_lt. exact Hlt.
  - intros Hlate. eexists.
    apply getAccessToken_granted.
    + right. exists (JSDate.TimeClip expiry). split; [reflexivity|].
      unfold JSDate.TimeClip.
      destruct (Z.ltb_spec JSDate.maxTime (Z.abs expiry)) as [Hout|Hin]; [reflexivity|].
      simpl. apply Z.ltb_ge. lia.
    + reflexivity.
    + exact Hfetch.
Qed.

Lemma getAccessToken_caches_token_witness :
  exists self1,
    FedExCarrier.getAccessToken Sample.thursday_afternoon Scenario.grant_oauth
      Sample.carrier []
    = (JS.Ok (Some "token-1"), self1,
       [Eff.CallOAuthToken "https://apis-sandbox.fedex.com/oauth/token"])
    /\ FedExCarrier.getAccessToken (Sample.thursday_afternoon + 3000000)
         Scenario.grant_oauth self1 []
       = (JS.Ok (Some "token-1"), self1, [])
    /\ exists self2,
         FedExCarrier.getAccessToken (Sample.thursday_afternoon + 3300000)
           Scenario.grant_oauth self1 []
         = (JS.Ok (Some "token-1"), self2,
            [Eff.CallOAuthToken "https://apis-sandbox.fedex.com/oauth/token"]).
Proof.
  destruct (getAccessToken_caches_token Sample.thursday_afternoon
              (Sample.thursday_afternoon + 3000000) Scenario.grant_oauth
              Sample.carrier
              (Types.mkCredentials (Some "key") (Some "secret") (Some "740561073"))
              "token-1" 3600 [] [] eq_refl eq_refl ltac:(discriminate) eq_refl)
    as [self1 [Hfirst [Hexpiry [Hreuse _]]]].
  exists self1. split; [exact Hfirst|]. split.
  - apply Hreuse;
      unfold in_range, Sample.thursday_afternoon, JSDate.maxTime; lia.
  - destruct (getAccessToken_caches_token Sample.thursday_afternoon
                (Sample.thursday_afternoon + 3300000) Scenario.grant_oauth
                Sample.carrier
                (Types.mkCredentials (Some "key") (Some "secret") (Some "740561073"))
                "token-1" 3600 [] [] eq_refl eq_refl ltac:(discriminate) eq_refl)
      as [self1' [Hfirst' [_ [_ Hagain]]]].
    rewrite Hfirst in Hfirst'. injection Hfirst' as <-.
    apply Hagain. left. unfold Sample.thursday_afternoon. lia.
Defined.

(** X9.  When the token endpoint refuses the credentials,
    [getTransitTime] answers [{success: false, error: "FedEx OAuth failed:
    " + text, carrier}]; the rate endpoint is never requested and the
    instance caches nothing. *)
Theorem getTransitTime_oauth_refused :
  forall LocalTZA now Date_parse fetch_oauth fetch_rates
         (request : Types.TransitTimeRequest) (self : FedExCarrier.Carrier)
         (creds : Types.CarrierCredentials) (text : string) (log : list Eff.Event),
  FedExCarrier.validateCredentials self = true ->
  FedExCarrier.credentials self = Some creds ->
  JS.truthy (FedExCarrier.accessToken self) = false ->
  fetch_oauth (FedExCarrier.baseUrl self ++ "/oauth/token")
    (Types.apiKey creds) (Types.secretKey creds)
  = JS.Ok (FedExCarrier.OAuthRefused (JS.Ok text)) ->
  FedExCarrier.getTransitTime LocalTZA now Date_parse fetch_oauth fetch_rates
    request self log
  = (JS.Ok (Types.mkResponse false (Some ("FedEx OAuth failed: " ++ text))
              None None None None (Some (FedExCarrier.carrierName self))),
     self,
     (log ++ [Eff.CallOAuthToken (FedExCarrier.baseUrl self ++ "/oauth/token")])%list).
Proof.
  intros LocalTZA now Date_parse fetch_oauth fetch_rates request self creds text log
         Hvalid Hcreds Hempty Hfetch.
  unfold FedExCarrier.getTransitTime, Eff.try_catch, FedExCarrier.getTransitTime_try.
  unfold Eff.bind at 1. unfold Eff.this at 1. rewrite Hvalid. cbn [negb].
  unfold Eff.bind at 1.
  unfold FedExCarrier.getAccessToken, Eff.bind, Eff.this, Eff.ret, Eff.call, Eff.lift,
    Eff.throw.
  rewrite Hempty, Hcreds. cbn [andb]. rewrite Hfetch. reflexivity.
Qed.

Lemma getTransitTime_oauth_refused_witness :
  FedExCarrier.getTransitTime 0 Sample.thursday_afternoon Sample.no_date
    Scenario.refuse_oauth Sample.no_rates Sample.request Sample.carrier []
  = (JS.Ok (Types.mkResponse false (Some "FedEx OAuth failed: invalid client")
              None None None None (Some "fedex")),
     Sample.carrier,
     [Eff.CallOAuthToken "https://apis-sandbox.fedex.com/oauth/token"]).
Proof.
  apply (getTransitTime_oauth_refused 0 Sample.thursday_afternoon Sample.no_date
           Scenario.refuse_oauth Sample.no_rates Sample.request Sample.carrier
           (Types.mkCredentials (Some "key") (Some "secret") (Some "740561073"))
           "invalid client" []); reflexivity.
Defined.

Section RateReplyFacts.
Import JS JSDate Types.
Variable LocalTZA : Z.
Variable Date_parse : string -> Date.

(** The response to a rate detail that quotes a delivery date. *)
Lemma parseRateResponse_dated (self : FedExCarrier.Carrier)
    (r : FedExCarrier.RateReplyDetail) (rest : list FedExCarrier.RateReplyDetail)
    (shipDate : Date) (text : string) :
  quoted_dayFormat r = Some text -> text <> "" ->
  FedExCarrier.parseRateResponse LocalTZA Date_parse self (rate_data_with r rest) shipDate
  = mkResponse true None
      (Some (Date_parse text))
      (Some (FedExCarrier.addBusinessDays LocalTZA (Date_parse text) 1))
      (or_num (or_num (quoted_transitDays r)
                 (FedExCarrier.parseTransitDays (quoted_description r)))
         (Some (FedExCarrier.calculateBusinessDays LocalTZA shipDate (Date_parse text))))
      (if truthy (FedExCarrier.reply_serviceName r)
       then FedExCarrier.reply_serviceName r else Some "FedEx Ground")
      (Some (FedExCarrier.carrierName self)).
Proof.
  intros Hdate Htext.
  unfold FedExCarrier.parseRateResponse, FedExCarrier.parseRateResponse_try, rate_data_with.
  cbn [FedExCarrier.output FedExCarrier.rateReplyDetails hd_error]. cbv zeta.
  unfold quoted_transitDays, quoted_description, quoted_dayFormat in *.
  destruct (FedExCarrier.commit r) as [c|]; [|discriminate].
  destruct (FedExCarrier.dateDetail c) as [dd|]; [|discriminate].
  rewrite Hdate, (truthy_nonempty _ Htext).
  destruct (FedExCarrier.transitTime c) as [info|]; reflexivity.
Qed.

(** The response to a rate detail that quotes a number of transit days
    and no delivery date. *)
Lemma parseRateResponse_quoted (self : FedExCarrier.Carrier)
    (r : FedExCarrier.RateReplyDetail) (rest : list FedExCarrier.RateReplyDetail)
    (shipDate : Date) (n : Z) :
  quoted_transitDays r = Some n -> n <> 0 -> truthy (quoted_dayFormat r) = false ->
  FedExCarrier.parseRateResponse LocalTZA Date_parse self (rate_data_with r rest) shipDate
  = mkResponse true None
      (Some (FedExCarrier.addBusinessDays LocalTZA shipDate n))
      (Some (FedExCarrier.addBusinessDays LocalTZA shipDate (n + 2)))
      (Some n)
      (if truthy (FedExCarrier.reply_serviceName r)
       then FedExCarrier.reply_serviceName r else Some "FedEx Ground")
      (Some (FedExCarrier.carrierName self)).
Proof.
  intros Hdays Hn Hdate.
  assert (Hor : forall b, or_num (Some n) b = Some n)
    by (intros b; destruct n; [congruence | reflexivity | reflexivity]).
  unfold FedExCarrier.parseRateResponse, FedExCarrier.parseRateResponse_try, rate_data_with.
  cbn [FedExCarrier.output FedExCarrier.rateReplyDetails hd_error]. cbv zeta.
  unfold quoted_transitDays, quoted_dayFormat in *.
  destruct (FedExCarrier.commit r) as [c|]; [|discriminate].
  destruct (FedExCarrier.transitTime c) as [info|]; [|discriminate].
  rewrite Hdays, Hdate, !Hor. reflexivity.
Qed.
End RateReplyFacts.

(** X10.  When the first rate detail quotes a delivery date,
    [parseRateResponse] answers with success, with that date (as the host
    parses it) for [deliveryDateMin] and with the next business day after
    it for [deliveryDateMax]; [transitDays] is the quoted number of days
    when there is one that is not zero, and the number of business days
    from the ship date to the quoted date when neither the detail nor its
    description gives a number. *)
Theorem parseRateResponse_quoted_date :
  forall (LocalTZA : Z) (Date_parse : string -> JSDate.Date)
         (self : FedExCarrier.Carrier) (r : FedExCarrier.RateReplyDetail)
         (rest : list FedExCarrier.RateReplyDetail) (shipDate : JSDate.Date)
         (text : string),
  quoted_dayFormat r = Some text -> text <> "" ->
  let response :=
    FedExCarrier.parseRateResponse LocalTZA Date_parse self (rate_data_with r rest) shipDate in
  Types.success response = true
  /\ Types.deliveryDateMin response = Some (Date_parse text)
  /\ Types.deliveryDateMax response
     = Some (FedExCarrier.getNextBusinessDay LocalTZA (Date_parse text))
  /\ (forall n, quoted_transitDays r = Some n -> n <> 0 ->
                Types.transitDays response = Some n)
  /\ (falsy_num (quoted_transitDays r) ->
      falsy_num (FedExCarrier.parseTransitDays (quoted_description r)) ->
      Types.transitDays response
      = Some (FedExCarrier.calculateBusinessDays LocalTZA shipDate (Date_parse text))).
Proof.
  intros LocalTZA Date_parse self r rest shipDate text Hdate Htext response.
  unfold response.
  rewrite (parseRateResponse_dated LocalTZA Date_parse self r rest shipDate text Hdate Htext).
  cbn [Types.success Types.deliveryDateMin Types.deliveryDateMax Types.transitDays].
  split; [reflexivity|]. split; [reflexivity|]. split; [|split].
  - f_equal. rewrite fedex_addBusinessDays_same.
    change 1 with (0 + 1). rewrite addBusinessDays_step by lia.
    rewrite (proj1 (addBusinessDays_nothing LocalTZA (Date_parse text) 0 (Z.le_refl 0))).
    reflexivity.
  - intros n Hn Hnz. rewrite Hn. destruct n; [congruence | reflexivity | reflexivity].
  - intros Hdays Hdesc. apply or_num_falsy.
    destruct Hdays as [-> | ->]; exact Hdesc.
Qed.

Lemma parseRateResponse_quoted_date_witness :
  Types.deliveryDateMin
    (FedExCarrier.parseRateResponse 0 Scenario.parse_thursday Sample.carrier
       (rate_data_with Scenario.dated_detail []) (JSDate.DateOf Sample.monday_afternoon))
  = Some (JSDate.DateOf 1771513200000)
  /\ Types.deliveryDateMax
       (FedExCarrier.parseRateResponse 0 Scenario.parse_thursday Sample.carrier
          (rate_data_with Scenario.dated_detail []) (JSDate.DateOf Sample.monday_afternoon))
     = Some (JSDate.DateOf 1771599600000)
  /\ Types.transitDays
       (FedExCarrier.parseRateResponse 0 Scenario.parse_thursday Sample.carrier
          (rate_data_with Scenario.dated_detail []) (JSDate.DateOf Sample.monday_afternoon))
     = Some 3.
Proof.
  destruct (parseRateResponse_quoted_date 0 Scenario.parse_thursday Sample.carrier
              Scenario.dated_detail [] (JSDate.DateOf Sample.monday_afternoon)
              "2026-02-19T15:00:00" eq_refl ltac:(discriminate))
    as [_ [Hmin [Hmax [_ Hdays]]]].
  split; [exact Hmin|]. split.
  - rewrite Hmax. vm_compute. reflexivity.
  - rewrite Hdays; [vm_compute; reflexivity | left; reflexivity | left; reflexivity].
Defined.

(** X11.  A number of transit days quoted by the rate detail, other
    than zero, wins over the transit description: without a quoted
    delivery date the window is [addBusinessDays(shipDate, n)] to
    [addBusinessDays(shipDate, n + 2)] and [transitDays] is [n]; for
    [n >= 1] and a ship date with a time value, when [deliveryDateMax] is
    a valid date the window is in order: the ship date is before
    [deliveryDateMin], which is before [deliveryDateMax]. *)
Theorem parseRateResponse_quoted_days :
  forall (LocalTZA : Z) (Date_parse : string -> JSDate.Date)
         (self : FedExCarrier.Carrier) (r : FedExCarrier.RateReplyDetail)
         (rest : list FedExCarrier.RateReplyDetail) (t n : Z),
  quoted_transitDays r = Some n -> n <> 0 -> JS.truthy (quoted_dayFormat r) = false ->
  let response :=
    FedExCarrier.parseRateResponse LocalTZA Date_parse self (rate_data_with r rest)
      (JSDate.DateOf t) in
  Types.success response = true
  /\ Types.transitDays response = Some n
  /\ Types.deliveryDateMin response
     = Some (FedExCarrier.addBusinessDays LocalTZA (JSDate.DateOf t) n)
  /\ Types.deliveryDateMax response
     = Some (FedExCarrier.addBusinessDays LocalTZA (JSDate.DateOf t) (n + 2))
  /\ (1 <= n ->
      JSDate.is_valid (FedExCarrier.addBusinessDays LocalTZA (JSDate.DateOf t) (n + 2)) = true ->
      JSDate.lt (JSDate.DateOf t)
        (FedExCarrier.addBusinessDays LocalTZA (JSDate.DateOf t) n) = true
      /\ JSDate.lt (FedExCarrier.addBusinessDays LocalTZA (JSDate.DateOf t) n)
           (FedExCarrier.addBusinessDays LocalTZA (JSDate.DateOf t) (n + 2)) = true).
Proof.
  intros LocalTZA Date_parse self r rest t n Hdays Hn Hdate response. unfold response.
  rewrite (parseRateResponse_quoted LocalTZA Date_parse self r rest (JSDate.DateOf t) n
             Hdays Hn Hdate).
  cbn [Types.success Types.deliveryDateMin Types.deliveryDateMax Types.transitDays].
  repeat (split; [reflexivity|]).
  intros Hpos. rewrite !fedex_addBusinessDays_same. intros Hvalid. split.
  - pose proof (addBusinessDays_increasing LocalTZA t 0 n (Z.le_refl 0) ltac:(lia)) as H.
    rewrite (proj1 (addBusinessDays_nothing LocalTZA (JSDate.DateOf t) 0 (Z.le_refl 0))) in H.
    apply H.
    apply (addBusinessDays_valid_before LocalTZA (JSDate.DateOf t) n (n + 2) ltac:(lia) Hvalid).
  - apply addBusinessDays_increasing; [lia | lia | exact Hvalid].
Qed.

Lemma parseRateResponse_quoted_days_witness :
  Types.transitDays
    (FedExCarrier.parseRateResponse 0 Sample.no_date Sample.carrier
       (rate_data_with Scenario.two_day_detail []) (JSDate.DateOf Sample.monday_afternoon))
  = Some 2
  /\ JSDate.lt (FedExCarrier.addBusinessDays 0 (JSDate.DateOf Sample.monday_afternoon) 2)
       (FedExCarrier.addBusinessDays 0 (JSDate.DateOf Sample.monday_afternoon) (2 + 2))
     = true.
Proof.
  destruct (parseRateResponse_quoted_days 0 Sample.no_date Sample.carrier
              Scenario.two_day_detail [] Sample.monday_afternoon 2
              eq_refl ltac:(discriminate) eq_refl)
    as [_ [Hdays [_ [_ Horder]]]].
  split; [exact Hdays|]. apply Horder; [lia | reflexivity].
Defined.

Section TransitTextFacts.
Import JS.
Local Arguments Z.mul : simpl never.
Local Arguments Z.add : simpl never.
Local Arguments Z.pow : simpl never.

Lemma read_digits_nonnegative (s : string) (acc : Z) (count : nat) :
  0 <= acc -> 0 <= fst (read_digits acc count s).
Proof.
  revert acc count. induction s as [|c r IH]; intros acc count Hacc; simpl.
  - exact Hacc.
  - destruct (is_digit c) eqn:E; [|exact Hacc].
    apply IH. pose proof (digit_value_range c E). lia.
Qed.

Lemma read_digits_counts (s : string) (acc : Z) (count : nat) :
  (count <= snd (read_digits acc count s))%nat.
Proof.
  revert acc count. induction s as [|c r IH]; intros acc count; simpl.
  - lia.
  - destruct (is_digit c); [|simpl; lia].
    specialize (IH (10 * acc + digit_value c) (S count)). lia.
Qed.

(** [parseInt] reads a number that is not negative off a text that
    starts with a digit. *)
Lemma parseInt_leading_digit (c : ascii) (r : string) :
  is_digit c = true -> exists n, parseInt (String c r) = Some n /\ 0 <= n.
Proof.
  intros Hc. destruct (digit_not_special c Hc) as [Hs [Hm Hp]].
  unfold parseInt. simpl skip_spaces. rewrite Hs, Hm, Hp.
  unfold digits_prefix. simpl read_digits. rewrite Hc.
  pose proof (read_digits_nonnegative r (10 * 0 + digit_value c) 1) as Hnn.
  pose proof (read_digits_counts r (10 * 0 + digit_value c) 1) as Hcount.
  destruct (read_digits (10 * 0 + digit_value c) 1 r) as [v k]. simpl in *.
  destruct k; [lia|]. exists v. split; [reflexivity|].
  apply Hnn. pose proof (digit_value_range c Hc). lia.
Qed.

(** The run of digits that [match] finds starts with a digit, and there
    is none exactly when the text has no digit. *)
Lemma match_digits_some (s d : string) :
  match_digits s = Some d -> exists c r, d = String c r /\ is_digit c = true.
Proof.
  induction s as [|c r IH]; [discriminate|]. simpl.
  destruct (is_digit c) eqn:E; [|exact IH].
  intros H. injection H as <-. eauto.
Qed.

Lemma match_digits_none (s : string) :
  match_digits s = None <-> has_digit s = false.
Proof.
  unfold has_digit. induction s as [|c r IH]; simpl; [tauto|].
  destruct (is_digit c) eqn:E; simpl; [split; discriminate | exact IH].
Qed.

Lemma match_digits_run (c : ascii) (r : string) :
  is_digit c = true -> match_digits (String c r) = Some (digit_run (String c r)).
Proof. intros Hc. simpl. rewrite Hc. reflexivity. Qed.

Lemma digit_run_app (digits rest : string) :
  all_digits digits = true -> starts_with_digit rest = false ->
  digit_run (digits ++ rest) = digits.
Proof.
  unfold all_digits. induction digits as [|c r IH]; simpl; intros Hall Hrest.
  - destruct rest as [|d u]; [reflexivity|]. simpl in *. rewrite Hrest. reflexivity.
  - apply andb_true_iff in Hall. destruct Hall as [Hc Hr].
    rewrite Hc, (IH Hr Hrest). reflexivity.
Qed.

(** [match] finds the first run of digits of a text. *)
Lemma match_digits_first (before digits rest : string) :
  has_digit before = false -> digits <> "" ->
  all_digits digits = true -> starts_with_digit rest = false ->
  match_digits (before ++ digits ++ rest) = Some digits.
Proof.
  unfold has_digit. intros Hbefore Hne Hall Hrest.
  induction before as [|b bs IH]; simpl in *.
  - destruct digits as [|c r]; [congruence|].
    assert (Hc : is_digit c = true)
      by (unfold all_digits in Hall; simpl in Hall; apply andb_true_iff in Hall; tauto).
    change (String c r ++ rest)%string with (String c (r ++ rest)).
    rewrite match_digits_run by exact Hc.
    change (String c (r ++ rest)) with (String c r ++ rest)%string.
    rewrite digit_run_app by assumption. reflexivity.
  - apply orb_false_iff in Hbefore. destruct Hbefore as [Hb Hbs].
    rewrite Hb. apply IH. exact Hbs.
Qed.

(** [read_digits] on a run of digits is the number that the digits
    denote by their places. *)
Lemma read_digits_all (s : string) (acc : Z) (count : nat) :
  all_digits s = true ->
  read_digits acc count s
  = (acc * 10 ^ Z.of_nat (String.length s) + decimal_value s,
     (count + String.length s)%nat).
Proof.
  unfold all_digits. revert acc count.
  induction s as [|c r IH]; intros acc count Hall.
  - cbn [read_digits String.length decimal_value]. f_equal; [|lia].
    change (Z.of_nat 0) with 0. rewrite Z.pow_0_r. lia.
  - cbn [list_ascii_of_string forallb] in Hall.
    apply andb_true_iff in Hall. destruct Hall as [Hc Hr].
    cbn [read_digits String.length decimal_value].
    rewrite Hc, (IH _ _ Hr). f_equal; [|lia].
    rewrite Nat2Z.inj_succ, Z.pow_succ_r by lia. ring.
Qed.

Lemma parseInt_digits (digits : string) :
  digits <> "" -> all_digits digits = true ->
  parseInt digits = Some (decimal_value digits).
Proof.
  intros Hne Hall. destruct digits as [|c r]; [congruence|].
  assert (Hc : is_digit c = true)
    by (unfold all_digits in Hall; simpl in Hall; apply andb_true_iff in Hall; tauto).
  destruct (digit_not_special c Hc) as [Hs [Hm Hp]].
  unfold parseInt. simpl skip_spaces. rewrite Hs, Hm, Hp.
  unfold digits_prefix. rewrite (read_digits_all _ 0 0 Hall).
  cbn [String.length Nat.add]. f_equal; lia.
Qed.
End TransitTextFacts.

(** X12.  [parseTransitDays(description)] is [null] when the description
    is absent or empty and when it holds no digit; otherwise it is the
    number that the first run of digits of the description denotes (for a
    run that denotes an integer that a number holds exactly): the text
    before the run and the text after it do not count, and a sign before
    the digits is not read. *)
Theorem parseTransitDays_reads_first_digits :
  (forall description : option string,
      JS.truthy description = false -> FedExCarrier.parseTransitDays description = None)
  /\ (forall description : string,
        FedExCarrier.parseTransitDays (Some description) = None
        <-> has_digit description = false)
  /\ (forall before digits rest : string,
        has_digit before = false ->
        digits <> "" -> all_digits digits = true ->
        starts_with_digit rest = false ->
        decimal_value digits <= MAX_SAFE ->
        FedExCarrier.parseTransitDays (Some (before ++ digits ++ rest))
        = Some (decimal_value digits)).
Proof.
  split; [|split].
  - intros description H. unfold FedExCarrier.parseTransitDays. rewrite H. reflexivity.
  - intros description. unfold FedExCarrier.parseTransitDays.
    destruct description as [|c r]; [unfold has_digit; simpl; tauto|].
    cbn [JS.truthy negb].
    destruct (JS.match_digits (String c r)) as [d|] eqn:E.
    + destruct (match_digits_some _ _ E) as [c' [r' [-> Hc']]].
      destruct (parseInt_leading_digit c' r' Hc') as [n [Hn _]]. rewrite Hn.
      split; [discriminate|]. intros H. apply match_digits_none in H. congruence.
    + split; [intros _; apply match_digits_none; exact E | reflexivity].
  - intros before digits rest Hbefore Hne Hall Hrest _.
    unfold FedExCarrier.parseTransitDays.
    assert (Htruthy : JS.truthy (Some (before ++ digits ++ rest)) = true).
    { apply truthy_nonempty. destruct before; [|discriminate].
      destruct digits; [congruence | discriminate]. }
    rewrite Htruthy. cbn [negb].
    rewrite match_digits_first by assumption.
    apply parseInt_digits; assumption.
Qed.

Lemma parseTransitDays_reads_first_digits_witness :
  FedExCarrier.parseTransitDays (Some "") = None
  /\ FedExCarrier.parseTransitDays (Some "soon") = None
  /\ FedExCarrier.parseTransitDays (Some "within -3 to 5 business days") = Some 3.
Proof.
  destruct parseTransitDays_reads_first_digits as [Habsent [Hnone Hvalue]].
  split; [apply Habsent; reflexivity|].
  split; [apply Hnone; reflexivity|].
  apply (Hvalue "within -" "3" " to 5 business days");
    (reflexivity || discriminate || (vm_compute; discriminate)).
Defined.

(* ===================================================================== *)
(** * Further properties: the orchestrator and its helpers *)
(* ===================================================================== *)

Section EstimateFacts.
Import JS JSDate Eff Types Geolocation.
Variable LocalTZA : Z.

Lemma abs_diff_sym (a b : option Z) :
  DeliveryEstimate.abs_diff a b = DeliveryEstimate.abs_diff b a.
Proof.
  destruct a as [x|], b as [y|]; try reflexivity. simpl. f_equal.
  rewrite <- Z.abs_opp. f_equal. lia.
Qed.

Lemma formatLocation_truthy (l : GeoLocation) :
  truthy (DeliveryEstimate.formatLocation l)
  = truthy (city l) || truthy (region l) || truthy (countryCode l).
Proof.
  unfold DeliveryEstimate.formatLocation.
  destruct (city l) as [[|c cs]|]; destruct (region l) as [[|r rs]|];
    cbn [truthy andb orb]; reflexivity.
Qed.
End EstimateFacts.

(** X13.  [estimateTransitDays] does not depend on the order of its two
    postal codes, and it always returns a number of days from 2 to 6. *)
Theorem estimateTransitDays_symmetric :
  forall originZip destZip : option string,
  DeliveryEstimate.estimateTransitDays originZip destZip
  = DeliveryEstimate.estimateTransitDays destZip originZip
  /\ 2 <= DeliveryEstimate.estimateTransitDays originZip destZip <= 6.
Proof.
  intros originZip destZip. split; [|apply estimateTransitDays_range].
  unfold DeliveryEstimate.estimateTransitDays.
  rewrite (orb_comm (negb (JS.truthy originZip))).
  destruct (negb (JS.truthy destZip) || negb (JS.truthy originZip)); [reflexivity|].
  rewrite abs_diff_sym. reflexivity.
Qed.

(** X14.  The text of [formatLocation] is empty or absent exactly when
    the city, the region and the country code of the location all are;
    with a city and a region it is ["{city}, {region}"]. *)
Theorem formatLocation_text :
  forall l : Geolocation.GeoLocation,
  JS.truthy (DeliveryEstimate.formatLocation l)
  = JS.truthy (Geolocation.city l) || JS.truthy (Geolocation.region l)
    || JS.truthy (Geolocation.countryCode l)
  /\ (forall c r : string,
        Geolocation.city l = Some c -> c <> "" ->
        Geolocation.region l = Some r -> r <> "" ->
        DeliveryEstimate.formatLocation l = Some (c ++ ", " ++ r)).
Proof.
  intros l. split; [apply formatLocation_truthy|].
  intros c r Hc Hcn Hr Hrn. unfold DeliveryEstimate.formatLocation.
  rewrite Hc, Hr, (truthy_nonempty _ Hcn), (truthy_nonempty _ Hrn). reflexivity.
Qed.

Lemma formatLocation_text_witness :
  DeliveryEstimate.formatLocation Sample.tallahassee = Some "Tallahassee, FL".
Proof.
  apply (proj2 (formatLocation_text Sample.tallahassee) "Tallahassee" "FL");
    (reflexivity || discriminate).
Defined.

(** X15.  The fallback estimate on a ship date with a time value: its
    [transitDays] is from 2 to 6; when [addBusinessDays(shipDate,
    transitDays + 2)] is a valid date the estimate is built, its two dates
    fall on days from Monday to Friday and they are in order, the ship
    date before [deliveryDateMin] before [deliveryDateMax]; when that date
    is an Invalid Date (the dates have left the range of [Date]),
    [toISOString] throws a RangeError and so does the function. *)
Theorem generateFallbackEstimate_window :
  forall (LocalTZA : Z) (origin : Types.Address) (destination : Geolocation.GeoLocation)
         (t : Z) (settings : DeliveryEstimate.AppSettings),
  let days :=
    DeliveryEstimate.estimateTransitDays (Types.postalCode origin)
      (Geolocation.postalCode destination) in
  let dateMax := DeliveryEstimate.addBusinessDays LocalTZA (JSDate.DateOf t) (days + 2) in
  2 <= days <= 6
  /\ (forall umax,
        dateMax = JSDate.DateOf umax ->
        exists est umin,
          DeliveryEstimate.generateFallbackEstimate LocalTZA origin destination
            (JSDate.DateOf t) settings = JS.Ok est
          /\ DeliveryEstimate.transitDays est = Some days
          /\ DeliveryEstimate.deliveryDateMin est = Some (JSDate.ISO umin)
          /\ DeliveryEstimate.deliveryDateMax est = Some (JSDate.ISO umax)
          /\ t < umin < umax
          /\ JSDate.on_weekend LocalTZA (JSDate.DateOf umin) = false
          /\ JSDate.on_weekend LocalTZA (JSDate.DateOf umax) = false)
  /\ (dateMax = JSDate.InvalidDate ->
      DeliveryEstimate.generateFallbackEstimate LocalTZA origin destination
        (JSDate.DateOf t) settings
      = JS.Throw (JS.mkError "RangeError" "Invalid time value")).
Proof.
  intros LocalTZA origin destination t settings days dateMax.
  pose proof (estimateTransitDays_range (Types.postalCode origin)
                (Geolocation.postalCode destination)) as Hrange.
  fold days in Hrange.
  split; [exact Hrange|]. split.
  - intros umax Hmax. unfold dateMax in Hmax.
    destruct (generateFallbackEstimate_ok LocalTZA origin destination (JSDate.DateOf t)
                settings umax Hmax)
      as [est [umin [Hest [_ [_ [Hdays [Hmin [Himin [Himax _]]]]]]]]].
    fold days in Hdays, Hmin.
    exists est, umin. repeat (split; [assumption|]).
    assert (Hvmax : JSDate.is_valid
                      (DeliveryEstimate.addBusinessDays LocalTZA (JSDate.DateOf t) (days + 2))
                    = true) by (rewrite Hmax; reflexivity).
    assert (Hvmin : JSDate.is_valid
                      (DeliveryEstimate.addBusinessDays LocalTZA (JSDate.DateOf t) days)
                    = true) by (rewrite Hmin; reflexivity).
    pose proof (addBusinessDays_increasing LocalTZA t 0 days (Z.le_refl 0) ltac:(lia) Hvmin)
      as H0.
    rewrite (proj1 (addBusinessDays_nothing LocalTZA (JSDate.DateOf t) 0 (Z.le_refl 0))) in H0.
    pose proof (addBusinessDays_increasing LocalTZA t days (days + 2) ltac:(lia) ltac:(lia)
                  Hvmax) as H1.
    pose proof (addBusinessDays_business_day LocalTZA (JSDate.DateOf t) days ltac:(lia))
      as Hw0.
    pose proof (addBusinessDays_business_day LocalTZA (JSDate.DateOf t) (days + 2)
                  ltac:(lia)) as Hw1.
    rewrite Hmin in H0, H1, Hw0. rewrite Hmax in H1, Hw1.
    simpl in H0, H1. apply Z.ltb_lt in H0, H1.
    split; [lia|]. split; assumption.
  - intros Hmax. apply generateFallbackEstimate_throws. exact Hmax.
Qed.

Lemma generateFallbackEstimate_window_witness :
  DeliveryEstimate.generateFallbackEstimate 0 (origin_of Sample.settings) Sample.tallahassee
    (JSDate.DateOf Scenario.last_friday) Sample.settings
  = JS.Throw (JS.mkError "RangeError" "Invalid time value")
  /\ exists est umin,
       DeliveryEstimate.generateFallbackEstimate 0 (origin_of Sample.settings)
         Sample.tallahassee (JSDate.DateOf Sample.monday_afternoon) Sample.settings
       = JS.Ok est
       /\ DeliveryEstimate.deliveryDateMin est = Some (JSDate.ISO umin)
       /\ Sample.monday_afternoon < umin < 1771599600000.
Proof.
  split.
  - apply (proj2 (proj2 (generateFallbackEstimate_window 0 (origin_of Sample.settings)
                           Sample.tallahassee Scenario.last_friday Sample.settings))).
    vm_compute. reflexivity.
  - destruct (proj1 (proj2 (generateFallbackEstimate_window 0 (origin_of Sample.settings)
                              Sample.tallahassee Sample.monday_afternoon Sample.settings))
                1771599600000 ltac:(vm_compute; reflexivity))
      as [est [umin [Hest [_ [Hmin [_ [Horder _]]]]]]].
    exists est, umin. split; [exact Hest|]. split; [exact Hmin | exact Horder].
Defined.

Section CarrierPathFacts.
Import JS JSDate Eff Types Geolocation.
Variable LocalTZA : Z.
Variable now : Z.
Variable Date_parse : string -> Date.
Variable fetch_oauth :
  string -> option string -> option string -> Outcome FedExCarrier.OAuthResponse.
Variable fetch_rates :
  string -> option string -> FedExCarrier.RateRequest -> Outcome FedExCarrier.RateResponse.
Variable findUnique : string -> Outcome (option DeliveryEstimate.AppSettings).
Variable getLocationFromPostalCode : string -> Outcome (option GeoLocation).
Variable getLocationFromIP : option string -> Outcome (option GeoLocation).

(** The orchestrator after a successful answer of the carrier: the
    formatting of lines 130-143. *)
Lemma getDeliveryEstimate_after_carrier (shop : string)
    (customerIP postalCode : option string) (settings : DeliveryEstimate.AppSettings)
    (destination : GeoLocation) (log log1 log2 : list Event) (r : TransitTimeResponse) :
  findUnique shop = Ok (Some settings) ->
  DeliveryEstimate.isEnabled settings = true ->
  DeliveryEstimate.resolveDestination getLocationFromPostalCode getLocationFromIP
    customerIP postalCode tt (log ++ [CallSettingsStore shop])%list
  = (Ok destination, tt, log1) ->
  DeliveryEstimate.tryCarrier LocalTZA now Date_parse fetch_oauth fetch_rates
    settings (origin_of settings) destination
    (DeliveryEstimate.calculateShipDate LocalTZA now
       (DeliveryEstimate.handlingTimeDays settings) (DeliveryEstimate.cutoffTime settings))
    tt log1 = (Ok (Some r), tt, log2) ->
  Types.success r = true ->
  DeliveryEstimate.getDeliveryEstimate LocalTZA now Date_parse fetch_oauth fetch_rates
    findUnique getLocationFromPostalCode getLocationFromIP
    shop customerIP postalCode tt log
  = (match (if DeliveryEstimate.showExactDates settings
            then DeliveryEstimate.formatDateRange LocalTZA (Types.deliveryDateMin r)
                   (Types.deliveryDateMax r)
            else Ok (DeliveryEstimate.formatTransitDays (Types.transitDays r))) with
     | Throw _ => Ok (DeliveryEstimate.failed "Failed to calculate delivery estimate")
     | Ok dateText =>
         match DeliveryEstimate.toISOString_opt (Types.deliveryDateMin r),
               DeliveryEstimate.toISOString_opt (Types.deliveryDateMax r) with
         | Ok isoMin, Ok isoMax =>
             Ok (DeliveryEstimate.mkEstimate true None isoMin isoMax
                   (Some ("Arrives " ++ dateText))
                   (DeliveryEstimate.formatLocation destination)
                   (Types.transitDays r) None)
         | _, _ => Ok (DeliveryEstimate.failed "Failed to calculate delivery estimate")
         end
     end, tt, log2).
Proof.
  intros Hset Hon Hdest Hcar Hok.
  unfold DeliveryEstimate.getDeliveryEstimate, try_catch,
    DeliveryEstimate.getDeliveryEstimate_try.
  unfold bind at 1. unfold DeliveryEstimate.getAppSettings, call at 1.
  rewrite Hset, Hon. cbn [negb].
  unfold bind at 1. rewrite Hdest.
  unfold bind at 1. fold (origin_of settings). rewrite Hcar.
  rewrite Hok. cbn [negb]. unfold bind, lift, ret.
  destruct (if DeliveryEstimate.showExactDates settings then _ else _) as [dateText|e];
    [|reflexivity].
  destruct (DeliveryEstimate.toISOString_opt (Types.deliveryDateMin r)) as [isoMin|e];
    [|reflexivity].
  destruct (DeliveryEstimate.toISOString_opt (Types.deliveryDateMax r)) as [isoMax|e];
    reflexivity.
Qed.
End CarrierPathFacts.

(** X16.  In a configured and enabled shop, when the carrier answers
    with success and with two dates that have a time value,
    [getDeliveryEstimate] returns a successful estimate with the ISO texts
    of the two dates of the carrier, the [transitDays] of the carrier and
    the location text of the destination, and with no [isFallback]
    member. *)
Theorem getDeliveryEstimate_carrier_estimate :
  forall LocalTZA now Date_parse fetch_oauth fetch_rates findUnique
         getLocationFromPostalCode getLocationFromIP
         (shop : string) (customerIP postalCode : option string)
         (settings : DeliveryEstimate.AppSettings) (destination : Geolocation.GeoLocation)
         (log log1 log2 : list Eff.Event) (r : Types.TransitTimeResponse) (a b : Z),
  findUnique shop = JS.Ok (Some settings) ->
  DeliveryEstimate.isEnabled settings = true ->
  DeliveryEstimate.resolveDestination getLocationFromPostalCode getLocationFromIP
    customerIP postalCode tt (log ++ [Eff.CallSettingsStore shop])%list
  = (JS.Ok destination, tt, log1) ->
  DeliveryEstimate.tryCarrier LocalTZA now Date_parse fetch_oauth fetch_rates
    settings (origin_of settings) destination
    (DeliveryEstimate.calculateShipDate LocalTZA now
       (DeliveryEstimate.handlingTimeDays settings) (DeliveryEstimate.cutoffTime settings))
    tt log1 = (JS.Ok (Some r), tt, log2) ->
  Types.success r = true ->
  Types.deliveryDateMin r = Some (JSDate.DateOf a) ->
  Types.deliveryDateMax r = Some (JSDate.DateOf b) ->
  exists text,
    DeliveryEstimate.getDeliveryEstimate LocalTZA now Date_parse fetch_oauth fetch_rates
      findUnique getLocationFromPostalCode getLocationFromIP
      shop customerIP postalCode tt log
    = (JS.Ok (DeliveryEstimate.mkEstimate true None
                (Some (JSDate.ISO a)) (Some (JSDate.ISO b))
                (Some ("Arrives " ++ text))
                (DeliveryEstimate.formatLocation destination)
                (Types.transitDays r) None),
       tt, log2)
    /\ (DeliveryEstimate.showExactDates settings = false ->
        text = DeliveryEstimate.formatTransitDays (Types.transitDays r)).
Proof.
  intros LocalTZA now Date_parse fetch_oauth fetch_rates findUnique
         getLocationFromPostalCode getLocationFromIP shop customerIP postalCode
         settings destination log log1 log2 r a b Hset Hon Hdest Hcar Hok Hmin Hmax.
  rewrite (getDeliveryEstimate_after_carrier LocalTZA now Date_parse fetch_oauth fetch_rates
             findUnique getLocationFromPostalCode getLocationFromIP shop customerIP
             postalCode settings destination log log1 log2 r Hset Hon Hdest Hcar Hok).
  rewrite Hmin, Hmax. cbn [DeliveryEstimate.toISOString_opt JSDate.toISOString].
  destruct (DeliveryEstimate.showExactDates settings).
  - destruct (formatDateRange_total LocalTZA (JSDate.DateOf a) (JSDate.DateOf b))
      as [text Htext].
    rewrite Htext. exists text. split; [reflexivity | discriminate].
  - eexists. split; [reflexivity | reflexivity].
Qed.

Lemma getDeliveryEstimate_carrier_estimate_witness :
  exists text,
    Scenario.run_with_carrier Scenario.parse_thursday Scenario.dated_detail
    = (JS.Ok (DeliveryEstimate.mkEstimate true None
                (Some (JSDate.ISO 1771513200000)) (Some (JSDate.ISO 1771599600000))
                (Some ("Arrives " ++ text)) (Some "Tallahassee, FL") (Some 3) None),
       tt,
       [Eff.CallSettingsStore "shop.example"; Eff.CallPostalLookup "32483";
        Eff.CallOAuthToken "https://apis-sandbox.fedex.com/oauth/token";
        Eff.CallRateQuotes "https://apis-sandbox.fedex.com/rate/v1/rates/quotes"]).
Proof.
  destruct (getDeliveryEstimate_carrier_estimate 0 Sample.thursday_afternoon
              Scenario.parse_thursday Scenario.grant_oauth
              (Scenario.rates_of Scenario.dated_detail)
              (Sample.store_of (Some Sample.settings_with_credentials))
              Sample.lookup_tallahassee Sample.locate_nothing
              "shop.example" None (Some "32483") Sample.settings_with_credentials
              Sample.tallahassee []
              [Eff.CallSettingsStore "shop.example"; Eff.CallPostalLookup "32483"]
              [Eff.CallSettingsStore "shop.example"; Eff.CallPostalLookup "32483";
               Eff.CallOAuthToken "https://apis-sandbox.fedex.com/oauth/token";
               Eff.CallRateQuotes "https://apis-sandbox.fedex.com/rate/v1/rates/quotes"]
              (Types.mkResponse true None (Some (JSDate.DateOf 1771513200000))
                 (Some (JSDate.DateOf 1771599600000)) (Some 3) (Some "FedEx Ground")
                 (Some "fedex"))
              1771513200000 1771599600000
              eq_refl eq_refl eq_refl ltac:(vm_compute; reflexivity) eq_refl eq_refl eq_refl)
    as [text [Hrun _]].
  exists text. exact Hrun.
Defined.

(** X17.  When the carrier answers with success but its
    [deliveryDateMin] is an Invalid Date (the host could not parse the
    quoted delivery date), [getDeliveryEstimate] returns [{success: false,
    error: "Failed to calculate delivery estimate"}]: the fallback estimate
    is not used. *)
Theorem getDeliveryEstimate_invalid_carrier_date :
  forall LocalTZA now Date_parse fetch_oauth fetch_rates findUnique
         getLocationFromPostalCode getLocationFromIP
         (shop : string) (customerIP postalCode : option string)
         (settings : DeliveryEstimate.AppSettings) (destination : Geolocation.GeoLocation)
         (log log1 log2 : list Eff.Event) (r : Types.TransitTimeResponse),
  findUnique shop = JS.Ok (Some settings) ->
  DeliveryEstimate.isEnabled settings = true ->
  DeliveryEstimate.resolveDestination getLocationFromPostalCode getLocationFromIP
    customerIP postalCode tt (log ++ [Eff.CallSettingsStore shop])%list
  = (JS.Ok destination, tt, log1) ->
  DeliveryEstimate.tryCarrier LocalTZA now Date_parse fetch_oauth fetch_rates
    settings (origin_of settings) destination
    (DeliveryEstimate.calculateShipDate LocalTZA now
       (DeliveryEstimate.handlingTimeDays settings) (DeliveryEstimate.cutoffTime settings))
    tt log1 = (JS.Ok (Some r), tt, log2) ->
  Types.success r = true ->
  Types.deliveryDateMin r = Some JSDate.InvalidDate ->
  DeliveryEstimate.getDeliveryEstimate LocalTZA now Date_parse fetch_oauth fetch_rates
    findUnique getLocationFromPostalCode getLocationFromIP
    shop customerIP postalCode tt log
  = (JS.Ok (DeliveryEstimate.failed "Failed to calculate delivery estimate"), tt, log2).
Proof.
  intros LocalTZA now Date_parse fetch_oauth fetch_rates findUnique
         getLocationFromPostalCode getLocationFromIP shop customerIP postalCode
         settings destination log log1 log2 r Hset Hon Hdest Hcar Hok Hmin.
  rewrite (getDeliveryEstimate_after_carrier LocalTZA now Date_parse fetch_oauth fetch_rates
             findUnique getLocationFromPostalCode getLocationFromIP shop customerIP
             postalCode settings destination log log1 log2 r Hset Hon Hdest Hcar Hok).
  rewrite Hmin. cbn [DeliveryEstimate.toISOString_opt JSDate.toISOString].
  destruct (if DeliveryEstimate.showExactDates settings then _ else _); reflexivity.
Qed.

Lemma getDeliveryEstimate_invalid_carrier_date_witness :
  Scenario.run_with_carrier Sample.no_date Scenario.dated_detail
  = (JS.Ok (DeliveryEstimate.failed "Failed to calculate delivery estimate"), tt,
     [Eff.CallSettingsStore "shop.example"; Eff.CallPostalLookup "32483";
      Eff.CallOAuthToken "https://apis-sandbox.fedex.com/oauth/token";
      Eff.CallRateQuotes "https://apis-sandbox.fedex.com/rate/v1/rates/quotes"]).
Proof.
  apply (getDeliveryEstimate_invalid_carrier_date 0 Sample.thursday_afternoon
           Sample.no_date Scenario.grant_oauth (Scenario.rates_of Scenario.dated_detail)
           (Sample.store_of (Some Sample.settings_with_credentials))
           Sample.lookup_tallahassee Sample.locate_nothing
           "shop.example" None (Some "32483") Sample.settings_with_credentials
           Sample.tallahassee []
           [Eff.CallSettingsStore "shop.example"; Eff.CallPostalLookup "32483"]
           [Eff.CallSettingsStore "shop.example"; Eff.CallPostalLookup "32483";
            Eff.CallOAuthToken "https://apis-sandbox.fedex.com/oauth/token";
            Eff.CallRateQuotes "https://apis-sandbox.fedex.com/rate/v1/rates/quotes"]
           (Types.mkResponse true None (Some JSDate.InvalidDate) (Some JSDate.InvalidDate)
              (Some 0) (Some "FedEx Ground") (Some "fedex")));
    reflexivity.
Defined.

Section LocationFallbackFacts.
Import JS JSDate Eff Types Geolocation.
Variable LocalTZA : Z.

(** What every fallback estimate carries. *)
Lemma generateFallbackEstimate_members (origin : Address) (destination : GeoLocation)
    (shipDate : Date) (settings : DeliveryEstimate.AppSettings)
    (est : DeliveryEstimate.DeliveryEstimate) :
  DeliveryEstimate.generateFallbackEstimate LocalTZA origin destination shipDate settings
  = Ok est ->
  DeliveryEstimate.success est = true
  /\ DeliveryEstimate.isFallback est = Some true
  /\ DeliveryEstimate.location est = DeliveryEstimate.formatLocation destination
  /\ DeliveryEstimate.transitDays est
     = Some (DeliveryEstimate.estimateTransitDays (Types.postalCode origin)
               (Geolocation.postalCode destination)).
Proof.
  unfold DeliveryEstimate.generateFallbackEstimate.
  destruct (if DeliveryEstimate.showExactDates settings then _ else _) as [text|e];
    [|discriminate].
  destruct (toISOString _) as [isoMin|e]; [|discriminate].
  destruct (toISOString _) as [isoMax|e]; [|discriminate].
  intros H. injection H as <-. repeat split.
Qed.
End LocationFallbackFacts.

(** X18.  In a configured and enabled shop without carrier
    credentials: when a postal code is given and its look-up finds
    nothing, the estimate is still computed, by the fallback, for the
    location [{postalCode, city: "", region: "", countryCode: "US"}] (its
    location text is "US"), and the IP address is not located; when no
    postal code is given and the IP address cannot be located, the
    estimate is computed for the default location, Kansas City MO 64106,
    and no postal code is looked up.  The estimate is the successful
    fallback estimate when its later date is a valid date, and the failure
    of the outer [catch] when it is not. *)
Theorem getDeliveryEstimate_location_fallbacks :
  forall LocalTZA now Date_parse fetch_oauth fetch_rates findUnique
         getLocationFromPostalCode getLocationFromIP
         (shop : string) (customerIP postalCode : option string)
         (settings : DeliveryEstimate.AppSettings) (log : list Eff.Event),
  findUnique shop = JS.Ok (Some settings) ->
  DeliveryEstimate.isEnabled settings = true ->
  JS.truthy (DeliveryEstimate.fedexApiKey settings)
  && JS.truthy (DeliveryEstimate.fedexSecretKey settings)
  && JS.truthy (DeliveryEstimate.fedexAccountNumber settings) = false ->
  let run :=
    DeliveryEstimate.getDeliveryEstimate LocalTZA now Date_parse fetch_oauth fetch_rates
      findUnique getLocationFromPostalCode getLocationFromIP
      shop customerIP postalCode tt log in
  let dateMax (destZip : string) :=
    DeliveryEstimate.addBusinessDays LocalTZA
      (DeliveryEstimate.calculateShipDate LocalTZA now
         (DeliveryEstimate.handlingTimeDays settings) (DeliveryEstimate.cutoffTime settings))
      (DeliveryEstimate.estimateTransitDays
         (Some (DeliveryEstimate.warehousePostalCode settings)) (Some destZip) + 2) in
  (forall code : string,
      postalCode = Some code -> code <> "" ->
      getLocationFromPostalCode code = JS.Ok None ->
      (JSDate.is_valid (dateMax code) = true ->
       exists est,
         run = (JS.Ok est, tt,
                (log ++ [Eff.CallSettingsStore shop; Eff.CallPostalLookup code])%list)
         /\ DeliveryEstimate.success est = true
         /\ DeliveryEstimate.isFallback est = Some true
         /\ DeliveryEstimate.location est = Some "US"
         /\ DeliveryEstimate.transitDays est
            = Some (DeliveryEstimate.estimateTransitDays
                      (Some (DeliveryEstimate.warehousePostalCode settings)) (Some code)))
      /\ (JSDate.is_valid (dateMax code) = false ->
          run = (JS.Ok (DeliveryEstimate.failed "Failed to calculate delivery estimate"), tt,
                 (log ++ [Eff.CallSettingsStore shop; Eff.CallPostalLookup code])%list)))
  /\ (JS.truthy postalCode = false ->
      getLocationFromIP customerIP = JS.Ok None ->
      (JSDate.is_valid (dateMax "64106") = true ->
       exists est,
         run = (JS.Ok est, tt,
                (log ++ [Eff.CallSettingsStore shop; Eff.CallLocateIP customerIP])%list)
         /\ DeliveryEstimate.success est = true
         /\ DeliveryEstimate.isFallback est = Some true
         /\ DeliveryEstimate.location est = Some "Kansas City, MO"
         /\ DeliveryEstimate.transitDays est
            = Some (DeliveryEstimate.estimateTransitDays
                      (Some (DeliveryEstimate.warehousePostalCode settings))
                      (Some "64106")))
      /\ (JSDate.is_valid (dateMax "64106") = false ->
          run = (JS.Ok (DeliveryEstimate.failed "Failed to calculate delivery estimate"), tt,
                 (log ++ [Eff.CallSettingsStore shop; Eff.CallLocateIP customerIP])%list))).
Proof.
  intros LocalTZA now Date_parse fetch_oauth fetch_rates findUnique
         getLocationFromPostalCode getLocationFromIP shop customerIP postalCode
         settings log Hset Hon Hcreds run dateMax.
  set (shipDate := DeliveryEstimate.calculateShipDate LocalTZA now
                     (DeliveryEstimate.handlingTimeDays settings)
                     (DeliveryEstimate.cutoffTime settings)) in *.
  assert (Hgeneral : forall destination log1,
    DeliveryEstimate.resolveDestination getLocationFromPostalCode getLocationFromIP
      customerIP postalCode tt (log ++ [Eff.CallSettingsStore shop])%list
    = (JS.Ok destination, tt, log1) ->
    let dmax :=
      DeliveryEstimate.addBusinessDays LocalTZA shipDate
        (DeliveryEstimate.estimateTransitDays
           (Some (DeliveryEstimate.warehousePostalCode settings))
           (Geolocation.postalCode destination) + 2) in
    (JSDate.is_valid dmax = true ->
     exists est,
       run = (JS.Ok est, tt, log1)
       /\ DeliveryEstimate.success est = true
       /\ DeliveryEstimate.isFallback est = Some true
       /\ DeliveryEstimate.location est = DeliveryEstimate.formatLocation destination
       /\ DeliveryEstimate.transitDays est
          = Some (DeliveryEstimate.estimateTransitDays
                    (Some (DeliveryEstimate.warehousePostalCode settings))
                    (Geolocation.postalCode destination)))
    /\ (JSDate.is_valid dmax = false ->
        run = (JS.Ok (DeliveryEstimate.failed "Failed to calculate delivery estimate"), tt,
               log1))).
  { intros destination log1 Hdest dmax.
    destruct (tryCarrier_total LocalTZA now Date_parse fetch_oauth fetch_rates settings
                (origin_of settings) destination shipDate log1)
      as [tr [l [Htr Hnone]]].
    destruct (Hnone Hcreds) as [-> ->].
    pose proof (getDeliveryEstimate_fallback LocalTZA now Date_parse fetch_oauth fetch_rates
                  findUnique getLocationFromPostalCode getLocationFromIP shop customerIP
                  postalCode settings destination log log1 log1 None
                  Hset Hon Hdest Htr (or_introl eq_refl)) as Hrun.
    fold shipDate in Hrun. fold run in Hrun.
    destruct dmax as [umax|] eqn:Hmax; (split; [intros Hv | intros Hv]);
      try discriminate Hv.
    - destruct (generateFallbackEstimate_ok LocalTZA (origin_of settings) destination
                  shipDate settings umax Hmax) as [est [umin [Hest _]]].
      rewrite Hest in Hrun. exists est. split; [exact Hrun|].
      apply (generateFallbackEstimate_members LocalTZA) in Hest. exact Hest.
    - rewrite (generateFallbackEstimate_throws LocalTZA (origin_of settings) destination
                 shipDate settings Hmax) in Hrun.
      exact Hrun. }
  split.
  - intros code -> Hcode Hlookup.
    apply (Hgeneral
             (Geolocation.mkGeoLocation (Some "") (Some "") (Some code) (Some "US") None)
             (log ++ [Eff.CallSettingsStore shop; Eff.CallPostalLookup code])%list).
    unfold DeliveryEstimate.resolveDestination.
    rewrite (truthy_nonempty _ Hcode). unfold Eff.bind, Eff.call, Eff.ret.
    rewrite Hlookup, <- app_assoc. reflexivity.
  - intros Hnone Hlocate.
    apply (Hgeneral Geolocation.getDefaultLocation
             (log ++ [Eff.CallSettingsStore shop; Eff.CallLocateIP customerIP])%list).
    unfold DeliveryEstimate.resolveDestination.
    rewrite Hnone. unfold Eff.bind, Eff.call, Eff.ret.
    rewrite Hlocate, <- app_assoc. reflexivity.
Qed.

Lemma getDeliveryEstimate_location_fallbacks_witness :
  (exists est,
      DeliveryEstimate.getDeliveryEstimate 0 Sample.thursday_afternoon Sample.no_date
        Sample.no_oauth Sample.no_rates (Sample.store_of (Some Sample.settings))
        Scenario.lookup_nothing Sample.locate_nothing "shop.example" None (Some "00000") tt []
      = (JS.Ok est, tt, [Eff.CallSettingsStore "shop.example"; Eff.CallPostalLookup "00000"])
      /\ DeliveryEstimate.location est = Some "US"
      /\ DeliveryEstimate.transitDays est = Some 4)
  /\ (exists est,
        DeliveryEstimate.getDeliveryEstimate 0 Sample.thursday_afternoon Sample.no_date
          Sample.no_oauth Sample.no_rates (Sample.store_of (Some Sample.settings))
          Scenario.lookup_nothing Sample.locate_nothing "shop.example" None None tt []
        = (JS.Ok est, tt, [Eff.CallSettingsStore "shop.example"; Eff.CallLocateIP None])
        /\ DeliveryEstimate.location est = Some "Kansas City, MO"
        /\ DeliveryEstimate.transitDays est = Some 4).
Proof.
  split.
  - destruct (proj1 (proj1 (getDeliveryEstimate_location_fallbacks 0
                              Sample.thursday_afternoon
                              Sample.no_date Sample.no_oauth Sample.no_rates
                              (Sample.store_of (Some Sample.settings))
                              Scenario.lookup_nothing Sample.locate_nothing
                              "shop.example" None (Some "00000") Sample.settings []
                              eq_refl eq_refl eq_refl)
                       "00000" eq_refl ltac:(discriminate) eq_refl)
                ltac:(vm_compute; reflexivity))
      as [est [Hrun [_ [_ [Hloc Hdays]]]]].
    exists est. split; [exact Hrun|]. split; [exact Hloc | exact Hdays].
  - destruct (proj1 (proj2 (getDeliveryEstimate_location_fallbacks 0
                              Sample.thursday_afternoon
                              Sample.no_date Sample.no_oauth Sample.no_rates
                              (Sample.store_of (Some Sample.settings))
                              Scenario.lookup_nothing Sample.locate_nothing
                              "shop.example" None None Sample.settings []
                              eq_refl eq_refl eq_refl)
                       eq_refl eq_refl)
                ltac:(vm_compute; reflexivity))
      as [est [Hrun [_ [_ [Hloc Hdays]]]]].
    exists est. split; [exact Hrun|]. split; [exact Hloc | exact Hdays].
Defined.

(* ===================================================================== *)
(** * Further properties: the carrier factory *)
(* ===================================================================== *)

(** X19.  [createCarrier] builds a carrier exactly for the identifiers
    of [getSupportedCarriers()]: for these it returns a fresh FedEx
    instance (named by the identifier, with the given credentials, an empty
    token cache, and the sandbox or the production URL as asked); for every
    other identifier, the [ups] and [usps] of [CARRIERS] included, it throws
    ["Unsupported carrier: " + carrierType]. *)
Theorem createCarrier_supported :
  forall (carrierType : string) (creds : option Types.CarrierCredentials)
         (useSandbox : bool),
  (In carrierType CarrierList.getSupportedCarriers ->
   Carriers.createCarrier carrierType creds useSandbox
   = JS.Ok (FedExCarrier.mkCarrier creds carrierType
              (if useSandbox then FedExCarrier.FEDEX_SANDBOX_URL
               else FedExCarrier.FEDEX_PRODUCTION_URL)
              None None))
  /\ (~ In carrierType CarrierList.getSupportedCarriers ->
      Carriers.createCarrier carrierType creds useSandbox
      = JS.Throw (JS.mkError "Error" ("Unsupported carrier: " ++ carrierType)))
  /\ (In CarrierList.CARRIERS_UPS CarrierList.CARRIERS
      /\ ~ In CarrierList.CARRIERS_UPS CarrierList.getSupportedCarriers)
  /\ (In CarrierList.CARRIERS_USPS CarrierList.CARRIERS
      /\ ~ In CarrierList.CARRIERS_USPS CarrierList.getSupportedCarriers).
Proof.
  intros carrierType creds useSandbox. split; [|split; [|split]].
  - intros [H|[]]. subst carrierType. reflexivity.
  - intros H. unfold Carriers.createCarrier.
    destruct (String.eqb_spec carrierType Types.CARRIERS_FEDEX) as [E|E]; [|reflexivity].
    exfalso. apply H. left. symmetry. exact E.
  - split; [right; left; reflexivity|]. intros [H|[]]. discriminate H.
  - split; [right; right; left; reflexivity|]. intros [H|[]]. discriminate H.
Qed.

Lemma createCarrier_supported_witness :
  Carriers.createCarrier "fedex" None true
  = JS.Ok (FedExCarrier.mkCarrier None "fedex" "https://apis-sandbox.fedex.com" None None)
  /\ Carriers.createCarrier "ups" None true
     = JS.Throw (JS.mkError "Error" "Unsupported carrier: ups").
Proof.
  split.
  - apply (proj1 (createCarrier_supported "fedex" None true)). left. reflexivity.
  - apply (proj1 (proj2 (createCarrier_supported "ups" None true))).
    intros [H|[]]. discriminate H.
Defined.

(* ===================================================================== *)
(** * Further properties: client addresses and geolocation *)
(* ===================================================================== *)

Section GeoFacts.
Import JS Geolocation.

Lemma getClientIP_from_public (headers : string -> option string) (names : list string)
    (ip : string) :
  GeoService.getClientIP_from headers names = Some ip ->
  ip <> "" /\ GeoService.isPrivateIP (Some ip) = false
  /\ exists name value,
       In name names /\ headers name = Some value
       /\ ip = GeoService.trim (GeoService.first_segment value).
Proof.
  induction names as [|name rest IH]; [discriminate|].
  cbn [GeoService.getClientIP_from]. cbv zeta.
  destruct (truthy (headers name)) eqn:Hv.
  - destruct (headers name) as [value|] eqn:Hname; [|discriminate].
    set (found := GeoService.trim (GeoService.first_segment value)).
    destruct (truthy (Some found) && negb (GeoService.isPrivateIP (Some found))) eqn:Hip.
    + intros H. injection H as <-. apply andb_true_iff in Hip. destruct Hip as [Hne Hpub].
      split; [intros E; rewrite E in Hne; discriminate|].
      split; [apply negb_true_iff; exact Hpub|].
      exists name, value. split; [left; reflexivity|]. split; [exact Hname | reflexivity].
    + intros H. destruct (IH H) as [Hne [Hpub [n [v [Hin [Hn Hv']]]]]].
      split; [exact Hne|]. split; [exact Hpub|]. exists n, v.
      split; [right; exact Hin|]. split; assumption.
  - intros H. destruct (IH H) as [Hne [Hpub [n [v [Hin [Hn Hv']]]]]].
    split; [exact Hne|]. split; [exact Hpub|]. exists n, v.
    split; [right; exact Hin|]. split; assumption.
Qed.

Lemma getClientIP_from_nothing (headers : string -> option string) (names : list string) :
  (forall name, In name names -> truthy (headers name) = false) ->
  GeoService.getClientIP_from headers names = None.
Proof.
  induction names as [|name rest IH]; intros H; [reflexivity|].
  cbn [GeoService.getClientIP_from]. cbv zeta.
  rewrite (H name (or_introl eq_refl)). apply IH. intros n Hn. apply H. right. exact Hn.
Qed.

Variable fetch : string -> Outcome GeoService.GeoResponse.

(** One turn of the loop of [getLocationFromIP]: the usable answer of
    the service ends the loop, and anything else passes to the next
    service. *)
Lemma try_services_cons (cleanIP : string) (service : GeoService.Service)
    (rest : list GeoService.Service) (requested : list string) :
  GeoService.try_services fetch cleanIP (service :: rest) requested
  = match usable_answer fetch cleanIP service with
    | Some location =>
        (Some (with_source location (GeoService.service_name service)),
         (requested ++ [GeoService.service_url service cleanIP])%list)
    | None =>
        GeoService.try_services fetch cleanIP rest
          (requested ++ [GeoService.service_url service cleanIP])%list
    end.
Proof.
  unfold usable_answer. cbn [GeoService.try_services]. cbv zeta.
  destruct (fetch (GeoService.service_url service cleanIP)) as [response|e];
    [|reflexivity].
  destruct (GeoService.geo_ok response); cbn [negb]; [|reflexivity].
  destruct (GeoService.geo_json response) as [[data|]|e]; try reflexivity.
  destruct (GeoService.service_parse service data) as [location|]; [|reflexivity].
  destruct (truthy (postalCode location)); reflexivity.
Qed.

(** The loop returns the usable answer of the first service that has
    one, after a request to every service before it and none to a service
    after it. *)
Lemma try_services_first (cleanIP : string) (services : list GeoService.Service)
    (requested called : list string) (r : option GeoLocation) :
  GeoService.try_services fetch cleanIP services requested = (r, called) ->
  (forall loc, r = Some loc ->
     exists before service rest location,
       services = (before ++ service :: rest)%list
       /\ (forall s, In s before -> usable_answer fetch cleanIP s = None)
       /\ usable_answer fetch cleanIP service = Some location
       /\ loc = with_source location (GeoService.service_name service)
       /\ called = (requested
                    ++ map (fun s => GeoService.service_url s cleanIP)
                         (before ++ [service]))%list)
  /\ (r = None ->
      (forall s, In s services -> usable_answer fetch cleanIP s = None)
      /\ called = (requested
                   ++ map (fun s => GeoService.service_url s cleanIP) services)%list).
Proof.
  revert requested called r.
  induction services as [|service rest IH]; intros requested called r H.
  - simpl in H. injection H as <- <-. split; [discriminate|].
    intros _. split; [intros s []|]. simpl. rewrite app_nil_r. reflexivity.
  - rewrite try_services_cons in H.
    destruct (usable_answer fetch cleanIP service) as [location|] eqn:Hanswer.
    + injection H as <- <-. split; [|discriminate].
      intros loc Hloc. injection Hloc as <-.
      exists [], service, rest, location.
      split; [reflexivity|]. split; [intros s []|].
      split; [exact Hanswer|]. split; reflexivity.
    + destruct (IH _ _ _ H) as [Hsome Hnone]. split.
      * intros loc Hloc.
        destruct (Hsome loc Hloc) as [before [s [rest' [location [Hsplit [Hb [Hs [Hl Hc]]]]]]]].
        exists (service :: before), s, rest', location.
        split; [rewrite Hsplit; reflexivity|].
        split; [intros x [<-|Hx]; [exact Hanswer | apply Hb; exact Hx]|].
        split; [exact Hs|]. split; [exact Hl|].
        rewrite Hc, <- app_assoc. reflexivity.
      * intros Hr. destruct (Hnone Hr) as [Hall Hc].
        split; [intros x [<-|Hx]; [exact Hanswer | apply Hall; exact Hx]|].
        rewrite Hc, <- app_assoc. reflexivity.
Qed.
End GeoFacts.

(** X20.  [cleanIPAddress(ip)] never returns a private or local
    address: its result is the empty string or an address that
    [isPrivateIP] rejects; a public address without a comma and without the
    [::ffff:] prefix comes back unchanged. *)
Theorem cleanIPAddress_never_private :
  (forall ip : option string,
      GeoService.cleanIPAddress ip = ""
      \/ GeoService.isPrivateIP (Some (GeoService.cleanIPAddress ip)) = false)
  /\ (forall ip : string,
        GeoService.includes_comma ip = false ->
        GeoService.startsWith ip "::ffff:" = false ->
        GeoService.isPrivateIP (Some ip) = false ->
        GeoService.cleanIPAddress (Some ip) = ip).
Proof.
  split.
  - intros ip. unfold GeoService.cleanIPAddress.
    destruct (negb (JS.truthy ip)); [left; reflexivity|]. cbv zeta.
    match goal with
    | |- context [if GeoService.isPrivateIP (Some ?x) then _ else _] =>
        destruct (GeoService.isPrivateIP (Some x)) eqn:E
    end; [left; reflexivity | right; exact E].
  - intros ip Hcomma Hmapped Hpublic. unfold GeoService.cleanIPAddress.
    assert (Hne : JS.truthy (Some ip) = true).
    { destruct ip; [discriminate Hpublic | reflexivity]. }
    rewrite Hne. cbn [negb]. rewrite Hcomma, Hmapped, Hpublic. reflexivity.
Qed.

Lemma cleanIPAddress_never_private_witness :
  GeoService.cleanIPAddress (Some "203.0.113.9") = "203.0.113.9".
Proof.
  apply (proj2 cleanIPAddress_never_private "203.0.113.9"); reflexivity.
Defined.

(** X21.  [getClientIP(request)] returns [null] or an address that is
    not empty and that [isPrivateIP] rejects, taken (first entry, trimmed)
    from one of the six headers that it reads; it returns [null] when none
    of these headers has a value. *)
Theorem getClientIP_public_or_null :
  forall headers : string -> option string,
  (forall ip : string,
      GeoService.getClientIP headers = Some ip ->
      ip <> "" /\ GeoService.isPrivateIP (Some ip) = false
      /\ exists name value,
           In name GeoService.ipHeaders /\ headers name = Some value
           /\ ip = GeoService.trim (GeoService.first_segment value))
  /\ ((forall name, In name GeoService.ipHeaders -> JS.truthy (headers name) = false) ->
      GeoService.getClientIP headers = None).
Proof.
  intros headers. split.
  - intros ip H. apply getClientIP_from_public. exact H.
  - apply getClientIP_from_nothing.
Qed.

Lemma getClientIP_public_or_null_witness :
  "203.0.113.9" <> "" /\ GeoService.isPrivateIP (Some "203.0.113.9") = false
  /\ exists name value,
       In name GeoService.ipHeaders /\ Scenario.proxied_headers name = Some value
       /\ "203.0.113.9" = GeoService.trim (GeoService.first_segment value).
Proof.
  apply (proj1 (getClientIP_public_or_null Scenario.proxied_headers) "203.0.113.9").
  reflexivity.
Defined.

(** X22.  [getLocationFromIP(ipAddress)] asks the services in their
    order, at the URLs built from [cleanIPAddress(ipAddress)], and returns
    the first usable answer (ok status, a body that parses, a postal code)
    labelled with the name of the service that gave it: every service
    before that one was asked and had no usable answer, and no service
    after it is asked.  It returns [null] exactly when it has asked all
    the services and none had a usable answer. *)
Theorem getLocationFromIP_tries_in_order :
  forall (fetch : string -> JS.Outcome GeoService.GeoResponse)
         (ipAddress : option string)
         (r : option Geolocation.GeoLocation) (requested : list string),
  GeoService.getLocationFromIP fetch ipAddress = (r, requested) ->
  let cleanIP := GeoService.cleanIPAddress ipAddress in
  let url := fun s => GeoService.service_url s cleanIP in
  (forall loc, r = Some loc ->
     exists before service rest location,
       GeoService.GEOLOCATION_SERVICES = (before ++ service :: rest)%list
       /\ (forall s, In s before -> usable_answer fetch cleanIP s = None)
       /\ usable_answer fetch cleanIP service = Some location
       /\ loc = with_source location (GeoService.service_name service)
       /\ requested = map url (before ++ [service])%list)
  /\ (r = None ->
      (forall s, In s GeoService.GEOLOCATION_SERVICES ->
                 usable_answer fetch cleanIP s = None)
      /\ requested = map url GeoService.GEOLOCATION_SERVICES).
Proof.
  intros fetch ipAddress r requested H cleanIP url.
  unfold GeoService.getLocationFromIP in H.
  exact (try_services_first fetch _ _ _ _ _ H).
Qed.

Lemma getLocationFromIP_tries_in_order_witness :
  exists before service rest location,
    GeoService.GEOLOCATION_SERVICES = (before ++ service :: rest)%list
    /\ (forall s, In s before ->
                  usable_answer Scenario.only_ipinfo
                    (GeoService.cleanIPAddress (Some "203.0.113.9")) s = None)
    /\ usable_answer Scenario.only_ipinfo
         (GeoService.cleanIPAddress (Some "203.0.113.9")) service = Some location
    /\ Geolocation.mkGeoLocation (Some "Tallahassee") (Some "Florida") (Some "32301")
         (Some "US") (Some "ipinfo.io")
       = with_source location (GeoService.service_name service)
    /\ ["http://ip-api.com/json/203.0.113.9?fields=status,city,regionCode,zip,countryCode,lat,lon";
        "https://ipapi.co/203.0.113.9/json/"; "https://ipinfo.io/203.0.113.9/json"]
       = map (fun s => GeoService.service_url s
                         (GeoService.cleanIPAddress (Some "203.0.113.9")))
           (before ++ [service])%list.
Proof.
  apply (proj1 (getLocationFromIP_tries_in_order Scenario.only_ipinfo (Some "203.0.113.9")
                  (Some (Geolocation.mkGeoLocation (Some "Tallahassee") (Some "Florida")
                           (Some "32301") (Some "US") (Some "ipinfo.io")))
                  ["http://ip-api.com/json/203.0.113.9?fields=status,city,regionCode,zip,countryCode,lat,lon";
                   "https://ipapi.co/203.0.113.9/json/"; "https://ipinfo.io/203.0.113.9/json"]
                  ltac:(vm_compute; reflexivity))).
  reflexivity.
Defined.

(* ===================================================================== *)
(** * Further properties: the processing days of the settings page *)
(* ===================================================================== *)

(** X23.  The settings page saves and reads back the processing days
    without loss: from the text that the action saves for a form, the
    loader reads the ticked days, in ascending order, and Monday to Friday
    when no day is ticked. *)
Theorem processingDays_round_trip :
  forall formData : string -> option string,
  SettingsPage.loader_processingDays
    (Some (SettingsPage.action_processingDays formData))
  = match filter (fun i => JS.truthy (formData (SettingsPage.field i))) (seq 0 7) with
    | [] => map JS.of_Z [1; 2; 3; 4; 5]
    | days => map (fun i => JS.of_Z (Z.of_nat i)) days
    end.
Proof.
  intros formData. unfold SettingsPage.action_processingDays.
  cbn [seq map filter].
  generalize (JS.truthy (formData (SettingsPage.field 0))).
  generalize (JS.truthy (formData (SettingsPage.field 1))).
  generalize (JS.truthy (formData (SettingsPage.field 2))).
  generalize (JS.truthy (formData (SettingsPage.field 3))).
  generalize (JS.truthy (formData (SettingsPage.field 4))).
  generalize (JS.truthy (formData (SettingsPage.field 5))).
  generalize (JS.truthy (formData (SettingsPage.field 6))).
  intros [] [] [] [] [] [] []; vm_compute; reflexivity.
Qed.

(* ===================================================================== *)
(** * Further properties: the app proxy route *)
(* ===================================================================== *)

(** X24.  The loader of the app proxy route always answers and never
    throws.  An [OPTIONS] request gets 204 and a path without
    [api/delivery-estimate] gets 404, a request without [shop] gets 400, all
    three without any call; every other request gets status 200 with the
    result of [getDeliveryEstimate(shop, getClientIP(request), postalCode)]
    as its body, also when that result is a failure. *)
Theorem loader_always_answers :
  forall (LocalTZA now : Z) (Date_parse : string -> JSDate.Date)
         (fetch_oauth :
            string -> option string -> option string
            -> JS.Outcome FedExCarrier.OAuthResponse)
         (fetch_rates :
            string -> option string -> FedExCarrier.RateRequest
            -> JS.Outcome FedExCarrier.RateResponse)
         (findUnique : string -> JS.Outcome (option DeliveryEstimate.AppSettings))
         (getLocationFromPostalCode :
            string -> JS.Outcome (option Geolocation.GeoLocation))
         (getLocationFromIP :
            option string -> JS.Outcome (option Geolocation.GeoLocation))
         (request : AppProxy.Request) (log : list Eff.Event),
  exists (response : AppProxy.Response) (log' : list Eff.Event),
    AppProxy.loader LocalTZA now Date_parse fetch_oauth fetch_rates findUnique
      getLocationFromPostalCode getLocationFromIP request tt log
    = (JS.Ok response, tt, log')
    /\ (AppProxy.method request = "OPTIONS" ->
        response = AppProxy.mkResponse 204 None /\ log' = log)
    /\ (AppProxy.method request <> "OPTIONS" ->
        (forall path, AppProxy.splat request = Some path ->
                      AppProxy.includes "api/delivery-estimate" path = false) ->
        response = AppProxy.mkResponse 404 (Some (DeliveryEstimate.failed "Not found"))
        /\ log' = log)
    /\ (AppProxy.method request <> "OPTIONS" ->
        forall path, AppProxy.splat request = Some path ->
        AppProxy.includes "api/delivery-estimate" path = true ->
        JS.truthy (AppProxy.query_shop request) = false ->
        response = AppProxy.mkResponse 400
                     (Some (DeliveryEstimate.failed "Shop parameter required"))
        /\ log' = log)
    /\ (AppProxy.method request <> "OPTIONS" ->
        forall path shop, AppProxy.splat request = Some path ->
        AppProxy.includes "api/delivery-estimate" path = true ->
        AppProxy.query_shop request = Some shop -> shop <> "" ->
        exists estimate,
          response = AppProxy.mkResponse 200 (Some estimate)
          /\ DeliveryEstimate.getDeliveryEstimate LocalTZA now Date_parse fetch_oauth
               fetch_rates findUnique getLocationFromPostalCode getLocationFromIP
               shop (GeoService.getClientIP (AppProxy.headers request))
               (AppProxy.query_postalCode request) tt log
             = (JS.Ok estimate, tt, log')).
Proof.
  intros LocalTZA now Date_parse fetch_oauth fetch_rates findUnique
    getLocationFromPostalCode getLocationFromIP request log.
  unfold AppProxy.loader.
  destruct (String.eqb_spec (AppProxy.method request) "OPTIONS") as [Hm|Hm].
  { exists (AppProxy.mkResponse 204 None), log. split; [reflexivity|].
    split; [intros _; split; reflexivity|].
    split; [|split]; intros H; exfalso; apply H; exact Hm. }
  assert (Hincl : AppProxy.includes "api/delivery-estimate" "" = false) by reflexivity.
  destruct (AppProxy.splat request) as [path|] eqn:Hpath.
  2:{ eexists _, log. split; [reflexivity|].
      split; [intros H; exfalso; apply Hm; exact H|].
      split; [intros _ _; split; reflexivity|].
      split; [intros _ p H; discriminate H|].
      intros _ p s H. discriminate H. }
  destruct (AppProxy.includes "api/delivery-estimate" path) eqn:Hroute.
  2:{ exists (AppProxy.mkResponse 404 (Some (DeliveryEstimate.failed "Not found"))), log.
      split.
      { unfold Eff.try_catch.
        destruct (negb (JS.truthy (Some path))); reflexivity. }
      split; [intros H; exfalso; apply Hm; exact H|].
      split; [intros _ _; split; reflexivity|].
      split.
      { intros _ p H Hp. injection H as <-. rewrite Hroute in Hp. discriminate Hp. }
      intros _ p s H Hp. injection H as <-. rewrite Hroute in Hp. discriminate Hp. }
  assert (Hsome : JS.truthy (Some path) = true).
  { destruct path; [discriminate Hroute | reflexivity]. }
  rewrite Hsome. cbn [negb orb]. cbv zeta.
  destruct (JS.truthy (AppProxy.query_shop request)) eqn:Hshop.
  2:{ eexists _, log. split; [reflexivity|].
      split; [intros H; exfalso; apply Hm; exact H|].
      split.
      { intros _ H. specialize (H path eq_refl). rewrite Hroute in H. discriminate H. }
      split; [intros _ p _ _ _; split; reflexivity|].
      intros _ p s _ _ Hs Hne. rewrite Hs in Hshop.
      destruct s; [exfalso; apply Hne; reflexivity | discriminate Hshop]. }
  destruct (AppProxy.query_shop request) as [shop|] eqn:Hs; [|discriminate Hshop].
  cbn [negb].
  edestruct (getDeliveryEstimate_total LocalTZA now Date_parse fetch_oauth fetch_rates
               findUnique getLocationFromPostalCode getLocationFromIP shop
               (GeoService.getClientIP (AppProxy.headers request))
               (AppProxy.query_postalCode request) log)
    as [estimate [log' [Hrun _]]].
  exists (AppProxy.mkResponse 200 (Some estimate)), log'.
  split.
  { unfold Eff.try_catch, Eff.bind. rewrite Hrun. reflexivity. }
  split; [intros H; exfalso; apply Hm; exact H|].
  split.
  { intros _ H. specialize (H path eq_refl). rewrite Hroute in H. discriminate H. }
  split.
  { intros _ p _ _ H. discriminate H. }
  intros _ p s _ _ H _. injection H as <-.
  exists estimate. split; [reflexivity | exact Hrun].
Qed.

Lemma loader_always_answers_witness :
  exists (response : AppProxy.Response) (log' : list Eff.Event),
    AppProxy.loader 0 Sample.thursday_afternoon Scenario.parse_thursday
      Scenario.grant_oauth (Scenario.rates_of Scenario.dated_detail)
      (Sample.store_of (Some Sample.settings)) Sample.lookup_tallahassee
      Sample.locate_nothing Scenario.proxy_request tt []
    = (JS.Ok response, tt, log')
    /\ AppProxy.status response = 200.
Proof.
  destruct (loader_always_answers 0 Sample.thursday_afternoon Scenario.parse_thursday
              Scenario.grant_oauth (Scenario.rates_of Scenario.dated_detail)
              (Sample.store_of (Some Sample.settings)) Sample.lookup_tallahassee
              Sample.locate_nothing Scenario.proxy_request [])
    as [response [log' [Hrun [_ [_ [_ Hok]]]]]].
  exists response, log'. split; [exact Hrun|].
  destruct (Hok ltac:(discriminate) "api/delivery-estimate" "shop.example"
              eq_refl eq_refl eq_refl ltac:(discriminate))
    as [estimate [-> _]].
  reflexivity.
Defined.

